(** * Qualit-EnR directory scraper: a shallow embedding

    The development follows the two source files of the repository:

    - [utils/basescraper.py]: the class [BaseScraper] (throttling delay,
      the retried [make_request], [save_to_csv]);
    - [qualit_enr_scraper.py]: the class [QualitEnrScraper]
      ([_get_company_details], [scrape_region_category]).

    Python methods become functions in a state-and-exception monad over an
    explicit [world] (the scraper object, the heap of header and cookie
    dictionaries, the file system, the trace of observable events).  The
    collaborators outside the repository (the remote site, the random
    generator, [urljoin]) are fields of an environment record [env]. *)

From Stdlib Require Import Ascii String ZArith QArith Lqa.
From stdpp Require Import gmap strings list fin_maps pretty.

Local Open Scope Z_scope.
Local Open Scope string_scope.
Local Open Scope list_scope.

(** ** Python string built-ins used by the scraper *)

Module Py.

(** [sep.join(l)] *)
Fixpoint join (sep : string) (l : list string) : string :=
  match l with
  | [] => ""
  | [x] => x
  | x :: rest => x +:+ sep +:+ join sep rest
  end.

(** Worker of [s.split(sep)] for a non-empty [sep]: scans [s] from the
    left; [skip] counts the characters of a separator occurrence that are
    still to be dropped, [cur] is the current segment, reversed. *)
Fixpoint split_go (sep : string) (skip : nat) (cur : string) (s : string)
  : list string :=
  match s with
  | EmptyString => [String.rev cur]
  | String c s' =>
      match skip with
      | S k => split_go sep k cur s'
      | O =>
          if String.prefix sep s
          then String.rev cur :: split_go sep (String.length sep - 1) "" s'
          else split_go sep 0 (String c cur) s'
      end
  end.

(** [s.split(sep)]; Python raises [ValueError] on an empty separator,
    rendered here as [None]. *)
Definition split (sep s : string) : option (list string) :=
  match sep with
  | EmptyString => None
  | _ => Some (split_go sep 0 "" s)
  end.

(** Worker of [s.replace(old, new)] for a non-empty [old]. *)
Fixpoint replace_go (old new : string) (skip : nat) (s : string) : string :=
  match s with
  | EmptyString => ""
  | String c s' =>
      match skip with
      | S k => replace_go old new k s'
      | O =>
          if String.prefix old s
          then new +:+ replace_go old new (String.length old - 1) s'
          else String c (replace_go old new 0 s')
      end
  end.

Definition replace (old new s : string) : string :=
  match old with
  | EmptyString => s   (* not used by the scraper with an empty pattern *)
  | _ => replace_go old new 0 s
  end.

(** ASCII white space as skipped by [int()]. *)
Definition is_space (c : ascii) : bool :=
  let n := nat_of_ascii c in
  ((9 <=? n) && (n <=? 13) || (n =? 32))%nat.

Fixpoint lstrip (s : string) : string :=
  match s with
  | String c s' => if is_space c then lstrip s' else s
  | EmptyString => ""
  end.

Definition strip (s : string) : string :=
  String.rev (lstrip (String.rev (lstrip s))).

Definition digit_of (c : ascii) : option Z :=
  let n := nat_of_ascii c in
  if ((48 <=? n) && (n <=? 57))%nat then Some (Z.of_nat n - 48) else None.

(** Decimal digits with single underscores allowed between digits.
    [acc] is the value read so far, [after_digit] tells whether the
    previous character was a digit. *)
Fixpoint digits_go (acc : Z) (after_digit : bool) (s : string) : option Z :=
  match s with
  | EmptyString => if after_digit then Some acc else None
  | String c s' =>
      match digit_of c with
      | Some d => digits_go (10 * acc + d) true s'
      | None =>
          if (Ascii.eqb c "_" && after_digit)%bool
          then digits_go acc false s'
          else None
      end
  end.

(** [int(s)] on a string of ASCII characters: surrounding white space,
    an optional sign, then decimal digits.  [None] stands for
    [ValueError].  Python additionally accepts non-ASCII spaces and
    digits; such inputs are outside this definition. *)
Definition int (s : string) : option Z :=
  match strip s with
  | String "-" ds => Z.opp <$> digits_go 0 false ds
  | String "+" ds => digits_go 0 false ds
  | ds => digits_go 0 false ds
  end.

(** [l[0]], [l[1]] and [l[-1]]; [None] stands for [IndexError]. *)
Definition first {A} (l : list A) : option A := l !! 0%nat.
Definition second {A} (l : list A) : option A := l !! 1%nat.
Definition last {A} (l : list A) : option A := list.last l.

End Py.

(** ** Data model *)

(** Header and cookie dictionaries (key order is irrelevant to the HTTP
    layer). *)
Abbreviation dict := (gmap string string).

(** A scraped record: a Python dict whose insertion order is the column
    order of the CSV file. *)
Definition record := list (string * string).

Definition keys (d : record) : list string := d.*1.

(** [d.get(k, default)] *)
Fixpoint get (d : record) (k : string) (dflt : string) : string :=
  match d with
  | [] => dflt
  | (k', v) :: rest => if String.eqb k' k then v else get rest k dflt
  end.

(** The view of a parsed document ([BeautifulSoup]) that the scraper
    observes: one field per query it makes.  [None] is the [None] that
    [find] returns for a missing element. *)
Record soup := {
  h1 : option string;
    (* soup.find("h1"), with its get_text(strip=True) *)
  address_block : option string;
    (* soup.find("div", "fs-lg lh-md"), with its get_text("||", True) *)
  skills_heading : option (option string);
    (* soup.find("h2", string="Nos compétences"); inside, the text of its
       find_next_sibling("div", "cms"), if there is such a sibling *)
  phone_container : option (option string);
    (* soup.find("div", "phone-container d-none"); inside, the text of its
       first <a>, if there is one *)
  search_results_count : option string;
    (* soup.find(id="company-search-results"), with its get_text(strip=True) *)
  results_items : list string
    (* the href of every soup.find_all("a", "results-item") *)
}.

Record response := {
  status_code : Z;
  text : string
}.

Inductive exn :=
| RequestException (msg : string)
    (* requests.exceptions.RequestException: connection errors, timeouts *)
| HTTPError (status : Z)
    (* the RequestException subclass raised by raise_for_status *)
| ValueError (msg : string)
| AttributeError
| IndexError
| CsvError
| OtherException (msg : string).

Definition is_RequestException (e : exn) : bool :=
  match e with
  | RequestException _ | HTTPError _ => true
  | _ => false
  end.

(** [str(e)] *)
Definition str_exn (e : exn) : string :=
  match e with
  | RequestException m | ValueError m | OtherException m => m
  | HTTPError st => pretty st +:+ " Error"
  | AttributeError => "'NoneType' object has no attribute"
  | IndexError => "list index out of range"
  | CsvError => "iterable expected"
  end.

Abbreviation loc := nat (only parsing).

Record request := {
  rq_method : string;
  rq_url : string;
  rq_headers : dict;
  rq_cookies : dict;
  rq_curl : bool        (* sent through curl_cffi rather than the session *)
}.

(** Outcome of one HTTP exchange: a response, or the exception the client
    raised. *)
Inductive http_result :=
| Responded (r : response)
| Failed (e : exn).

(** CSV files are kept at the level of rows, as [csv.reader] returns them
    and [csv.writer] takes them.  [Content []] is a file of size 0;
    [Unreadable] is an existing, non-empty file on which reading raises.
    (A non-empty file without any row, such as a lone byte-order mark, is
    not represented.) *)
Definition row := list string.

Inductive file :=
| Content (rows : list row)
| Unreadable.

Inductive fmode := ModeA | ModeW.

(** What [save_to_csv] receives as [data]: a single dict, or a list whose
    elements are dicts, lists/tuples, or something else that is neither
    (and not iterable), [IOther]. *)
Inductive item :=
| IDict (d : record)
| IList (r : row)
| IOther.

Inductive pydata :=
| DNone
| DDict (d : record)
| DList (l : list item).

Inductive level := DEBUG | INFO | WARNING | ERROR.

(** One constructor per logging statement of the two classes, with the
    values it interpolates. *)
Inductive message :=
| MsgSleeping (d : Q)
| MsgMakingRequest (method url : string) (attempt : Z)
| MsgRequestCompleted (count : Z) (url : string) (status : Z)
| MsgRequestFailed (attempt : Z) (e : exn) (url : string)
| MsgUnexpectedError (attempt : Z) (e : exn) (url : string)
| MsgParsingHtml
| MsgNoData
| MsgConvertedDict
| MsgSavingCsv (filename : string)
| MsgErrorCheckingHeader
| MsgSavedCsv (filename : string)
| MsgFailedCsv (filename : string) (e : exn)
| MsgScrapingDetails (link : string)
| MsgErrorParsingDetails (link : string) (e : exn)
| MsgStartingScrape (category region : string)
| MsgScrapingPage (page : Z) (category region : string)
| MsgFoundResults (total_count total_pages : Z)
| MsgNoTotalPages (e : exn)
| MsgPageCompleted (page total_pages : Z) (found : nat)
| MsgCompletedScrape (category region : string) (total : nat).

Inductive event :=
| Throttle (d : Q)           (* time.sleep in _random_delay *)
| Backoff (d : Z)            (* time.sleep between two tries of @retry *)
| Exchange (rq : request)    (* the HTTP call leaves the process *)
| Log (lv : level) (m : message).

(** The scraper object: the attributes set by [BaseScraper.__init__] and
    [QualitEnrScraper.__init__].  The two default dictionaries are
    references into the heap. *)
Record scraper := {
  site_name : string;
  base_url : option string;
  use_curl : bool;
  default_headers : loc;
  default_cookies : loc;
  request_delay : option (Q * Q);
  max_retries : Z;
  request_count : Z;
  output_file : string
}.

Record world := {
  self : scraper;
  heap : gmap nat dict;       (* dictionary objects *)
  fs : gmap string file;      (* the files, by path *)
  trace : list event;         (* oldest first *)
  exchanges : nat;            (* HTTP exchanges made so far *)
  draws : nat                 (* random numbers drawn so far *)
}.

(** Collaborators outside the repository. *)
Record env := {
  random : nat -> Q;
    (* the k-th value returned by random.random() *)
  server : nat -> request -> http_result;
    (* what the k-th HTTP exchange of the run yields *)
  urljoin : string -> string -> string;
  BeautifulSoup : string -> soup
}.

(** ** The state-and-exception monad *)

Inductive result (A : Type) :=
| Ok (a : A)
| Raise (e : exn).
Arguments Ok {A} a.
Arguments Raise {A} e.

Definition M (A : Type) : Type := world -> result A * world.

Definition ret {A} (a : A) : M A := fun w => (Ok a, w).

Definition bind {A B} (m : M A) (k : A -> M B) : M B :=
  fun w => match m w with
           | (Ok a, w') => k a w'
           | (Raise e, w') => (Raise e, w')
           end.

Definition raise {A} (e : exn) : M A := fun w => (Raise e, w).

(** [try: m  except Exception as e: h e] *)
Definition try_except {A} (m : M A) (h : exn -> M A) : M A :=
  fun w => match m w with
           | (Ok a, w') => (Ok a, w')
           | (Raise e, w') => h e w'
           end.

Notation "x <- c1 ;; c2" := (bind c1 (fun x => c2))
  (at level 100, c1 at next level, c2 at level 200, right associativity).
Notation "'run' c1 ;; c2" := (bind c1 (fun _ => c2))
  (at level 100, c1 at next level, c2 at level 200, right associativity).

Definition set_self (f : scraper -> scraper) (w : world) : world :=
  {| self := f (self w); heap := heap w; fs := fs w; trace := trace w;
     exchanges := exchanges w; draws := draws w |}.

Definition set_heap (h : gmap nat dict) (w : world) : world :=
  {| self := self w; heap := h; fs := fs w; trace := trace w;
     exchanges := exchanges w; draws := draws w |}.

Definition set_fs (f : gmap string file) (w : world) : world :=
  {| self := self w; heap := heap w; fs := f; trace := trace w;
     exchanges := exchanges w; draws := draws w |}.

Definition emit (e : event) : M unit :=
  fun w => (Ok tt,
            {| self := self w; heap := heap w; fs := fs w;
               trace := trace w ++ [e];
               exchanges := exchanges w; draws := draws w |}).

Definition log (lv : level) (m : message) : M unit := emit (Log lv m).

Definition gets {A} (f : world -> A) : M A := fun w => (Ok (f w), w).

Definition modify (f : world -> world) : M unit := fun w => (Ok tt, f w).

(** ** [utils/basescraper.py]: class [BaseScraper] *)

Module BaseScraper.

(** The headers [__init__] installs when none carries a user agent. *)
Definition fallback_headers : list (string * string) :=
  [ ("User-Agent",
     "Mozilla/5.0 (Windows NT 10.0; Win64; x64) AppleWebKit/537.36 (KHTML, like Gecko) Chrome/125.0.0.0 Safari/537.36");
    ("Accept",
     "text/html,application/xhtml+xml,application/xml;q=0.9,image/webp,*/*;q=0.8");
    ("Accept-Language", "en-US,en;q=0.5") ].

Fixpoint lstrip_slash (s : string) : string :=
  match s with
  | String "/" s' => lstrip_slash s'
  | _ => s
  end.

(** [s.rstrip('/')] *)
Definition rstrip_slash (s : string) : string :=
  String.rev (lstrip_slash (String.rev s)).

(** Truth value of a string, of an optional list, of [data]. *)
Definition nonempty (s : string) : bool :=
  match s with EmptyString => false | _ => true end.

Definition truthy_names (f : option (list string)) : bool :=
  match f with
  | None | Some [] => false
  | Some _ => true
  end.

Definition truthy_data (d : pydata) : bool :=
  match d with
  | DNone | DDict [] | DList [] => false
  | _ => true
  end.

(** [d1.update(d2)] and [{**d1, **d2}]: the entries of [d2] win. *)
Definition merged (d1 d2 : dict) : dict := d2 ∪ d1.

(** [BaseScraper.__init__].  [headers] and [cookies] are the dictionary
    objects passed by the caller (references into [h]), if any.  The
    attribute [output_file] is set by the subclass.  Logging handlers are
    not part of the model. *)
Definition __init__ (name : string) (base : option string) (curl : bool)
    (headers cookies : option loc) (delay : option (Q * Q)) (retries : Z)
    (out : string) (h : gmap nat dict) : scraper * gmap nat dict :=
  let adopt (arg : option loc) (h : gmap nat dict) : loc * gmap nat dict :=
    match arg with
    | Some l =>
        match h !! l with
        | Some d => if decide (d = ∅)
                    then let l' := fresh (dom h) in (l', <[l' := ∅]> h)
                    else (l, h)
        | None => let l' := fresh (dom h) in (l', <[l' := ∅]> h)
        end
    | None => let l' := fresh (dom h) in (l', <[l' := ∅]> h)
    end in
  let '(lh, h1) := adopt headers h in
  let '(lc, h2) := adopt cookies h1 in
  let hd := default ∅ (h2 !! lh) in
  let h3 :=
    if nonempty (default "" (hd !! "User-Agent")) then h2
    else <[lh := merged hd (list_to_map fallback_headers)]> h2 in
  ({| site_name := name;
      base_url := match base with
                  | Some b => if nonempty b then Some (rstrip_slash b) else None
                  | None => None
                  end;
      use_curl := curl;
      default_headers := lh;
      default_cookies := lc;
      request_delay := delay;
      max_retries := retries;
      request_count := 0;
      output_file := out |}, h3).

Section WithEnv.
Variable E : env.

(** [random.uniform(a, b)], that is [a + (b - a) * random()]. *)
Definition uniform (a b : Q) : M Q :=
  fun w =>
    (Ok (a + (b - a) * random E (draws w))%Q,
     {| self := self w; heap := heap w; fs := fs w; trace := trace w;
        exchanges := exchanges w; draws := S (draws w) |}).

Definition _random_delay : M unit :=
  rd <- gets (fun w => request_delay (self w)) ;;
  match rd with
  | Some (lo, hi) =>
      if negb (Qle_bool hi 0) then
        delay <- uniform lo hi ;;
        run log INFO (MsgSleeping delay) ;;
        emit (Throttle delay)
      else ret tt
  | None => ret tt
  end.

Definition _log_request (url method : string) (attempt : Z) : M unit :=
  log DEBUG (MsgMakingRequest method url attempt).

(** A new dictionary object. *)
Definition alloc (d : dict) : M loc :=
  fun w => let l := fresh (dom (heap w)) in
           (Ok l, set_heap (<[l := d]> (heap w)) w).

Definition deref (l : loc) : M dict :=
  gets (fun w => default ∅ (heap w !! l)).

(** [curl_requests.request(...)] or [self.session.request(...)]: the
    exchange with the site. *)
Definition http (rq : request) : M response :=
  fun w =>
    let w' := {| self := self w; heap := heap w; fs := fs w;
                 trace := trace w ++ [Exchange rq];
                 exchanges := S (exchanges w); draws := draws w |} in
    match server E (exchanges w) rq with
    | Responded r => (Ok r, w')
    | Failed e => (Raise e, w')
    end.

(** [response.raise_for_status()] *)
Definition raise_for_status (r : response) : M unit :=
  if ((400 <=? status_code r)%Z && (status_code r <? 600)%Z)
  then raise (HTTPError (status_code r))
  else ret tt.

Definition is_absolute (url : string) : bool :=
  String.prefix "http://" url || String.prefix "https://" url.

(** The body of [make_request], before decoration.  [_attempt] is the
    keyword argument of that name, when the caller passes one.  The
    assignment [kwargs['_attempt'] = attempt + 1] of the first handler
    writes to the dictionary local to the failing call and has no
    effect that another call can see; [params], [data], [json_data],
    [allow_redirects] and [timeout] go to the client unchanged. *)
Definition make_request_body (url method : string)
    (headers cookies : option dict) (_attempt : option Z) : M response :=
  run _random_delay ;;
  run modify (set_self (fun s =>
        {| site_name := site_name s; base_url := base_url s;
           use_curl := use_curl s;
           default_headers := default_headers s;
           default_cookies := default_cookies s;
           request_delay := request_delay s;
           max_retries := max_retries s;
           request_count := request_count s + 1;
           output_file := output_file s |})) ;;
  let attempt := default 1 _attempt in
  s <- gets self ;;
  dh <- deref (default_headers s) ;;
  merged_headers <- alloc (merged dh (default ∅ headers)) ;;
  dc <- deref (default_cookies s) ;;
  merged_cookies <- alloc (merged dc (default ∅ cookies)) ;;
  let url :=
    match base_url s with
    | Some b => if negb (is_absolute url) && nonempty b
                then urljoin E b url else url
    | None => url
    end in
  run _log_request url method attempt ;;
  try_except
    (hs <- deref merged_headers ;;
     cs <- deref merged_cookies ;;
     response <- http {| rq_method := method; rq_url := url;
                         rq_headers := hs; rq_cookies := cs;
                         rq_curl := use_curl s |} ;;
     count <- gets (fun w => request_count (self w)) ;;
     run log INFO (MsgRequestCompleted count url (status_code response)) ;;
     run raise_for_status response ;;
     ret response)
    (fun e =>
       if is_RequestException e then
         run log ERROR (MsgRequestFailed attempt e url) ;;
         raise e
       else
         run log ERROR (MsgUnexpectedError attempt e url) ;;
         raise (RequestException ("Unexpected error: " +:+ str_exn e))).

(** Modelled from the spec: the decorator [retry] of the third-party
    package of that name, which is not part of the repository.  The
    decorated function is called; when it raises and tries remain, the
    wrapper sleeps [delay] seconds, multiplies [delay] by [backoff] and
    calls again; the exception of the last try goes to the caller.
    [more] is the number of tries left after the current one. *)
Fixpoint retry_loop {A} (more : nat) (delay backoff : Z) (f : M A) : M A :=
  try_except f
    (fun e =>
       match more with
       | O => raise e
       | S k =>
           run emit (Backoff delay) ;;
           retry_loop k (delay * backoff) backoff f
       end).

(** [@retry(tries, delay, backoff)] for [tries >= 1]. *)
Definition retry {A} (tries : nat) (delay backoff : Z) (f : M A) : M A :=
  retry_loop (Nat.pred tries) delay backoff f.

(** [make_request], as callers see it:
    [@retry(tries=3, delay=1, backoff=2, logger=None)]. *)
Definition make_request (url method : string)
    (headers cookies : option dict) (_attempt : option Z) : M response :=
  retry 3 1 2 (make_request_body url method headers cookies _attempt).

Definition get_soup (html_content : string) : M soup :=
  run log DEBUG MsgParsingHtml ;;
  ret (BeautifulSoup E html_content).

End WithEnv.

(** *** [save_to_csv] *)

(** [os.path.getsize(filename) > 0] *)
Definition size_positive (f : file) : bool :=
  match f with
  | Content [] => false
  | _ => true
  end.

(** [open(filename, write_mode, ...)]: mode ['w'] truncates, both modes
    create a missing file. *)
Definition open_file (filename : string) (write_mode : fmode) : M unit :=
  modify (fun w =>
    match write_mode, fs w !! filename with
    | ModeA, Some _ => w
    | _, _ => set_fs (<[filename := Content []]> (fs w)) w
    end).

(** One more row at the end of the open file. *)
Definition append_row (filename : string) (r : row) : M unit :=
  modify (fun w =>
    match fs w !! filename with
    | Some (Content rows) =>
        set_fs (<[filename := Content (rows ++ [r])]> (fs w)) w
    | _ => w
    end).

(** What [csv.writer.writerow(x)] writes: the elements of the iterable
    [x]; iterating over a dict gives its keys; a value that is not
    iterable is refused. *)
Definition writer_row (x : item) : M row :=
  match x with
  | IList r => ret r
  | IDict d => ret (keys d)
  | IOther => raise CsvError
  end.

(** [csv.DictWriter._dict_to_list] with the default [restval] and
    [extrasaction='raise']. *)
Definition dict_to_list (fieldnames : list string) (x : item) : M row :=
  match x with
  | IDict d =>
      if forallb (fun k => bool_decide (k ∈ fieldnames)) (keys d)
      then ret ((fun k => get d k "") <$> fieldnames)
      else raise (ValueError "dict contains fields not in fieldnames")
  | _ => raise AttributeError
  end.

(** [writer.writerows(data)]: rows are written one after the other, so
    the rows before a refused one are in the file. *)
Fixpoint writerows (conv : item -> M row) (filename : string)
    (data : list item) : M unit :=
  match data with
  | [] => ret tt
  | x :: rest =>
      r <- conv x ;;
      run append_row filename r ;;
      writerows conv filename rest
  end.

Definition is_ModeW (m : fmode) : bool :=
  match m with ModeW => true | ModeA => false end.

Definition truthy_row (r : option row) : bool :=
  match r with
  | None | Some [] => false
  | Some _ => true
  end.

(** The block under [with open(filename, 'r', ...)] (lines 288-311): the
    values of [header_needed], [write_mode] and [data] it leaves.  After
    [next(reader, None)] has consumed the first row, [f.seek(0)] rewinds
    the file, so [list(reader)] yields every row, the first included. *)
Definition check_header (f : file) (fieldnames : option (list string))
    (mode : fmode) (data : list item) : M (bool * fmode * list item) :=
  match f with
  | Unreadable => raise (OtherException "unreadable file")
  | Content rows =>
      let existing_header := head rows in
      if truthy_row existing_header
         && bool_decide (existing_header = fieldnames)
      then ret (false, mode, data)
      else
        let existing_data := rows in
        let existing_data :=
          match existing_header with
          | Some hd =>
              if truthy_row existing_header
                 && negb (bool_decide (existing_header = fieldnames))
              then hd :: existing_data
              else existing_data
          | None => existing_data
          end in
        ret (true, ModeW, (IList <$> existing_data) ++ data)
  end.

Definition save_to_csv (data : pydata) (filename : string)
    (fieldnames : option (list string)) (mode : fmode) : M unit :=
  try_except
    (if negb (truthy_data data) then
       log WARNING MsgNoData
     else
       data <- match data with
               | DDict d => run log DEBUG MsgConvertedDict ;; ret [IDict d]
               | DList l => ret l
               | DNone => ret []
               end ;;
       run log INFO (MsgSavingCsv filename) ;;
       fieldnames <-
         match head data with
         | Some (IDict d) =>
             ret (Some (if truthy_names fieldnames
                        then default [] fieldnames
                        else keys d))
         | Some (IList _) =>
             if truthy_names fieldnames then ret fieldnames
             else raise (ValueError "Fieldnames required for list data")
         | _ => ret fieldnames
         end ;;
       existing <- gets (fun w => fs w !! filename) ;;
       checked <-
         match mode, existing with
         | ModeA, Some f =>
             if size_positive f then
               try_except (check_header f fieldnames mode data)
                 (fun e =>
                    run log WARNING MsgErrorCheckingHeader ;;
                    ret (true, ModeW, data))
             else ret (true, mode, data)
         | _, _ => ret (true, mode, data)
         end ;;
       let '(header_needed, write_mode, data) := checked in
       run open_file filename write_mode ;;
       run match head data with
           | Some (IDict _) =>
               let names := default [] fieldnames in
               run (if is_ModeW write_mode || header_needed
                    then append_row filename names else ret tt) ;;
               writerows (dict_to_list names) filename data
           | Some (IList _) =>
               run (if (is_ModeW write_mode || header_needed)
                       && truthy_names fieldnames
                    then append_row filename (default [] fieldnames)
                    else ret tt) ;;
               writerows writer_row filename data
           | _ =>
               raise (ValueError "Data must be a list of dictionaries or lists")
           end ;;
       log DEBUG (MsgSavedCsv filename))
    (fun e =>
       run log ERROR (MsgFailedCsv filename e) ;;
       raise e).

End BaseScraper.

(** ** [qualit_enr_scraper.py] *)

Module QualitEnrConfig.

Definition SITE_NAME : string := "qualit-enr".
Definition BASE_URL : string := "https://www.qualit-enr.org".
Definition USE_CURL : bool := false.

Definition DEFAULT_HEADERS : list (string * string) :=
  [ ("User-Agent",
     "Mozilla/5.0 (Windows NT 10.0; Win64; x64) AppleWebKit/537.36 (KHTML, like Gecko) Chrome/91.0.4472.124 Safari/537.36");
    ("Accept",
     "text/html,application/xhtml+xml,application/xml;q=0.9,image/avif,image/webp,image/apng,*/*;q=0.8,application/signed-exchange;v=b3;q=0.7");
    ("Accept-Language", "en-US,en;q=0.9");
    ("Referer", "https://www.qualit-enr.org/annuaire/");
    ("Sec-Fetch-Dest", "document");
    ("Sec-Fetch-Mode", "navigate");
    ("Sec-Fetch-Site", "same-origin");
    ("Sec-Fetch-User", "?1");
    ("Upgrade-Insecure-Requests", "1") ].

Definition DEFAULT_COOKIES : list (string * string) :=
  [ ("axeptio_authorized_vendors",
     "%2Cgoogle_analytics%2CGoogleRecaptcha%2Caddthis%2Chotjar%2CYoutube%2Cgoogle_recaptcha%2Cyoutube%2C");
    ("axeptio_all_vendors",
     "%2Cgoogle_analytics%2CGoogleRecaptcha%2Caddthis%2Chotjar%2CYoutube%2Cgoogle_recaptcha%2Cyoutube%2C");
    ("axeptio_cookies",
     "{%22$$token%22:%22lsvu0voywrb8zj1i8yw83r%22%2C%22$$date%22:%222025-03-26T17:55:51.726Z%22%2C%22$$cookiesVersion%22:{%22name%22:%22qenr%22%2C%22identifier%22:%225df8f53f730c99249ab59382%22}%2C%22google_analytics%22:true%2C%22GoogleRecaptcha%22:true%2C%22addthis%22:true%2C%22hotjar%22:true%2C%22Youtube%22:true%2C%22google_recaptcha%22:true%2C%22youtube%22:true%2C%22$$completed%22:true}");
    ("_ga", "GA1.2.628301976.1743011727");
    ("_gid", "GA1.2.1514183877.1743011752");
    ("_hjSession_2459276",
     "eyJpZCI6IjM4M2IwNWJmLTIwOWQtNDZmMC1hMzE1LTI3ZTIzZGQwMDdlMSIsImMiOjE3NDMwMTE3NTQ1MzEsInMiOjAsInIiOjAsInNiIjowLCJzciI6MCwic2UiOjAsImZzIjoxLCJzcCI6MH0=");
    ("_hjSessionUser_2459276",
     "eyJpZCI6ImM2MmFjN2Y1LWE0NWItNTViOS05NDM0LWNlYmJkODBiMmFmNCIsImNyZWF0ZWQiOjE3NDMwMTE3NTQ1MzAsImV4aXN0aW5nIjp0cnVlfQ==");
    ("_ga_7F6CMXQNPE", "GS1.1.1743011726.1.1.1743011843.0.0.0") ].

(** Line 33: [REQUEST_DELAY = None  # Random delay between 1-3 seconds] *)
Definition REQUEST_DELAY : option (Q * Q) := None.

Definition MAX_RETRIES : Z := 3.

End QualitEnrConfig.

Module QualitEnrScraper.
Import QualitEnrConfig.

(** The two class-level dictionaries are objects of their own: the
    constructor receives references to them. *)
Definition class_heap : gmap nat dict :=
  {[ 0%nat := list_to_map DEFAULT_HEADERS;
     1%nat := list_to_map DEFAULT_COOKIES ]}.

(** [QualitEnrScraper()], in a file system [files]. *)
Definition __init__ (files : gmap string file) : world :=
  let '(s, h) :=
    BaseScraper.__init__ SITE_NAME (Some BASE_URL) USE_CURL
      (Some 0%nat) (Some 1%nat) REQUEST_DELAY MAX_RETRIES
      "data/qualit-enr_output.csv" class_heap in
  {| self := s; heap := h; fs := files; trace := [];
     exchanges := 0; draws := 0 |}.

(** [x] when it is there, the exception [e] otherwise. *)
Definition expect {A} (e : exn) (x : option A) : M A :=
  match x with
  | Some a => ret a
  | None => raise e
  end.

(** Lines 64-71: the address block cut into street, postal code and
    city. *)
Definition split_address (addr : string) : M (string * string * string) :=
  addr_sp <- expect (ValueError "empty separator") (Py.split "||" addr) ;;
  street <- expect IndexError (Py.first addr_sp) ;;
  zip_city <- expect IndexError (Py.last addr_sp) ;;
  zip_city_sp <- expect (ValueError "empty separator") (Py.split " " zip_city) ;;
  zip_code <- expect IndexError (Py.first zip_city_sp) ;;
  let city := Py.join " " (tail zip_city_sp) in
  ret (street, zip_code, city).

(** Line 111 *)
Definition estimated_pages (total_count : Z) : Z := total_count / 20 + 1.

(** Lines 109-110 *)
Definition total_count_of (s : soup) : M Z :=
  count_text <- expect AttributeError (search_results_count s) ;;
  parts <- expect (ValueError "empty separator") (Py.split "/" count_text) ;;
  part <- expect IndexError (Py.second parts) ;;
  expect (ValueError "invalid literal for int()")
    (Py.int (Py.replace " résultat(s)" "" part)).

(** Lines 106-114: the value of [total_pages] in the iteration for
    [page].  It starts from 1 in every iteration and is estimated from
    the result count on page 1 only. *)
Definition total_pages_on (page : Z) (s : soup) : M Z :=
  if (page =? 1)%Z then
    try_except
      (total_count <- total_count_of s ;;
       let total_pages := estimated_pages total_count in
       run log INFO (MsgFoundResults total_count total_pages) ;;
       ret total_pages)
      (fun e =>
         run log WARNING (MsgNoTotalPages e) ;;
         ret 1)
  else ret 1.

Definition truthy_record (d : record) : bool :=
  match d with [] => false | _ => true end.

Definition search_url (page : Z) (category region : string) : string :=
  BASE_URL +:+ "/annuaire/page/" +:+ pretty page +:+ "/?type=" +:+ category
    +:+ "&ville=" +:+ region +:+ "&city&lat&lng&loc".

(** Lines 62-91 of [_get_company_details]: the [try] block that reads
    the record off the parsed page, and its handler. *)
Definition parse_details (link category : string) (soup : soup) : M record :=
  try_except
    (name <- expect AttributeError (h1 soup) ;;
     addr <- expect AttributeError (address_block soup) ;;
     parts <- split_address addr ;;
     let '(street, zip_code, city) := parts in
     skills_name <-
       match skills_heading soup with
       | Some sibling => expect AttributeError sibling
       | None => ret ""
       end ;;
     phone <-
       match phone_container soup with
       | Some a => expect AttributeError a
       | None => ret ""
       end ;;
     ret [ ("link", link); ("type", category); ("name", name);
           ("zip_code", zip_code); ("city", city); ("street", street);
           ("phone", phone); ("skills_name", skills_name) ])
    (fun e =>
       run log ERROR (MsgErrorParsingDetails link e) ;;
       ret []).

Section WithEnv.
Variable E : env.

Definition _get_company_details (link category : string) : M record :=
  run log INFO (MsgScrapingDetails link) ;;
  response <- BaseScraper.make_request E link "GET" None None None ;;
  soup <- BaseScraper.get_soup E (text response) ;;
  parse_details link category soup.

(** The [for item in items] loop (lines 119-124); [results] is the list
    the loop appends to. *)
Fixpoint process_items (items : list string) (category : string)
    (results : list record) : M (list record) :=
  match items with
  | [] => ret results
  | href :: rest =>
      company_data <- _get_company_details href category ;;
      if truthy_record company_data then
        let results := results ++ [company_data] in
        out <- gets (fun w => output_file (self w)) ;;
        run BaseScraper.save_to_csv (DList [IDict company_data]) out
              None ModeA ;;
        process_items rest category results
      else process_items rest category results
  end.

(** The [while True] loop (lines 99-133), by iterations: [None] when
    [fuel] iterations did not reach the [break]. *)
Fixpoint scrape_loop (fuel : nat) (page : Z) (all_results : list record)
    (category region : string) : M (option (list record)) :=
  match fuel with
  | O => ret None
  | S fuel' =>
      let url := search_url page category region in
      run log INFO (MsgScrapingPage page category region) ;;
      response <- BaseScraper.make_request E url "GET" None None None ;;
      soup <- BaseScraper.get_soup E (text response) ;;
      total_pages <- total_pages_on page soup ;;
      results <- process_items (results_items soup) category [] ;;
      let all_results := all_results ++ results in
      run log INFO (MsgPageCompleted page total_pages (length results)) ;;
      if (total_pages <=? page)%Z then ret (Some all_results)
      else scrape_loop fuel' (page + 1) all_results category region
  end.

Definition scrape_region_category (fuel : nat) (category region : string)
  : M (option (list record)) :=
  run log INFO (MsgStartingScrape category region) ;;
  r <- scrape_loop fuel 1 [] category region ;;
  match r with
  | Some all_results =>
      run log INFO (MsgCompletedScrape category region (length all_results)) ;;
      ret (Some all_results)
  | None => ret None
  end.

End WithEnv.

End QualitEnrScraper.

(** ** Observations on runs *)

(** The events a run added to the trace. *)
Definition new_events (w w' : world) : list event :=
  drop (length (trace w)) (trace w').

Definition is_throttle (e : event) : bool :=
  match e with Throttle _ => true | _ => false end.

Definition is_exchange (e : event) : bool :=
  match e with Exchange _ => true | _ => false end.

(** The waits of the retry wrapper, in order. *)
Fixpoint backoffs (t : list event) : list Z :=
  match t with
  | [] => []
  | Backoff d :: t' => d :: backoffs t'
  | _ :: t' => backoffs t'
  end.

(** The URLs requested, in order. *)
Fixpoint requested (t : list event) : list string :=
  match t with
  | [] => []
  | Exchange rq :: t' => rq_url rq :: requested t'
  | _ :: t' => requested t'
  end.

(** The search pages whose iteration started, in order (line 101). *)
Fixpoint pages_scraped (t : list event) : list Z :=
  match t with
  | [] => []
  | Log _ (MsgScrapingPage p _ _) :: t' => p :: pages_scraped t'
  | _ :: t' => pages_scraped t'
  end.

(** An exchange that [make_request] counts as failed: the client raised,
    or the status is one that [raise_for_status] refuses. *)
Definition attempt_fails (r : http_result) : bool :=
  match r with
  | Failed _ => true
  | Responded r => (400 <=? status_code r)%Z && (status_code r <? 600)%Z
  end.

(** The rows of a file. *)
Definition rows_of (w : world) (filename : string) : option (list row) :=
  match fs w !! filename with
  | Some (Content rows) => Some rows
  | _ => None
  end.

(** What is kept across the calls of a run: where the two default
    dictionaries are, and the content of every dictionary that exists. *)
Definition defaults_kept (w w' : world) : Prop :=
  default_headers (self w') = default_headers (self w)
  /\ default_cookies (self w') = default_cookies (self w)
  /\ forall l, is_Some (heap w !! l) -> heap w' !! l = heap w !! l.

(** Everything of the scraper object but its request counter. *)
Definition config_kept (w w' : world) : Prop :=
  site_name (self w') = site_name (self w)
  /\ base_url (self w') = base_url (self w)
  /\ use_curl (self w') = use_curl (self w)
  /\ request_delay (self w') = request_delay (self w)
  /\ max_retries (self w') = max_retries (self w)
  /\ output_file (self w') = output_file (self w).

Definition files_kept (w w' : world) : Prop := fs w' = fs w.

(** The run added events to the trace, all of them satisfying [P]. *)
Definition trace_grows (P : event -> Prop) (w w' : world) : Prop :=
  exists t, trace w' = trace w ++ t /\ Forall P t.

(** A computation keeps a relation between the world it starts in and the
    world it leaves, whatever it returns. *)
Definition preserves {A} (R : world -> world -> Prop) (m : M A) : Prop :=
  forall w, R w (m w).2.

(** What one call of the body of [make_request] gives back for the
    outcome of its exchange: the response, unless the status is refused;
    the client's exception, wrapped when it is not a [RequestException]. *)
Definition attempt_outcome (r : http_result) : result response :=
  match r with
  | Responded resp =>
      if attempt_fails r then Raise (HTTPError (status_code resp)) else Ok resp
  | Failed e =>
      Raise (if is_RequestException e then e
             else RequestException ("Unexpected error: " +:+ str_exn e))
  end.

Definition not_backoff (e : event) : Prop :=
  match e with Backoff _ => False | _ => True end.

Definition not_throttle (e : event) : Prop := is_throttle e = false.

Definition not_page_start (e : event) : Prop :=
  match e with Log _ (MsgScrapingPage _ _ _) => False | _ => True end.

(** A scraper without a delay window stays so and never sleeps before a
    request. *)
Definition unthrottled (w w' : world) : Prop :=
  request_delay (self w) = None ->
  request_delay (self w') = None /\ trace_grows not_throttle w w'.

(** ** Sample pages, sites and worlds *)

Module Samples.
Import QualitEnrConfig.

(** A listing without the skills heading. *)
Definition listing_acme : soup :=
  {| h1 := Some "ACME Solaire";
     address_block := Some "12 Rue des Fleurs||75000 Paris";
     skills_heading := None;
     phone_container := Some (Some "01 02 03 04 05");
     search_results_count := None;
     results_items := [] |}.

(** A listing without [<h1>]. *)
Definition listing_untitled : soup :=
  {| h1 := None;
     address_block := Some "1 Place du Marché||72000 Le Mans";
     skills_heading := Some (Some "Pompe à chaleur");
     phone_container := None;
     search_results_count := None;
     results_items := [] |}.

(** A search page that announces 45 results. *)
Definition search_45 : soup :=
  {| h1 := None;
     address_block := None;
     skills_heading := None;
     phone_container := None;
     search_results_count := Some "1 - 20 / 45 résultat(s)";
     results_items := ["/entreprise/sans-titre"; "/entreprise/acme"] |}.

(** The body of a sample page is its own URL; the sample parser reads
    the document off it. *)
Definition parse (html : string) : soup :=
  if String.prefix (BASE_URL +:+ "/annuaire/page/") html then search_45
  else if String.eqb html (BASE_URL +:+ "/entreprise/sans-titre")
       then listing_untitled
       else listing_acme.

Definition page_of (rq : request) : response :=
  {| status_code := 200; text := rq_url rq |}.

Definition site (srv : nat -> request -> http_result) : env :=
  {| random := fun _ => (1 # 2)%Q;
     server := srv;
     urljoin := fun base url => base +:+ url;
     BeautifulSoup := parse |}.

(** Every exchange succeeds. *)
Definition site_up : env := site (fun _ rq => Responded (page_of rq)).

(** No exchange succeeds: alternately a connection error and a 503. *)
Definition site_down : env :=
  site (fun k rq =>
          if Nat.even k then Failed (RequestException "connection refused")
          else Responded {| status_code := 503; text := "" |}).

(** The first two exchanges fail, the later ones succeed. *)
Definition site_flaky : env :=
  site (fun k rq =>
          match k with
          | O => Failed (RequestException "timed out")
          | S O => Responded {| status_code := 500; text := "" |}
          | _ => Responded (page_of rq)
          end).

Definition out : string := "data/qualit-enr_output.csv".

(** [QualitEnrScraper()] with no output file yet. *)
Definition fresh_world : world := QualitEnrScraper.__init__ ∅.

(** A [BaseScraper] built with the default delay window (1.0, 3.0). *)
Definition throttled_world : world :=
  let '(s, h) :=
    BaseScraper.__init__ "sample" (Some "https://example.org/") false
      None None (Some (1, 3)%Q) 3 "out.csv" ∅ in
  {| self := s; heap := h; fs := ∅; trace := [];
     exchanges := 0; draws := 0 |}.

Definition acme_url : string := BASE_URL +:+ "/entreprise/acme".

End Samples.

(** The fetch that [_get_company_details] makes for [link] (lines 58-59),
    started in [w]. *)
Definition details_fetch (E : env) (link : string) (w : world)
  : result response * world :=
  BaseScraper.make_request E link "GET" None None None
    (log INFO (MsgScrapingDetails link) w).2.

(** The columns of a record, in the order of lines 79-88. *)
Definition columns : list string :=
  ["link"; "type"; "name"; "zip_code"; "city"; "street"; "phone";
   "skills_name"].

Module SampleRuns.
Import Samples.

Definition untitled_url : string :=
  QualitEnrConfig.BASE_URL +:+ "/entreprise/sans-titre".

Definition category : string := "installateurs-photovoltaique".

Definition acme_record : record :=
  [ ("link", acme_url); ("type", category); ("name", "ACME Solaire");
    ("zip_code", "75000"); ("city", "Paris");
    ("street", "12 Rue des Fleurs"); ("phone", "01 02 03 04 05");
    ("skills_name", "") ].

(** An output file left by an earlier tool, with other columns. *)
Definition stale_rows : list row :=
  [ ["nom"; "ville"]; ["Dupont"; "Lyon"] ].

Definition stale_world : world :=
  QualitEnrScraper.__init__ {[ out := Content stale_rows ]}.

End SampleRuns.

(** The row that stands for a record under the field order [fieldnames]:
    the values of a dict in that order, the elements of a list. *)
Definition rendered (fieldnames : list string) (x : item) : row :=
  match x with
  | IDict d => (fun k => get d k "") <$> fieldnames
  | IList r => r
  | IOther => []
  end.

(** The specification of a rewrite, in its words: the new header, then all
    previously existing rows (the stale header among them, as the first
    one), then the newly appended rows. *)
Definition rewritten_as_specified (fieldnames : list string)
    (existing : list row) (records : list item) : list row :=
  fieldnames :: existing ++ (rendered fieldnames <$> records).

(** The two default dictionaries are the same objects, with the same
    content, in [w'] as in [w]. *)
Definition same_defaults (w w' : world) : Prop :=
  default_headers (self w') = default_headers (self w)
  /\ default_cookies (self w') = default_cookies (self w)
  /\ heap w' !! default_headers (self w') = heap w !! default_headers (self w)
  /\ heap w' !! default_cookies (self w') = heap w !! default_cookies (self w).

(** ** More observations on requests *)

(** The URL that [make_request] asks for (lines 164-165): [url] itself
    when it is absolute or when there is no base URL, the join with the
    base URL otherwise. *)
Definition resolved_url (E : env) (s : scraper) (url : string) : string :=
  match base_url s with
  | Some b =>
      if negb (BaseScraper.is_absolute url) && BaseScraper.nonempty b
      then urljoin E b url else url
  | None => url
  end.

(** The request that a call of [make_request] started in [w] hands to the
    client (lines 161-198). *)
Definition request_sent (E : env) (w : world) (url method : string)
    (headers cookies : option dict) : request :=
  {| rq_method := method;
     rq_url := resolved_url E (self w) url;
     rq_headers :=
       BaseScraper.merged (default ∅ (heap w !! default_headers (self w)))
         (default ∅ headers);
     rq_cookies :=
       BaseScraper.merged (default ∅ (heap w !! default_cookies (self w)))
         (default ∅ cookies);
     rq_curl := use_curl (self w) |}.

(** The scraper object refers to two existing dictionaries. *)
Definition well_formed (w : world) : Prop :=
  is_Some (heap w !! default_headers (self w))
  /\ is_Some (heap w !! default_cookies (self w)).

(** The exchanges of a trace, in order. *)
Fixpoint exchanged (t : list event) : list request :=
  match t with
  | [] => []
  | Exchange rq :: t' => rq :: exchanged t'
  | _ :: t' => exchanged t'
  end.

(** The sleeps of [_random_delay] in a trace, in order. *)
Fixpoint throttles (t : list event) : list Q :=
  match t with
  | [] => []
  | Throttle d :: t' => d :: throttles t'
  | _ :: t' => throttles t'
  end.

(** The events that matter to throttling, in order: the sleeps of
    [_random_delay] and the exchanges. *)
Fixpoint sleeps_and_exchanges (t : list event) : list event :=
  match t with
  | [] => []
  | Throttle d :: t' => Throttle d :: sleeps_and_exchanges t'
  | Exchange rq :: t' => Exchange rq :: sleeps_and_exchanges t'
  | _ :: t' => sleeps_and_exchanges t'
  end.

(** A sleep of [_random_delay] for the [k]-th random number, followed by
    the exchange of [rq]. *)
Definition sleep_then_exchange (E : env) (lo hi : Q) (rq : request) (k : nat)
  : list event :=
  [ Throttle (lo + (hi - lo) * random E k)%Q; Exchange rq ].

(** The result of three tries of the same request, the first of them
    being exchange number [k]: the first response that is accepted, or the
    failure of the third try. *)
Definition three_tries (E : env) (k : nat) (rq : request) : result response :=
  match attempt_outcome (server E k rq) with
  | Ok r => Ok r
  | Raise _ =>
      match attempt_outcome (server E (S k) rq) with
      | Ok r => Ok r
      | Raise _ => attempt_outcome (server E (S (S k)) rq)
      end
  end.

(** The request counter moves with the number of exchanges. *)
Definition counted (w w' : world) : Prop :=
  request_count (self w') - request_count (self w)
  = Z.of_nat (exchanges w') - Z.of_nat (exchanges w).

(** Across a run that starts from a well-formed scraper: the scraper is
    still well formed and the counter has moved with the exchanges. *)
Definition counting (w w' : world) : Prop :=
  well_formed w -> well_formed w' /\ counted w w'.

(** The attempt number in the failure logs of a trace is always [a]. *)
Definition logs_attempt (a : Z) (e : event) : Prop :=
  match e with
  | Log _ (MsgRequestFailed a' _ _) | Log _ (MsgUnexpectedError a' _ _)
  | Log _ (MsgMakingRequest _ _ a') => a' = a
  | _ => True
  end.

(** ** More observations on the output file *)

(** The test of [csv.DictWriter] on a record: no key outside the field
    names. *)
Definition uses_only (fieldnames : list string) (d : record) : bool :=
  forallb (fun k => bool_decide (k ∈ fieldnames)) (keys d).

(** The cases in which [save_to_csv] writes the file from its start: mode
    ['w'], or a file that is missing, empty or unreadable. *)
Definition starts_afresh (mode : fmode) (f : option file) : bool :=
  match mode, f with
  | ModeW, _ => true
  | ModeA, None => true
  | ModeA, Some (Content []) => true
  | ModeA, Some Unreadable => true
  | ModeA, Some (Content (_ :: _)) => false
  end.

(** The rows of a file below its first row; none for a missing, empty or
    unreadable file. *)
Definition data_rows (w : world) (filename : string) : list row :=
  match fs w !! filename with
  | Some (Content (_ :: rows)) => rows
  | _ => []
  end.

(** Successive calls [save_to_csv(batch, filename)], one per batch of
    dicts, as a caller that saves as it goes makes them. *)
Fixpoint append_batches (batches : list (list record)) (filename : string)
  : M unit :=
  match batches with
  | [] => ret tt
  | batch :: rest =>
      run BaseScraper.save_to_csv (DList (IDict <$> batch)) filename None ModeA ;;
      append_batches rest filename
  end.

(** The other files are as they were. *)
Definition others_kept (filename : string) (w w' : world) : Prop :=
  forall f, f <> filename -> fs w' !! f = fs w !! f.

(** The field names [save_to_csv] settles on for dicts (line 274): those
    given, if any, the keys of the first dict otherwise. *)
Definition field_order (fieldnames : option (list string)) (d : record)
  : list string :=
  if BaseScraper.truthy_names fieldnames then default [] fieldnames else keys d.

(** The scraper object, the dictionaries and the counters of the
    environment are as they were. *)
Definition object_kept (w w' : world) : Prop :=
  self w' = self w /\ heap w' = heap w
  /\ exchanges w' = exchanges w /\ draws w' = draws w.

(** An output file that cannot be read, and one that has the columns of
    the scraper and a first record. *)
Definition unreadable_world : world :=
  QualitEnrScraper.__init__ {[ Samples.out := Unreadable ]}.

Definition started_world : world :=
  QualitEnrScraper.__init__
    {[ Samples.out := Content [columns; rendered columns (IDict SampleRuns.acme_record)];
       "notes.csv" := Content [["kept"]] ]}.

(** A record with a column that the file does not have. *)
Definition odd_record : record :=
  [ ("link", "https://www.qualit-enr.org/entreprise/x"); ("fax", "none") ].

(** ** More observations on listings and pages *)

(** A listing page from which a record can be read: a main heading, an
    address block, and no skills heading without its sibling block, no
    phone container without its link. *)
Definition page_complete (s : soup) : bool :=
  bool_decide (h1 s <> None) && bool_decide (address_block s <> None)
  && bool_decide (skills_heading s <> Some None)
  && bool_decide (phone_container s <> Some None).

(** The text of an optional element inside an optional container, the
    empty string when the container is missing. *)
Definition inner_text (x : option (option string)) : string :=
  match x with
  | Some (Some t) => t
  | _ => ""
  end.

(** ** More observations on a scrape *)

(** An output file that takes the records of the scraper as they come:
    it is missing, empty or unreadable, or its first row is the columns
    of a record. *)
Definition header_ready (f : option file) : bool :=
  match f with
  | Some (Content (hd :: _)) => bool_decide (hd = columns)
  | _ => true
  end.

(** The files after the records [new] were saved to [out], one call of
    [save_to_csv] each: untouched when there is none, else [out] holds the
    columns, the rows it had below its first one, and one row per record. *)
Definition files_after (new : list record) (out : string) (w : world)
  : gmap string file :=
  match new with
  | [] => fs w
  | _ => <[out := Content (columns
                             :: data_rows w out
                                ++ (rendered columns <$> (IDict <$> new)))]>
           (fs w)
  end.

(** ** More observations on the constructor *)

(** The dictionary object the constructor settles on for an argument
    (lines 51-52, [default_headers or {}]): the caller's, when there is
    one and it is not empty, a new empty one otherwise. *)
Definition adopted (arg : option loc) (h : gmap nat dict)
  : loc * gmap nat dict :=
  match arg with
  | Some l =>
      match h !! l with
      | Some d => if decide (d = ∅)
                  then let l' := fresh (dom h) in (l', <[l' := ∅]> h)
                  else (l, h)
      | None => let l' := fresh (dom h) in (l', <[l' := ∅]> h)
      end
  | None => let l' := fresh (dom h) in (l', <[l' := ∅]> h)
  end.

(** [k] slashes. *)
Fixpoint slashes (k : nat) : string :=
  match k with
  | O => ""
  | S k' => String "/" (slashes k')
  end.

(** ** [BaseScraper.clean_text] *)

Module CleanText.

(** A Python [str] by its code points: the white space of [re] and of
    [str.strip] is a set of code points, some of them beyond one byte. *)
Definition text := list N.

(** [c.isspace()], also the class [\s] of [re] on a [str]: U+0009 to
    U+000D, U+001C to U+0020, U+0085, U+00A0, U+1680, U+2000 to U+200A,
    U+2028, U+2029, U+202F, U+205F and U+3000. *)
Definition isspace (c : N) : bool :=
  ((9 <=? c) && (c <=? 13) || (28 <=? c) && (c <=? 32)
   || (c =? 133) || (c =? 160) || (c =? 5760)
   || (8192 <=? c) && (c <=? 8202)
   || (c =? 8232) || (c =? 8233) || (c =? 8239) || (c =? 8287)
   || (c =? 12288))%N.

Definition SPACE : N := 32.
Definition NEWLINE : N := 10.
Definition RETURN : N := 13.

(** [re.sub(r'\s+', ' ', text)]: every maximal run of white space
    becomes one space; [in_run] tells that the run has begun. *)
Fixpoint sub_spaces (in_run : bool) (t : text) : text :=
  match t with
  | [] => []
  | c :: t' =>
      if isspace c
      then if in_run then sub_spaces true t' else SPACE :: sub_spaces true t'
      else c :: sub_spaces false t'
  end.

(** [text.replace(old, new)] for one-character strings. *)
Definition replace_char (old new : N) (t : text) : text :=
  (fun c => if (c =? old)%N then new else c) <$> t.

(** [text.lstrip()], [text.rstrip()], [text.strip()] *)
Fixpoint lstrip (t : text) : text :=
  match t with
  | [] => []
  | c :: t' => if isspace c then lstrip t' else t
  end.

Fixpoint rstrip (t : text) : text :=
  match t with
  | [] => []
  | c :: t' =>
      match rstrip t' with
      | [] => if isspace c then [] else [c]
      | r => c :: r
      end
  end.

Definition strip (t : text) : text := rstrip (lstrip t).

(** Lines 518-530.  [not text] also holds of [None], which gives the
    empty string as the empty string does. *)
Definition clean_text (t : text) (preserve_newlines : bool) : text :=
  match t with
  | [] => []
  | _ =>
      let t := sub_spaces false t in
      let t :=
        if negb preserve_newlines
        then replace_char RETURN SPACE (replace_char NEWLINE SPACE t)
        else t in
      strip t
  end.

End CleanText.

(** A text in which white space is only single spaces between two other
    characters; [after_space] tells that the character before is a space
    (or that there is none). *)
Fixpoint tidy_go (after_space : bool) (t : CleanText.text) : bool :=
  match t with
  | [] => negb after_space
  | c :: t' =>
      if CleanText.isspace c
      then (c =? CleanText.SPACE)%N && negb after_space && tidy_go true t'
      else tidy_go false t'
  end.

Definition tidy (t : CleanText.text) : bool :=
  match t with
  | [] => true
  | _ => tidy_go true t
  end.

(** The characters of a text that are not white space, in order. *)
Fixpoint letters (t : CleanText.text) : CleanText.text :=
  match t with
  | [] => []
  | c :: t' => if CleanText.isspace c then letters t' else c :: letters t'
  end.

(** Like [tidy_go], but a space may end the text. *)
Fixpoint spaced_go (after_space : bool) (t : CleanText.text) : bool :=
  match t with
  | [] => true
  | c :: t' =>
      if CleanText.isspace c
      then (c =? CleanText.SPACE)%N && negb after_space && spaced_go true t'
      else spaced_go false t'
  end.

(** ** The script of [qualit_enr_scraper.py] (lines 139-151) *)

Module Script.

Definition categories_urls : list string :=
  ["installateurs-photovoltaique"; "installateurs-pompe-a-chaleur"].

Definition regions_code : list string := ["72"; "75"].

Section WithEnv.
Variable E : env.
Variable fuel : nat.

(** The inner loop, [for category in categories_urls]; [None] when a
    scrape did not reach its [break] within [fuel] iterations. *)
Fixpoint for_categories (categories : list string) (region : string)
    (all_data : list record) : M (option (list record)) :=
  match categories with
  | [] => ret (Some all_data)
  | category :: rest =>
      r <- QualitEnrScraper.scrape_region_category E fuel category region ;;
      match r with
      | Some region_data =>
          for_categories rest region (all_data ++ region_data)
      | None => ret None
      end
  end.

(** The outer loop, [for region in regions_code]. *)
Fixpoint for_regions (regions : list string) (all_data : list record)
  : M (option (list record)) :=
  match regions with
  | [] => ret (Some all_data)
  | region :: rest =>
      r <- for_categories categories_urls region all_data ;;
      match r with
      | Some all_data => for_regions rest all_data
      | None => ret None
      end
  end.

(** The script in a file system [files], up to the value of [all_data];
    the statistics it prints after that are read off the scraper and the
    clock. *)
Definition main (files : gmap string file)
  : result (option (list record)) * world :=
  for_regions regions_code [] (QualitEnrScraper.__init__ files).

End WithEnv.

End Script.

(** What a run from [w] to [w'] that saved the records [new] leaves: a
    well-formed scraper with the same output file, a counter that moved
    with the exchanges, and the records in the file. *)
Definition saved_and_counted (w w' : world) (new : list record) : Prop :=
  well_formed w' /\ counted w w'
  /\ output_file (self w') = output_file (self w)
  /\ Forall (fun d => keys d = columns) new
  /\ fs w' = files_after new (output_file (self w)) w.

(** ** More observations on search pages *)

(** The number of results that a search page announces (lines 109-110),
    when it can be read off the page. *)
Definition announced (s : soup) : option Z :=
  match search_results_count s with
  | Some count_text =>
      match Py.split "/" count_text with
      | Some parts =>
          match Py.second parts with
          | Some part => Py.int (Py.replace " résultat(s)" "" part)
          | None => None
          end
      | None => None
      end
  | None => None
  end.

(** A search page that announces fewer than 20 results, or no number
    that can be read. *)
Definition few_results (s : soup) : bool :=
  match announced s with
  | Some n => (n <? 20)%Z
  | None => true
  end.

(** A search page that announces 7 results and lists none, and a site
    all of whose pages read as this one. *)
Definition search_7 : soup :=
  {| h1 := None;
     address_block := None;
     skills_heading := None;
     phone_container := None;
     search_results_count := Some "1 - 7 / 7 résultat(s)";
     results_items := [] |}.

Definition site_small : env :=
  {| random := fun _ => (1 # 2)%Q;
     server := fun _ rq => Responded (Samples.page_of rq);
     urljoin := fun base url => base +:+ url;
     BeautifulSoup := fun _ => search_7 |}.

(** * Properties *)


(** ** The string built-ins on samples *)

Example split_bars :
  Py.split "||" "12 Rue des Fleurs||75000 Paris"
  = Some ["12 Rue des Fleurs"; "75000 Paris"].
Proof. reflexivity. Qed.

Example split_trailing : Py.split "||" "a||b||" = Some ["a"; "b"; ""].
Proof. reflexivity. Qed.

Example split_spaces :
  Py.split " " " 75000  Paris" = Some [""; "75000"; ""; "Paris"].
Proof. reflexivity. Qed.

Example replace_overlap : Py.replace "aa" "b" "aaa" = "ba".
Proof. reflexivity. Qed.

Example int_samples :
  Py.int " 45" = Some 45 /\ Py.int "4_5" = Some 45 /\ Py.int "-45" = Some (-45)
  /\ Py.int "007" = Some 7 /\ Py.int "" = None /\ Py.int "4 5" = None
  /\ Py.int "4__5" = None /\ Py.int "_45" = None /\ Py.int "45_" = None.
Proof. repeat split; reflexivity. Qed.

(** ** Combinators keep what their parts keep *)

Section Preserves.
Context (R : world -> world -> Prop) `{!PreOrder R}.

Lemma preserves_ret {A} (a : A) : preserves R (ret a).
Proof. intros w. simpl. reflexivity. Qed.

Lemma preserves_raise {A} (e : exn) : preserves R (@raise A e).
Proof. intros w. simpl. reflexivity. Qed.

Lemma preserves_gets {A} (f : world -> A) : preserves R (gets f).
Proof. intros w. simpl. reflexivity. Qed.

Lemma preserves_bind {A B} (m : M A) (k : A -> M B) :
  preserves R m -> (forall a, preserves R (k a)) -> preserves R (bind m k).
Proof.
  intros Hm Hk w. unfold bind. specialize (Hm w).
  destruct (m w) as [[a|e] w1]; simpl in *.
  - etransitivity; [exact Hm | apply Hk].
  - exact Hm.
Qed.

Lemma preserves_try {A} (m : M A) (h : exn -> M A) :
  preserves R m -> (forall e, preserves R (h e)) -> preserves R (try_except m h).
Proof.
  intros Hm Hh w. unfold try_except. specialize (Hm w).
  destruct (m w) as [[a|e] w1]; simpl in *.
  - exact Hm.
  - etransitivity; [exact Hm | apply Hh].
Qed.

Lemma preserves_modify (f : world -> world) :
  (forall w, R w (f w)) -> preserves R (modify f).
Proof. intros Hf w. simpl. apply Hf. Qed.

Lemma preserves_if {A} (b : bool) (m1 m2 : M A) :
  preserves R m1 -> preserves R m2 -> preserves R (if b then m1 else m2).
Proof. by destruct b. Qed.

End Preserves.

#[global] Instance defaults_kept_preorder : PreOrder defaults_kept.
Proof.
  split.
  - intros w. by repeat split.
  - intros w1 w2 w3 (Hh1 & Hc1 & Hl1) (Hh2 & Hc2 & Hl2). repeat split.
    + congruence.
    + congruence.
    + intros l Hl. rewrite Hl2; [by apply Hl1|]. by rewrite Hl1.
Qed.

#[global] Instance config_kept_preorder : PreOrder config_kept.
Proof.
  split.
  - intros w. by repeat split.
  - intros w1 w2 w3 (?&?&?&?&?&?) (?&?&?&?&?&?). repeat split; congruence.
Qed.

#[global] Instance files_kept_preorder : PreOrder files_kept.
Proof. split; unfold files_kept; [done | congruence]. Qed.

#[global] Instance trace_grows_preorder P : PreOrder (trace_grows P).
Proof.
  split.
  - intros w. exists []. by rewrite app_nil_r.
  - intros w1 w2 w3 (t1 & H1 & F1) (t2 & H2 & F2). exists (t1 ++ t2). split.
    + by rewrite H2, H1, app_assoc.
    + by apply Forall_app.
Qed.

Ltac keep_step :=
  match goal with
  | |- preserves _ (bind _ _) =>
      apply preserves_bind; [typeclasses eauto | | intros ?]
  | |- preserves _ (try_except _ _) =>
      apply preserves_try; [typeclasses eauto | | intros ?]
  | |- preserves _ (ret _) => apply preserves_ret; typeclasses eauto
  | |- preserves _ (raise _) => apply preserves_raise; typeclasses eauto
  | |- preserves _ (gets _) => apply preserves_gets; typeclasses eauto
  | |- preserves _ (if ?b then _ else _) => destruct b
  | |- preserves _ (match ?x with _ => _ end) => destruct x
  end.

Create HintDb keeps.

Ltac keeps := repeat first [ keep_step | solve [eauto with keeps] ].


#[global] Instance unthrottled_preorder : PreOrder unthrottled.
Proof.
  split.
  - intros w Hw. split; [done | reflexivity].
  - intros w1 w2 w3 H12 H23 Hw.
    destruct (H12 Hw) as [Hw2 Ht12]. destruct (H23 Hw2) as [Hw3 Ht23].
    split; [done | by etransitivity].
Qed.

(** Primitive steps: the final world is the initial one with one or two
    fields replaced, so the relation can be read off. *)
Ltac solve_kept :=
  first
    [ reflexivity
    | by repeat split
    | exists []; split; [by rewrite app_nil_r | constructor]
    | eexists [_]; split; [reflexivity | by repeat constructor]
    | intros ?; split; [done|];
      first [ exists []; split; [by rewrite app_nil_r | constructor]
            | eexists [_]; split; [reflexivity | by repeat constructor] ] ].

Ltac prim := intros ?; cbn; repeat case_match; cbn; solve_kept.

#[export] Hint Extern 5 (preserves _ (emit _)) => prim : keeps.
#[export] Hint Extern 5 (preserves _ (log _ _)) => prim : keeps.
#[export] Hint Extern 5 (preserves _ (modify _)) => prim : keeps.
#[export] Hint Extern 5 (preserves _ (BaseScraper.uniform _ _ _)) => prim : keeps.
#[export] Hint Extern 5 (preserves _ (BaseScraper.http _ _)) =>
  unfold BaseScraper.http; prim : keeps.
#[export] Hint Extern 6 (preserves _ (BaseScraper.alloc _)) => prim : keeps.
#[export] Hint Extern 5 (preserves _ (BaseScraper.open_file _ _)) =>
  unfold BaseScraper.open_file; prim : keeps.
#[export] Hint Extern 5 (preserves _ (BaseScraper.append_row _ _)) =>
  unfold BaseScraper.append_row; prim : keeps.

Lemma random_delay_unthrottled E : preserves unthrottled (BaseScraper._random_delay E).
Proof.
  intros w Hw. unfold BaseScraper._random_delay, bind, gets. rewrite Hw. simpl.
  split; [done | reflexivity].
Qed.
#[export] Hint Resolve random_delay_unthrottled : keeps.

Lemma alloc_defaults_kept d : preserves defaults_kept (BaseScraper.alloc d).
Proof.
  intros w. repeat split. simpl. intros l Hl.
  rewrite lookup_insert_ne; [done|]. intros Heq. subst l.
  apply (is_fresh (dom (heap w))). by apply elem_of_dom.
Qed.
#[export] Hint Resolve alloc_defaults_kept : keeps.

Ltac unfold_request :=
  unfold BaseScraper.make_request_body, BaseScraper._random_delay,
    BaseScraper._log_request, BaseScraper.raise_for_status,
    BaseScraper.deref, BaseScraper.get_soup.

Lemma body_config_kept E url method headers cookies att :
  preserves config_kept (BaseScraper.make_request_body E url method headers cookies att).
Proof. unfold_request. keeps. Qed.

Lemma body_files_kept E url method headers cookies att :
  preserves files_kept (BaseScraper.make_request_body E url method headers cookies att).
Proof. unfold_request. keeps. Qed.

Lemma body_no_backoff E url method headers cookies att :
  preserves (trace_grows not_backoff) (BaseScraper.make_request_body E url method headers cookies att).
Proof. unfold_request. keeps. Qed.

Lemma body_no_page_start E url method headers cookies att :
  preserves (trace_grows not_page_start) (BaseScraper.make_request_body E url method headers cookies att).
Proof. unfold_request. keeps. Qed.

Lemma body_unthrottled E url method headers cookies att :
  preserves unthrottled (BaseScraper.make_request_body E url method headers cookies att).
Proof.
  unfold BaseScraper.make_request_body, BaseScraper._log_request,
    BaseScraper.raise_for_status, BaseScraper.deref.
  keeps.
Qed.

Lemma body_defaults_kept E url method headers cookies att :
  preserves defaults_kept (BaseScraper.make_request_body E url method headers cookies att).
Proof. unfold_request. keeps. Qed.

Lemma retry_loop_preserves R `{!PreOrder R} {A} (f : M A) more delay backoff :
  preserves R f -> (forall d, preserves R (emit (Backoff d))) ->
  preserves R (BaseScraper.retry_loop more delay backoff f).
Proof.
  intros Hf Hb. revert delay. induction more as [|k IH]; intros delay; simpl; keeps.
Qed.


(** ** One call of the body of [make_request] *)

Lemma random_delay_ok E w :
  exists w1, BaseScraper._random_delay E w = (Ok tt, w1)
    /\ self w1 = self w /\ heap w1 = heap w /\ fs w1 = fs w
    /\ exchanges w1 = exchanges w.
Proof.
  unfold BaseScraper._random_delay, bind, gets.
  destruct (request_delay (self w)) as [[lo hi]|]; [|by eexists].
  destruct (negb (Qle_bool hi 0)); by eexists.
Qed.

Lemma body_outcome E url method headers cookies att w :
  exists rq w1,
    BaseScraper.make_request_body E url method headers cookies att w
    = (attempt_outcome (server E (exchanges w) rq), w1)
    /\ exchanges w1 = S (exchanges w)
    /\ request_count (self w1) = request_count (self w) + 1.
Proof.
  destruct (random_delay_ok E w) as (w0 & Hd & Hs & Hh & Hf & Hx).
  unfold BaseScraper.make_request_body. unfold bind at 1. rewrite Hd.
  unfold try_except, bind, BaseScraper.deref, BaseScraper.alloc,
    BaseScraper._log_request, BaseScraper.http, gets, modify, log, emit, ret.
  cbn. rewrite Hx.
  match goal with
  | |- context [server E (exchanges w) ?rq] =>
      exists rq; destruct (server E (exchanges w) rq) as [resp|e] eqn:Hsrv
  end.
  - cbn. unfold BaseScraper.raise_for_status, raise, ret.
    destruct ((400 <=? status_code resp)%Z && (status_code resp <? 600)%Z) eqn:Hst;
      cbn; eexists; (split; [reflexivity|]); cbn; by rewrite ?Hx, ?Hs.
  - cbn. unfold raise. destruct (is_RequestException e); cbn;
      eexists; (split; [reflexivity|]); cbn; by rewrite ?Hx, ?Hs.
Qed.

Lemma backoffs_app t1 t2 : backoffs (t1 ++ t2) = backoffs t1 ++ backoffs t2.
Proof.
  induction t1 as [|e t1 IH]; [done|].
  destruct e; simpl; by rewrite IH.
Qed.

Lemma backoffs_none t : Forall not_backoff t -> backoffs t = [].
Proof.
  induction 1 as [|e t He _ IH]; [done|]. by destruct e.
Qed.

Lemma new_events_app w w' t : trace w' = trace w ++ t -> new_events w w' = t.
Proof. unfold new_events. intros ->. by rewrite drop_app_length. Qed.

Lemma failed_attempt_raises r :
  attempt_fails r = true ->
  exists e, attempt_outcome r = Raise e /\ is_RequestException e = true.
Proof.
  destruct r as [resp|e]; simpl.
  - intros ->. by eexists.
  - intros _. eexists. split; [done|]. by destruct e.
Qed.

Lemma good_attempt_returns r :
  attempt_fails r = false ->
  exists resp, r = Responded resp /\ attempt_outcome r = Ok resp.
Proof.
  destruct r as [resp|e]; simpl; [|done].
  intros ->. by eexists.
Qed.

(** One call of the body: one exchange, one more counted request, no wait
    of the retry wrapper. *)
Lemma body_step E url method headers cookies att w :
  exists rq w1 t,
    BaseScraper.make_request_body E url method headers cookies att w
    = (attempt_outcome (server E (exchanges w) rq), w1)
    /\ exchanges w1 = S (exchanges w)
    /\ request_count (self w1) = request_count (self w) + 1
    /\ trace w1 = trace w ++ t
    /\ backoffs t = [].
Proof.
  destruct (body_outcome E url method headers cookies att w)
    as (rq & w1 & Hrun & Hx & Hc).
  destruct (body_no_backoff E url method headers cookies att w) as (t & Ht & HF).
  rewrite Hrun in Ht. simpl in Ht.
  exists rq, w1, t. by rewrite (backoffs_none t HF).
Qed.

(** ** The retried request *)

(** C4: when every exchange fails (the client raises, or the status is
    refused), [make_request] makes exactly three attempts, whatever
    [max_retries] is, waits 1 second and then 2 seconds between them, and
    ends by raising a [RequestException]: no response is returned. *)
Theorem make_request_gives_up E url method headers cookies att w :
  (forall k rq, attempt_fails (server E k rq) = true) ->
  exists e w',
    BaseScraper.make_request E url method headers cookies att w = (Raise e, w')
    /\ is_RequestException e = true
    /\ exchanges w' = (exchanges w + 3)%nat
    /\ backoffs (new_events w w') = [1; 2].
Proof.
  intros Hfail.
  unfold BaseScraper.make_request, BaseScraper.retry. simpl.
  destruct (body_step E url method headers cookies att w)
    as (rq1 & w1 & t1 & Hrun1 & Hx1 & _ & Ht1 & Hb1).
  destruct (failed_attempt_raises _ (Hfail (exchanges w) rq1)) as (e1 & He1 & _).
  set (w1' := (emit (Backoff 1) w1).2).
  destruct (body_step E url method headers cookies att w1')
    as (rq2 & w2 & t2 & Hrun2 & Hx2 & _ & Ht2 & Hb2).
  destruct (failed_attempt_raises _ (Hfail (exchanges w1') rq2)) as (e2 & He2 & _).
  set (w2' := (emit (Backoff (1 * 2)) w2).2).
  destruct (body_step E url method headers cookies att w2')
    as (rq3 & w3 & t3 & Hrun3 & Hx3 & _ & Ht3 & Hb3).
  destruct (failed_attempt_raises _ (Hfail (exchanges w2') rq3)) as (e3 & He3 & HR3).
  exists e3, w3.
  unfold try_except at 1. rewrite Hrun1, He1.
  unfold bind at 1. change (emit (Backoff 1) w1) with (Ok tt, w1').
  unfold try_except at 1. rewrite Hrun2, He2.
  unfold bind at 1. change (emit (Backoff (1 * 2)) w2) with (Ok tt, w2').
  unfold try_except at 1. rewrite Hrun3, He3.
  repeat split; [done | |].
  - rewrite Hx3. subst w2'. simpl. rewrite Hx2. subst w1'. simpl. rewrite Hx1. lia.
  - rewrite (new_events_app w w3 (t1 ++ [Backoff 1] ++ t2 ++ [Backoff 2] ++ t3)).
    + rewrite !backoffs_app, Hb1, Hb2, Hb3. reflexivity.
    + rewrite Ht3. subst w2'. simpl. rewrite Ht2. subst w1'. simpl.
      rewrite Ht1. by rewrite <- !app_assoc.
Qed.

Lemma make_request_gives_up_witness :
  (forall k rq, attempt_fails (server Samples.site_down k rq) = true)
  /\ exists e w',
      BaseScraper.make_request Samples.site_down Samples.acme_url "GET"
        None None None Samples.fresh_world = (Raise e, w')
      /\ is_RequestException e = true
      /\ exchanges w' = (exchanges Samples.fresh_world + 3)%nat
      /\ backoffs (new_events Samples.fresh_world w') = [1; 2].
Proof.
  assert (H : forall k rq, attempt_fails (server Samples.site_down k rq) = true).
  { intros k rq. simpl. by destruct (Nat.even k). }
  split; [exact H|].
  exact (make_request_gives_up Samples.site_down Samples.acme_url "GET"
           None None None Samples.fresh_world H).
Defined.

(** C3, as the code has it: when the first two exchanges of a call fail
    and the third succeeds, [make_request] returns the response of the
    third exchange, and [request_count] has grown by 3, once per attempt. *)
Theorem make_request_third_attempt E url method headers cookies att w :
  (forall rq, attempt_fails (server E (exchanges w) rq) = true) ->
  (forall rq, attempt_fails (server E (S (exchanges w)) rq) = true) ->
  (forall rq, attempt_fails (server E (S (S (exchanges w))) rq) = false) ->
  exists rq resp w',
    server E (S (S (exchanges w))) rq = Responded resp
    /\ BaseScraper.make_request E url method headers cookies att w = (Ok resp, w')
    /\ request_count (self w') = request_count (self w) + 3
    /\ exchanges w' = (exchanges w + 3)%nat.
Proof.
  intros Hf1 Hf2 Hok.
  unfold BaseScraper.make_request, BaseScraper.retry. simpl.
  destruct (body_step E url method headers cookies att w)
    as (rq1 & w1 & t1 & Hrun1 & Hx1 & Hc1 & _).
  destruct (failed_attempt_raises _ (Hf1 rq1)) as (e1 & He1 & _).
  set (w1' := (emit (Backoff 1) w1).2).
  destruct (body_step E url method headers cookies att w1')
    as (rq2 & w2 & t2 & Hrun2 & Hx2 & Hc2 & _).
  assert (Hx1' : exchanges w1' = S (exchanges w)) by (subst w1'; simpl; done).
  rewrite Hx1' in Hrun2.
  destruct (failed_attempt_raises _ (Hf2 rq2)) as (e2 & He2 & _).
  set (w2' := (emit (Backoff (1 * 2)) w2).2).
  destruct (body_step E url method headers cookies att w2')
    as (rq3 & w3 & t3 & Hrun3 & Hx3 & Hc3 & _).
  assert (Hx2' : exchanges w2' = S (S (exchanges w))).
  { subst w2'. simpl. by rewrite Hx2, Hx1'. }
  rewrite Hx2' in Hrun3.
  destruct (good_attempt_returns _ (Hok rq3)) as (resp & Hresp & Hout).
  rewrite Hout in Hrun3.
  exists rq3, resp, w3.
  unfold try_except at 1. rewrite Hrun1, He1.
  unfold bind at 1. change (emit (Backoff 1) w1) with (Ok tt, w1').
  unfold try_except at 1. rewrite Hrun2, He2.
  unfold bind at 1. change (emit (Backoff (1 * 2)) w2) with (Ok tt, w2').
  unfold try_except at 1. rewrite Hrun3.
  repeat split.
  - exact Hresp.
  - rewrite Hc3. subst w2'. simpl. rewrite Hc2. subst w1'. simpl. rewrite Hc1. lia.
  - rewrite Hx3, Hx2'. lia.
Qed.

Lemma make_request_third_attempt_witness :
  let w := Samples.fresh_world in
  (forall rq, attempt_fails (server Samples.site_flaky (exchanges w) rq) = true)
  /\ (forall rq, attempt_fails (server Samples.site_flaky (S (exchanges w)) rq) = true)
  /\ (forall rq, attempt_fails (server Samples.site_flaky (S (S (exchanges w))) rq) = false)
  /\ exists rq resp w',
      server Samples.site_flaky (S (S (exchanges w))) rq = Responded resp
      /\ BaseScraper.make_request Samples.site_flaky Samples.acme_url "GET"
           None None None w = (Ok resp, w')
      /\ request_count (self w') = request_count (self w) + 3
      /\ exchanges w' = (exchanges w + 3)%nat.
Proof.
  intros w.
  assert (H1 : forall rq,
             attempt_fails (server Samples.site_flaky (exchanges w) rq) = true)
    by (intros rq; reflexivity).
  assert (H2 : forall rq,
             attempt_fails (server Samples.site_flaky (S (exchanges w)) rq) = true)
    by (intros rq; reflexivity).
  assert (H3 : forall rq,
             attempt_fails (server Samples.site_flaky (S (S (exchanges w))) rq) = false)
    by (intros rq; reflexivity).
  split; [exact H1|]. split; [exact H2|]. split; [exact H3|].
  exact (make_request_third_attempt Samples.site_flaky Samples.acme_url "GET"
           None None None w H1 H2 H3).
Defined.

(** C3, as stated, fails on a call whose third attempt succeeds: the
    response is returned, and the counter has moved by 3, not by 1. *)
Lemma make_request_counts_attempts :
  (BaseScraper.make_request Samples.site_flaky Samples.acme_url "GET"
     None None None Samples.fresh_world).1
  = Ok {| status_code := 200; text := Samples.acme_url |}
  /\ request_count
       (self (BaseScraper.make_request Samples.site_flaky Samples.acme_url "GET"
                None None None Samples.fresh_world).2)
     <> request_count (self Samples.fresh_world) + 1.
Proof. vm_compute. split; [reflexivity | discriminate]. Qed.

(** ** What a request leaves alone *)

Section MakeRequestKeeps.
Context (R : world -> world -> Prop) `{!PreOrder R}.
Variables (E : env) (url method : string) (headers cookies : option dict)
          (att : option Z).
Hypothesis body_kept :
  preserves R (BaseScraper.make_request_body E url method headers cookies att).
Hypothesis backoff_kept : forall d, preserves R (emit (Backoff d)).

Lemma make_request_preserves :
  preserves R (BaseScraper.make_request E url method headers cookies att).
Proof. by apply retry_loop_preserves. Qed.
End MakeRequestKeeps.

Lemma make_request_defaults_kept E url method headers cookies att :
  preserves defaults_kept
    (BaseScraper.make_request E url method headers cookies att).
Proof.
  apply make_request_preserves;
    [typeclasses eauto | apply body_defaults_kept | auto with keeps].
Qed.

Lemma make_request_config_kept E url method headers cookies att :
  preserves config_kept
    (BaseScraper.make_request E url method headers cookies att).
Proof.
  apply make_request_preserves;
    [typeclasses eauto | apply body_config_kept | auto with keeps].
Qed.

Lemma make_request_files_kept E url method headers cookies att :
  preserves files_kept
    (BaseScraper.make_request E url method headers cookies att).
Proof.
  apply make_request_preserves;
    [typeclasses eauto | apply body_files_kept | auto with keeps].
Qed.

Lemma make_request_unthrottled E url method headers cookies att :
  preserves unthrottled
    (BaseScraper.make_request E url method headers cookies att).
Proof.
  apply make_request_preserves;
    [typeclasses eauto | apply body_unthrottled | auto with keeps].
Qed.

Lemma make_request_no_page_start E url method headers cookies att :
  preserves (trace_grows not_page_start)
    (BaseScraper.make_request E url method headers cookies att).
Proof.
  apply make_request_preserves;
    [typeclasses eauto | apply body_no_page_start | auto with keeps].
Qed.

#[export] Hint Resolve make_request_defaults_kept make_request_config_kept
  make_request_files_kept make_request_unthrottled
  make_request_no_page_start : keeps.

(** ** What the rest of a scrape leaves alone *)

Lemma writerows_preserves R `{!PreOrder R} conv filename data :
  (forall x, preserves R (conv x)) ->
  (forall r, preserves R (BaseScraper.append_row filename r)) ->
  preserves R (BaseScraper.writerows conv filename data).
Proof.
  intros Hconv Happ. induction data as [|x rest IH]; simpl; keeps.
Qed.

Ltac unfold_csv :=
  unfold BaseScraper.save_to_csv, BaseScraper.check_header,
    BaseScraper.dict_to_list, BaseScraper.writer_row.

#[export] Hint Extern 4 (preserves _ (BaseScraper.writerows _ _ _)) =>
  apply writerows_preserves;
    [ typeclasses eauto
    | intros ?; unfold_csv; keeps
    | intros ?; auto with keeps ] : keeps.

Ltac unfold_scraper :=
  unfold QualitEnrScraper._get_company_details, QualitEnrScraper.parse_details,
    QualitEnrScraper.split_address,
    QualitEnrScraper.total_pages_on, QualitEnrScraper.total_count_of,
    QualitEnrScraper.expect, BaseScraper.get_soup.

Section ScrapeKeeps.
Context (R : world -> world -> Prop) `{!PreOrder R}.
Variable E : env.
Hypothesis details_kept :
  forall link category,
    preserves R (QualitEnrScraper._get_company_details E link category).
Hypothesis save_kept :
  forall d filename,
    preserves R (BaseScraper.save_to_csv (DList [IDict d]) filename None ModeA).

Lemma process_items_preserves items category results :
  preserves R (QualitEnrScraper.process_items E items category results).
Proof.
  revert results. induction items as [|href rest IH]; intros results; simpl; keeps.
Qed.

Hypothesis request_kept :
  forall url, preserves R (BaseScraper.make_request E url "GET" None None None).
Hypothesis log_kept : forall lv m, preserves R (log lv m).

Lemma scrape_loop_preserves fuel page all_results category region :
  preserves R
    (QualitEnrScraper.scrape_loop E fuel page all_results category region).
Proof.
  revert page all_results.
  induction fuel as [|fuel IH]; intros page all_results; simpl.
  - keeps.
  - unfold_scraper. keeps. apply process_items_preserves.
Qed.

Lemma scrape_region_category_preserves fuel category region :
  preserves R (QualitEnrScraper.scrape_region_category E fuel category region).
Proof.
  unfold QualitEnrScraper.scrape_region_category. keeps.
  apply scrape_loop_preserves.
Qed.
End ScrapeKeeps.

Lemma save_to_csv_defaults_kept data filename fieldnames mode :
  preserves defaults_kept (BaseScraper.save_to_csv data filename fieldnames mode).
Proof. unfold_csv. keeps. Qed.

Lemma save_to_csv_unthrottled data filename fieldnames mode :
  preserves unthrottled (BaseScraper.save_to_csv data filename fieldnames mode).
Proof. unfold_csv. keeps. Qed.

Lemma save_to_csv_no_page_start data filename fieldnames mode :
  preserves (trace_grows not_page_start)
    (BaseScraper.save_to_csv data filename fieldnames mode).
Proof. unfold_csv. keeps. Qed.

Lemma details_defaults_kept E link category :
  preserves defaults_kept (QualitEnrScraper._get_company_details E link category).
Proof. unfold_scraper. keeps. Qed.

Lemma details_unthrottled E link category :
  preserves unthrottled (QualitEnrScraper._get_company_details E link category).
Proof. unfold_scraper. keeps. Qed.

Lemma details_no_page_start E link category :
  preserves (trace_grows not_page_start)
    (QualitEnrScraper._get_company_details E link category).
Proof. unfold_scraper. keeps. Qed.

Lemma details_files_kept E link category :
  preserves files_kept (QualitEnrScraper._get_company_details E link category).
Proof. unfold_scraper. keeps. Qed.

Lemma process_items_no_page_start E items category results :
  preserves (trace_grows not_page_start)
    (QualitEnrScraper.process_items E items category results).
Proof.
  apply process_items_preserves; [typeclasses eauto | |]; intros.
  - apply details_no_page_start.
  - apply save_to_csv_no_page_start.
Qed.

Lemma scrape_unthrottled E fuel category region :
  preserves unthrottled
    (QualitEnrScraper.scrape_region_category E fuel category region).
Proof.
  apply scrape_region_category_preserves; [typeclasses eauto | | | |]; intros.
  - apply details_unthrottled.
  - apply save_to_csv_unthrottled.
  - apply make_request_unthrottled.
  - auto with keeps.
Qed.

Lemma scrape_defaults_kept E fuel category region :
  preserves defaults_kept
    (QualitEnrScraper.scrape_region_category E fuel category region).
Proof.
  apply scrape_region_category_preserves; [typeclasses eauto | | | |]; intros.
  - apply details_defaults_kept.
  - apply save_to_csv_defaults_kept.
  - apply make_request_defaults_kept.
  - auto with keeps.
Qed.

(** ** The default headers and cookies *)

Lemma defaults_kept_same w w' :
  is_Some (heap w !! default_headers (self w)) ->
  is_Some (heap w !! default_cookies (self w)) ->
  defaults_kept w w' -> same_defaults w w'.
Proof.
  intros Hh Hc (Hlh & Hlc & Hheap). repeat split; [done | done | |].
  - rewrite Hlh. by apply Hheap.
  - rewrite Hlc. by apply Hheap.
Qed.

(** C10: a call of [make_request], with or without overrides, whatever
    the outcome of its attempts, leaves [default_headers] and
    [default_cookies] pointing to the same dictionaries with the same
    content: the merged dictionaries it sends are new objects.  The same
    holds after all the calls of a [scrape_region_category], so a later
    call finds the defaults of the construction. *)
Theorem make_request_keeps_defaults E url method headers cookies att
    fuel category region w :
  is_Some (heap w !! default_headers (self w)) ->
  is_Some (heap w !! default_cookies (self w)) ->
  same_defaults w
    (BaseScraper.make_request E url method headers cookies att w).2
  /\ same_defaults w
       (QualitEnrScraper.scrape_region_category E fuel category region w).2.
Proof.
  intros Hh Hc. split; apply defaults_kept_same; try done.
  - apply make_request_defaults_kept.
  - apply scrape_defaults_kept.
Qed.

Lemma make_request_keeps_defaults_witness :
  is_Some (heap Samples.fresh_world
             !! default_headers (self Samples.fresh_world))
  /\ is_Some (heap Samples.fresh_world
                !! default_cookies (self Samples.fresh_world))
  /\ same_defaults Samples.fresh_world
       (BaseScraper.make_request Samples.site_flaky Samples.acme_url "GET"
          (Some {[ "Referer" := "https://example.org/" ]})
          (Some {[ "_ga" := "none" ]}) None Samples.fresh_world).2
  /\ same_defaults Samples.fresh_world
       (QualitEnrScraper.scrape_region_category Samples.site_flaky 5
          SampleRuns.category "75" Samples.fresh_world).2.
Proof.
  assert (Hh : is_Some (heap Samples.fresh_world
                          !! default_headers (self Samples.fresh_world)))
    by (eexists; reflexivity).
  assert (Hc : is_Some (heap Samples.fresh_world
                          !! default_cookies (self Samples.fresh_world)))
    by (eexists; reflexivity).
  split; [exact Hh|]. split; [exact Hc|].
  exact (make_request_keeps_defaults Samples.site_flaky Samples.acme_url "GET"
           (Some {[ "Referer" := "https://example.org/" ]})
           (Some {[ "_ga" := "none" ]}) None 5 SampleRuns.category "75"
           Samples.fresh_world Hh Hc).
Defined.

(** The dictionaries sent are the defaults with the overrides on top. *)
Lemma merged_lookup (defaults overrides : dict) k :
  BaseScraper.merged defaults overrides !! k
  = match overrides !! k with
    | Some v => Some v
    | None => defaults !! k
    end.
Proof.
  unfold BaseScraper.merged. rewrite lookup_union.
  destruct (overrides !! k), (defaults !! k); reflexivity.
Qed.

(** ** The delay before a request *)



Lemma unthrottled_new_events w w' :
  unthrottled w w' -> request_delay (self w) = None ->
  Forall not_throttle (new_events w w').
Proof.
  intros H Hrd. destruct (H Hrd) as (_ & t & Ht & HF).
  by rewrite (new_events_app w w' t Ht).
Qed.

(** C6 on the scraper of the repository: [QualitEnrScraper] is built with
    [REQUEST_DELAY = None], so none of its calls of [make_request], alone
    or inside [scrape_region_category], sleeps before its exchanges; a
    request to the sample site goes out with no sleep at all before it. *)
Theorem qualit_enr_never_sleeps E files url method headers cookies att
    fuel category region :
  request_delay (self (QualitEnrScraper.__init__ files)) = None
  /\ Forall not_throttle
       (new_events (QualitEnrScraper.__init__ files)
          (BaseScraper.make_request E url method headers cookies att
             (QualitEnrScraper.__init__ files)).2)
  /\ Forall not_throttle
       (new_events (QualitEnrScraper.__init__ files)
          (QualitEnrScraper.scrape_region_category E fuel category region
             (QualitEnrScraper.__init__ files)).2)
  /\ filter (fun e => is_throttle e || is_exchange e)
       (new_events Samples.fresh_world
          (BaseScraper.make_request Samples.site_up Samples.acme_url "GET"
             None None None Samples.fresh_world).2)
     = [Exchange
          {| rq_method := "GET"; rq_url := Samples.acme_url;
             rq_headers := list_to_map QualitEnrConfig.DEFAULT_HEADERS;
             rq_cookies := list_to_map QualitEnrConfig.DEFAULT_COOKIES;
             rq_curl := false |}].
Proof.
  assert (Hrd : request_delay (self (QualitEnrScraper.__init__ files)) = None)
    by reflexivity.
  split; [exact Hrd|]. split; [|split].
  - apply unthrottled_new_events; [apply make_request_unthrottled | exact Hrd].
  - apply unthrottled_new_events; [apply scrape_unthrottled | exact Hrd].
  - vm_compute. reflexivity.
Qed.

(** ** Page count and address *)

(** C5: on page 1, when the result count parses to a non-negative
    [total_count], the total page count is [total_count // 20 + 1]. *)
Theorem total_pages_formula s total_count w :
  0 <= total_count ->
  (QualitEnrScraper.total_count_of s w).1 = Ok total_count ->
  (QualitEnrScraper.total_pages_on 1 s w).1 = Ok (total_count / 20 + 1).
Proof.
  intros _ Hcount.
  unfold QualitEnrScraper.total_pages_on. simpl.
  unfold try_except, bind.
  destruct (QualitEnrScraper.total_count_of s w) as [r w1].
  simpl in Hcount. subst r. reflexivity.
Qed.

(** 45 results: 3 pages. *)
Lemma total_pages_formula_witness :
  0 <= 45
  /\ (QualitEnrScraper.total_count_of Samples.search_45 Samples.fresh_world).1
     = Ok 45
  /\ (QualitEnrScraper.total_pages_on 1 Samples.search_45 Samples.fresh_world).1
     = Ok 3.
Proof.
  assert (H0 : 0 <= 45) by lia.
  assert (H1 : (QualitEnrScraper.total_count_of Samples.search_45
                  Samples.fresh_world).1 = Ok 45) by reflexivity.
  split; [exact H0|]. split; [exact H1|].
  exact (total_pages_formula Samples.search_45 45 Samples.fresh_world H0 H1).
Defined.

(** The rule behind it: street is the first [||] segment; the last
    segment, cut at spaces, gives the postal code (first token) and the
    city (the other tokens, joined by spaces). *)
Lemma split_address_rule addr segs street zip_city zip rest w :
  Py.split "||" addr = Some segs ->
  Py.first segs = Some street ->
  Py.last segs = Some zip_city ->
  Py.split " " zip_city = Some (zip :: rest) ->
  QualitEnrScraper.split_address addr w
  = (Ok (street, zip, Py.join " " rest), w).
Proof.
  intros Hs Hf Hl Hz.
  unfold QualitEnrScraper.split_address, QualitEnrScraper.expect, bind, ret.
  rewrite Hs. cbv beta iota. rewrite Hf. cbv beta iota.
  rewrite Hl. cbv beta iota. rewrite Hz. reflexivity.
Qed.

(** C8: the address block ["12 Rue des Fleurs||75000 Paris"] gives the
    street ["12 Rue des Fleurs"], the postal code ["75000"] and the city
    ["Paris"]; in general the street is the first [||] segment, the postal
    code the first space-separated token of the last segment, the city the
    other tokens joined by spaces. *)
Theorem split_address_sample :
  (forall w,
      QualitEnrScraper.split_address "12 Rue des Fleurs||75000 Paris" w
      = (Ok ("12 Rue des Fleurs", "75000", "Paris"), w))
  /\ (forall addr segs street zip_city zip rest w,
        Py.split "||" addr = Some segs ->
        Py.first segs = Some street ->
        Py.last segs = Some zip_city ->
        Py.split " " zip_city = Some (zip :: rest) ->
        QualitEnrScraper.split_address addr w
        = (Ok (street, zip, Py.join " " rest), w)).
Proof.
  split.
  - intros w. reflexivity.
  - intros addr segs street zip_city zip rest w.
    apply split_address_rule.
Qed.

(** A city in two words, after a middle segment. *)
Lemma split_address_sample_witness :
  Py.split "||" "1 Place du Marché||BP 12||72000 Le Mans"
  = Some ["1 Place du Marché"; "BP 12"; "72000 Le Mans"]
  /\ Py.split " " "72000 Le Mans" = Some ["72000"; "Le"; "Mans"]
  /\ QualitEnrScraper.split_address "1 Place du Marché||BP 12||72000 Le Mans"
       Samples.fresh_world
     = (Ok ("1 Place du Marché", "72000", "Le Mans"), Samples.fresh_world).
Proof.
  split; [reflexivity|]. split; [reflexivity|].
  exact (proj2 split_address_sample
           "1 Place du Marché||BP 12||72000 Le Mans"
           ["1 Place du Marché"; "BP 12"; "72000 Le Mans"]
           "1 Place du Marché" "72000 Le Mans" "72000" ["Le"; "Mans"]
           Samples.fresh_world eq_refl eq_refl eq_refl eq_refl).
Defined.

(** ** Listings that lack an element *)

Lemma split_go_nonempty sep s : forall skip cur, Py.split_go sep skip cur s <> [].
Proof.
  induction s as [|c s IH]; intros skip cur.
  - discriminate.
  - cbn [Py.split_go]. destruct skip; [|apply IH].
    destruct (String.prefix sep (String c s)); [discriminate | apply IH].
Qed.

(** Cutting an address block never fails. *)
Lemma split_address_total addr w :
  exists p, QualitEnrScraper.split_address addr w = (Ok p, w).
Proof.
  destruct (Py.split_go "||" 0 "" addr) as [|street segs] eqn:Hsegs.
  { by apply split_go_nonempty in Hsegs. }
  destruct (proj2 (last_is_Some (street :: segs)) ltac:(done)) as [zip_city Hl].
  destruct (Py.split_go " " 0 "" zip_city) as [|z rest] eqn:Hz.
  { by apply split_go_nonempty in Hz. }
  eexists.
  apply (split_address_rule addr (street :: segs) street zip_city z rest);
    [by rewrite <- Hsegs | done | done | by rewrite <- Hz].
Qed.

(** A page without the skills heading whose other elements are there:
    a full record, with the empty string as [skills_name]. *)
Lemma parse_details_no_skills link category s w :
  skills_heading s = None ->
  h1 s <> None -> address_block s <> None -> phone_container s <> Some None ->
  exists d,
    QualitEnrScraper.parse_details link category s w = (Ok d, w)
    /\ keys d = columns
    /\ get d "skills_name" "(no such column)" = "".
Proof.
  intros Hskills Hh1 Haddr Hphone.
  unfold QualitEnrScraper.parse_details, try_except, bind,
    QualitEnrScraper.expect, ret.
  destruct (h1 s) as [name|]; [|done].
  destruct (address_block s) as [addr|]; [|done].
  rewrite Hskills.
  destruct (split_address_total addr w) as ([[street zip] city] & ->).
  destruct (phone_container s) as [[a|]|]; [| done |]; by eexists.
Qed.

(** A page without [<h1>]: the handler logs the error and the result is
    the empty dict. *)
Lemma parse_details_no_h1 link category s w :
  h1 s = None ->
  exists w', QualitEnrScraper.parse_details link category s w = (Ok [], w')
             /\ fs w' = fs w.
Proof.
  intros Hh1.
  unfold QualitEnrScraper.parse_details, try_except, bind,
    QualitEnrScraper.expect, ret.
  rewrite Hh1. simpl. by eexists.
Qed.

(** After a successful fetch, the record is read off the parsed body. *)
Lemma details_after_fetch E link category w resp w1 :
  details_fetch E link w = (Ok resp, w1) ->
  QualitEnrScraper._get_company_details E link category w
  = QualitEnrScraper.parse_details link category (BeautifulSoup E (text resp))
      (log DEBUG MsgParsingHtml w1).2.
Proof.
  unfold details_fetch. intros Hfetch.
  unfold QualitEnrScraper._get_company_details.
  unfold bind at 1.
  change (log INFO (MsgScrapingDetails link) w)
    with (Ok tt, (log INFO (MsgScrapingDetails link) w).2).
  cbv beta iota. unfold bind at 1. rewrite Hfetch. reflexivity.
Qed.

(** C7: once the page of a listing is fetched, (1) a page without the
    skills heading, whose other elements are there, gives a record with
    all its columns and the empty string as [skills_name]; (2) a page
    without [<h1>] gives the empty dict, the files are as before, and the
    loop over the listings goes on with the next one, its list of results
    unchanged. *)
Theorem listing_parse_failures E link category w resp w1 :
  details_fetch E link w = (Ok resp, w1) ->
  (skills_heading (BeautifulSoup E (text resp)) = None ->
   h1 (BeautifulSoup E (text resp)) <> None ->
   address_block (BeautifulSoup E (text resp)) <> None ->
   phone_container (BeautifulSoup E (text resp)) <> Some None ->
   exists d w2,
     QualitEnrScraper._get_company_details E link category w = (Ok d, w2)
     /\ keys d = columns
     /\ get d "skills_name" "(no such column)" = "")
  /\ (h1 (BeautifulSoup E (text resp)) = None ->
      exists w2,
        QualitEnrScraper._get_company_details E link category w = (Ok [], w2)
        /\ fs w2 = fs w
        /\ forall rest results,
            QualitEnrScraper.process_items E (link :: rest) category results w
            = QualitEnrScraper.process_items E rest category results w2).
Proof.
  intros Hfetch.
  assert (Hfs : fs w1 = fs w).
  { pose proof (make_request_files_kept E link "GET" None None None
                  (log INFO (MsgScrapingDetails link) w).2) as H.
    unfold details_fetch in Hfetch. rewrite Hfetch in H. exact H. }
  rewrite (details_after_fetch E link category w resp w1 Hfetch).
  split.
  - intros Hskills Hh1 Haddr Hphone.
    destruct (parse_details_no_skills link category _
                (log DEBUG MsgParsingHtml w1).2 Hskills Hh1 Haddr Hphone)
      as (d & Hd & Hk & Hg).
    by exists d, (log DEBUG MsgParsingHtml w1).2.
  - intros Hh1.
    destruct (parse_details_no_h1 link category _
                (log DEBUG MsgParsingHtml w1).2 Hh1) as (w2 & Hrun & Hfs2).
    exists w2. split; [exact Hrun|]. split; [by rewrite Hfs2|].
    intros rest results. simpl. unfold bind at 1.
    by rewrite (details_after_fetch E link category w resp w1 Hfetch), Hrun.
Qed.

Lemma listing_parse_failures_witness :
  (details_fetch Samples.site_up Samples.acme_url Samples.fresh_world).1
  = Ok (Samples.page_of
          {| rq_method := "GET"; rq_url := Samples.acme_url;
             rq_headers := ∅; rq_cookies := ∅; rq_curl := false |})
  /\ (exists d w2,
       QualitEnrScraper._get_company_details Samples.site_up Samples.acme_url
         SampleRuns.category Samples.fresh_world = (Ok d, w2)
       /\ keys d = columns
       /\ get d "skills_name" "(no such column)" = "")
  /\ (details_fetch Samples.site_up SampleRuns.untitled_url Samples.fresh_world).1
     = Ok (Samples.page_of
             {| rq_method := "GET"; rq_url := SampleRuns.untitled_url;
                rq_headers := ∅; rq_cookies := ∅; rq_curl := false |})
  /\ (exists w2,
       QualitEnrScraper._get_company_details Samples.site_up
         SampleRuns.untitled_url SampleRuns.category Samples.fresh_world
       = (Ok [], w2)
       /\ fs w2 = fs Samples.fresh_world
       /\ forall rest results,
           QualitEnrScraper.process_items Samples.site_up
             (SampleRuns.untitled_url :: rest) SampleRuns.category results
             Samples.fresh_world
           = QualitEnrScraper.process_items Samples.site_up rest
               SampleRuns.category results w2).
Proof.
  assert (H1 : (details_fetch Samples.site_up Samples.acme_url
                  Samples.fresh_world).1
               = Ok (Samples.page_of
                       {| rq_method := "GET"; rq_url := Samples.acme_url;
                          rq_headers := ∅; rq_cookies := ∅; rq_curl := false |}))
    by (vm_compute; reflexivity).
  assert (H2 : (details_fetch Samples.site_up SampleRuns.untitled_url
                  Samples.fresh_world).1
               = Ok (Samples.page_of
                       {| rq_method := "GET"; rq_url := SampleRuns.untitled_url;
                          rq_headers := ∅; rq_cookies := ∅; rq_curl := false |}))
    by (vm_compute; reflexivity).
  split; [exact H1|]. split; [|split; [exact H2|]].
  - refine (proj1 (listing_parse_failures Samples.site_up Samples.acme_url
                     SampleRuns.category Samples.fresh_world _
                     (details_fetch Samples.site_up Samples.acme_url
                        Samples.fresh_world).2 _) _ _ _ _).
    + rewrite <- H1. apply surjective_pairing.
    + reflexivity.
    + discriminate.
    + discriminate.
    + discriminate.
  - refine (proj2 (listing_parse_failures Samples.site_up SampleRuns.untitled_url
                     SampleRuns.category Samples.fresh_world _
                     (details_fetch Samples.site_up SampleRuns.untitled_url
                        Samples.fresh_world).2 _) _).
    + rewrite <- H2. apply surjective_pairing.
    + reflexivity.
Defined.

(** ** [save_to_csv] on empty and on unusable input *)

(** C9, as stated, fails on rows given as lists without field names: the
    call raises [ValueError], after logging at level ERROR. *)
Lemma save_to_csv_raises_on_unnamed_rows :
  (BaseScraper.save_to_csv (DList [IList ["ACME Solaire"; "Paris"]])
     Samples.out None ModeA Samples.fresh_world).1
  = Raise (ValueError "Fieldnames required for list data")
  /\ new_events Samples.fresh_world
       (BaseScraper.save_to_csv (DList [IList ["ACME Solaire"; "Paris"]])
          Samples.out None ModeA Samples.fresh_world).2
     = [ Log INFO (MsgSavingCsv Samples.out);
         Log ERROR (MsgFailedCsv Samples.out
                      (ValueError "Fieldnames required for list data")) ].
Proof. vm_compute. split; reflexivity. Qed.

(** C9, as the code has it: on empty input ([None], an empty list, an
    empty dict) [save_to_csv] logs one warning, returns normally and
    leaves every file as it was; on rows given as lists without field
    names it logs an error and raises [ValueError], every file again as it
    was. *)
Theorem save_to_csv_empty_or_unnamed data filename fieldnames mode w :
  (BaseScraper.truthy_data data = false ->
   exists w',
     BaseScraper.save_to_csv data filename fieldnames mode w = (Ok tt, w')
     /\ fs w' = fs w
     /\ new_events w w' = [Log WARNING MsgNoData])
  /\ (forall r rest,
        data = DList (IList r :: rest) ->
        BaseScraper.truthy_names fieldnames = false ->
        exists w',
          BaseScraper.save_to_csv data filename fieldnames mode w
          = (Raise (ValueError "Fieldnames required for list data"), w')
          /\ fs w' = fs w
          /\ new_events w w'
             = [ Log INFO (MsgSavingCsv filename);
                 Log ERROR (MsgFailedCsv filename
                              (ValueError "Fieldnames required for list data")) ]).
Proof.
  split.
  - intros Hempty. unfold BaseScraper.save_to_csv, try_except.
    rewrite Hempty. simpl. eexists. split; [reflexivity|]. split; [done|].
    by apply new_events_app.
  - intros r rest -> Hnames. unfold BaseScraper.save_to_csv, try_except, bind.
    simpl. rewrite Hnames. simpl. eexists. split; [reflexivity|].
    split; [done|]. apply new_events_app. simpl. by rewrite <- app_assoc.
Qed.

Lemma save_to_csv_empty_or_unnamed_witness :
  (BaseScraper.truthy_data (DList []) = false
   /\ exists w',
       BaseScraper.save_to_csv (DList []) Samples.out None ModeA
         SampleRuns.stale_world = (Ok tt, w')
       /\ fs w' = fs SampleRuns.stale_world
       /\ new_events SampleRuns.stale_world w' = [Log WARNING MsgNoData])
  /\ (BaseScraper.truthy_names (Some []) = false
      /\ exists w',
          BaseScraper.save_to_csv (DList [IList ["Durand"; "Nantes"]])
            Samples.out (Some []) ModeA SampleRuns.stale_world
          = (Raise (ValueError "Fieldnames required for list data"), w')
          /\ fs w' = fs SampleRuns.stale_world
          /\ new_events SampleRuns.stale_world w'
             = [ Log INFO (MsgSavingCsv Samples.out);
                 Log ERROR (MsgFailedCsv Samples.out
                              (ValueError "Fieldnames required for list data")) ]).
Proof.
  split; (split; [reflexivity|]).
  - exact (proj1 (save_to_csv_empty_or_unnamed (DList []) Samples.out None ModeA
                    SampleRuns.stale_world) eq_refl).
  - exact (proj2 (save_to_csv_empty_or_unnamed
                    (DList [IList ["Durand"; "Nantes"]]) Samples.out (Some [])
                    ModeA SampleRuns.stale_world)
             ["Durand"; "Nantes"] [] eq_refl eq_refl).
Defined.

(** ** [save_to_csv] over a file with another header *)

(** Rows given as lists are written as they are, in order. *)
Lemma writerows_lists filename (rs : list row) :
  forall rows0 w,
    fs w !! filename = Some (Content rows0) ->
    exists w',
      BaseScraper.writerows BaseScraper.writer_row filename (IList <$> rs) w
      = (Ok tt, w')
      /\ fs w' !! filename = Some (Content (rows0 ++ rs))
      /\ trace w' = trace w.
Proof.
  induction rs as [|r rs IH]; intros rows0 w Hf.
  - exists w. by rewrite app_nil_r.
  - cbn [fmap list_fmap BaseScraper.writerows BaseScraper.writer_row].
    unfold bind at 1. cbn [ret]. cbv beta iota.
    unfold bind at 1. unfold BaseScraper.append_row at 1, modify.
    rewrite Hf. cbv beta iota.
    destruct (IH (rows0 ++ [r])
                (set_fs (<[filename:=Content (rows0 ++ [r])]> (fs w)) w))
      as (w' & Hrun & Hrows & Htr).
    { simpl. apply lookup_insert_eq. }
    exists w'. rewrite Hrun. split; [done|]. split; [|done].
    by rewrite Hrows, <- app_assoc.
Qed.

(** What the code writes over a file whose first row is another, non-empty
    header, for rows given as lists with their field names: the new header,
    the stale header twice (once inserted by line 303, once more as the
    first of the rows read again after [f.seek(0)]), the older rows, the
    new rows. *)
Lemma save_rows_over_stale_header filename fn hd rows r0 rs w :
  fs w !! filename = Some (Content (hd :: rows)) ->
  hd <> [] -> fn <> [] -> hd <> fn ->
  rows_of (BaseScraper.save_to_csv (DList (IList <$> r0 :: rs)) filename
             (Some fn) ModeA w).2 filename
  = Some (fn :: hd :: hd :: rows ++ r0 :: rs).
Proof.
  intros Hf Hhd Hfn Hne.
  destruct fn as [|f fn']; [done|]. destruct hd as [|h hd']; [done|].
  unfold BaseScraper.save_to_csv, try_except, bind, gets, ret, log, emit,
    BaseScraper.check_header.
  cbn -[bool_decide BaseScraper.writerows BaseScraper.open_file BaseScraper.append_row].
  rewrite Hf.
  cbn -[bool_decide BaseScraper.writerows BaseScraper.open_file BaseScraper.append_row].
  rewrite bool_decide_eq_false_2 by congruence.
  cbn -[bool_decide BaseScraper.writerows BaseScraper.open_file BaseScraper.append_row].
  unfold BaseScraper.open_file, BaseScraper.append_row, modify.
  cbn -[BaseScraper.writerows]. rewrite lookup_insert_eq.
  change (IList (h :: hd') :: IList (h :: hd')
            :: (IList <$> rows) ++ IList r0 :: (IList <$> rs))
    with ((IList <$> (h :: hd') :: (h :: hd') :: rows) ++ (IList <$> r0 :: rs)).
  rewrite <- fmap_app.
  match goal with
  | |- context [BaseScraper.writerows _ _ _ ?w0] =>
      destruct (writerows_lists filename
                  (((h :: hd') :: (h :: hd') :: rows) ++ r0 :: rs)
                  [f :: fn'] w0 ltac:(cbn; apply lookup_insert_eq))
        as (w' & Hrun & Hrows & _);
      unfold row in *; rewrite Hrun
  end.
  unfold rows_of. cbn. by rewrite Hrows.
Qed.

(** C2 on the code, for the call that [scrape_region_category] makes (one
    record, a dict, no field names) on a file that starts with another
    header: the file ends up with the new header, the stale header twice,
    the older row, and a row made of the keys of the record; the
    specification asks for the new header, the stale header once, the older
    row, and the values of the record. *)
Theorem stale_header_rewrite :
  rows_of
    (BaseScraper.save_to_csv (DList [IDict SampleRuns.acme_record]) Samples.out
       None ModeA SampleRuns.stale_world).2 Samples.out
  = Some [ columns; ["nom"; "ville"]; ["nom"; "ville"]; ["Dupont"; "Lyon"];
           columns ]
  /\ rewritten_as_specified columns SampleRuns.stale_rows
       [IDict SampleRuns.acme_record]
     = [ columns; ["nom"; "ville"]; ["Dupont"; "Lyon"];
         [ Samples.acme_url; SampleRuns.category; "ACME Solaire"; "75000";
           "Paris"; "12 Rue des Fleurs"; "01 02 03 04 05"; "" ] ]
  /\ rows_of
       (BaseScraper.save_to_csv (DList [IDict SampleRuns.acme_record])
          Samples.out None ModeA SampleRuns.stale_world).2 Samples.out
     <> Some (rewritten_as_specified columns SampleRuns.stale_rows
                [IDict SampleRuns.acme_record]).
Proof.
  vm_compute. split; [reflexivity | split; [reflexivity | discriminate]].
Qed.

(** The same file, rows given as lists with their field names: the values
    are written, the stale header is still there twice. *)
Lemma stale_header_twice_for_lists :
  rows_of
    (BaseScraper.save_to_csv (DList [IList ["Durand"; "Nantes"]]) Samples.out
       (Some ["name"; "city"]) ModeA SampleRuns.stale_world).2 Samples.out
  = Some [ ["name"; "city"]; ["nom"; "ville"]; ["nom"; "ville"];
           ["Dupont"; "Lyon"]; ["Durand"; "Nantes"] ].
Proof.
  apply (save_rows_over_stale_header Samples.out ["name"; "city"]
           ["nom"; "ville"] [["Dupont"; "Lyon"]] ["Durand"; "Nantes"] []);
    [reflexivity | discriminate | discriminate | discriminate].
Qed.

(** With the header the function itself writes, nothing is rewritten: the
    record is appended as its values. *)
Lemma matching_header_appends :
  rows_of
    (BaseScraper.save_to_csv (DList [IDict SampleRuns.acme_record]) Samples.out
       None ModeA
       (BaseScraper.save_to_csv (DList [IDict SampleRuns.acme_record])
          Samples.out None ModeA Samples.fresh_world).2).2 Samples.out
  = Some [ columns;
           rendered columns (IDict SampleRuns.acme_record);
           rendered columns (IDict SampleRuns.acme_record) ].
Proof. vm_compute. reflexivity. Qed.

(** ** The pages of a scrape *)

Lemma pages_scraped_app t1 t2 :
  pages_scraped (t1 ++ t2) = pages_scraped t1 ++ pages_scraped t2.
Proof.
  induction t1 as [|e t1 IH]; [done|].
  destruct e as [| | |lv []]; simpl; by rewrite IH.
Qed.

Lemma pages_scraped_none t : Forall not_page_start t -> pages_scraped t = [].
Proof.
  induction 1 as [|e t He _ IH]; [done|].
  by destruct e as [| | |lv []].
Qed.

Lemma total_pages_on_no_page_start page s :
  preserves (trace_grows not_page_start) (QualitEnrScraper.total_pages_on page s).
Proof. unfold_scraper. keeps. Qed.

(** The estimate never fails; off page 1 it is 1. *)
Lemma total_pages_on_ok page s w :
  exists total_pages w',
    QualitEnrScraper.total_pages_on page s w = (Ok total_pages, w')
    /\ ((page =? 1)%Z = false -> total_pages = 1 /\ w' = w).
Proof.
  unfold QualitEnrScraper.total_pages_on.
  destruct (page =? 1)%Z; [|by eexists _, _].
  unfold try_except, bind.
  destruct (QualitEnrScraper.total_count_of s w) as [[total_count|e] w1];
    by eexists _, _.
Qed.

(** An iteration for a page other than the first one is the last one. *)
Lemma scrape_loop_later_page E fuel page all_results category region w :
  (page =? 1)%Z = false -> (1 <=? page)%Z = true ->
  (QualitEnrScraper.scrape_loop E (S fuel) page all_results category region w).1
  <> Ok None
  /\ exists t,
      trace (QualitEnrScraper.scrape_loop E (S fuel) page all_results
               category region w).2 = trace w ++ t
      /\ pages_scraped t = [page].
Proof.
  intros Hp Hle.
  set (P := fun r : result (option (list record)) * world =>
              r.1 <> Ok None
              /\ exists t, trace r.2 = trace w ++ t /\ pages_scraped t = [page]).
  change (P (QualitEnrScraper.scrape_loop E (S fuel) page all_results
               category region w)).
  cbn [QualitEnrScraper.scrape_loop]. cbv zeta.
  unfold bind at 1.
  change (log INFO (MsgScrapingPage page category region) w)
    with (Ok tt, (log INFO (MsgScrapingPage page category region) w).2).
  cbv beta iota.
  set (w0 := (log INFO (MsgScrapingPage page category region) w).2).
  assert (Hw0 : trace w0 = trace w ++ [Log INFO (MsgScrapingPage page category region)])
    by reflexivity.
  unfold bind at 1.
  destruct (make_request_no_page_start E
              (QualitEnrScraper.search_url page category region) "GET"
              None None None w0) as (t1 & Ht1 & HF1).
  destruct (BaseScraper.make_request E _ "GET" None None None w0)
    as [[resp|e] w1]; simpl in Ht1.
  2:{ split; [discriminate|]. simpl. eexists. split.
      - rewrite Ht1, <- app_assoc. reflexivity.
      - simpl. by rewrite (pages_scraped_none t1 HF1). }
  unfold bind at 1.
  change (BaseScraper.get_soup E (text resp) w1)
    with (Ok (BeautifulSoup E (text resp)), (log DEBUG MsgParsingHtml w1).2).
  cbv beta iota.
  set (w2 := (log DEBUG MsgParsingHtml w1).2).
  assert (Hw2 : trace w2 = trace w1 ++ [Log DEBUG MsgParsingHtml]) by reflexivity.
  unfold bind at 1.
  destruct (total_pages_on_ok page (BeautifulSoup E (text resp)) w2)
    as (tp & w2' & Htp & Hlater).
  destruct (Hlater Hp) as [-> ->]. rewrite Htp. clear Htp Hlater.
  unfold bind at 1.
  destruct (process_items_no_page_start E
              (results_items (BeautifulSoup E (text resp))) category [] w2)
    as (t3 & Ht3 & HF3).
  destruct (QualitEnrScraper.process_items E _ category [] w2)
    as [[results|e] w3]; simpl in Ht3.
  2:{ split; [discriminate|]. simpl. eexists. split.
      - rewrite Ht3, ?Hw2, Ht1, <- !app_assoc. reflexivity.
      - simpl. rewrite pages_scraped_app, (pages_scraped_none t1 HF1).
        simpl. by rewrite (pages_scraped_none t3 HF3). }
  unfold bind at 1. cbn [log emit]. cbv beta iota.
  rewrite Hle. split; [discriminate|]. simpl. eexists. split.
  - rewrite Ht3, ?Hw2, Ht1, <- !app_assoc. reflexivity.
  - simpl. rewrite pages_scraped_app, (pages_scraped_none t1 HF1).
    simpl. rewrite pages_scraped_app, (pages_scraped_none t3 HF3). reflexivity.
Qed.

(** Whatever the site answers, the loop started on page 1 ends within two
    iterations, and the pages it visits are page 1, or pages 1 and 2. *)
Lemma scrape_loop_two_pages E fuel all_results category region w :
  (QualitEnrScraper.scrape_loop E (S (S fuel)) 1 all_results category region w).1
  <> Ok None
  /\ exists t,
      trace (QualitEnrScraper.scrape_loop E (S (S fuel)) 1 all_results
               category region w).2 = trace w ++ t
      /\ (pages_scraped t = [1] \/ pages_scraped t = [1; 2]).
Proof.
  set (P := fun r : result (option (list record)) * world =>
              r.1 <> Ok None
              /\ exists t, trace r.2 = trace w ++ t
                           /\ (pages_scraped t = [1] \/ pages_scraped t = [1; 2])).
  change (P (QualitEnrScraper.scrape_loop E (S (S fuel)) 1 all_results
               category region w)).
  cbn [QualitEnrScraper.scrape_loop]. cbv zeta.
  unfold bind at 1.
  change (log INFO (MsgScrapingPage 1 category region) w)
    with (Ok tt, (log INFO (MsgScrapingPage 1 category region) w).2).
  cbv beta iota.
  set (w0 := (log INFO (MsgScrapingPage 1 category region) w).2).
  unfold bind at 1.
  destruct (make_request_no_page_start E
              (QualitEnrScraper.search_url 1 category region) "GET"
              None None None w0) as (t1 & Ht1 & HF1).
  destruct (BaseScraper.make_request E _ "GET" None None None w0)
    as [[resp|e] w1]; simpl in Ht1.
  2:{ split; [discriminate|]. simpl. eexists. split.
      - rewrite Ht1, <- app_assoc. reflexivity.
      - left. simpl. by rewrite (pages_scraped_none t1 HF1). }
  unfold bind at 1.
  change (BaseScraper.get_soup E (text resp) w1)
    with (Ok (BeautifulSoup E (text resp)), (log DEBUG MsgParsingHtml w1).2).
  cbv beta iota.
  set (w2 := (log DEBUG MsgParsingHtml w1).2).
  assert (Hw2 : trace w2 = trace w1 ++ [Log DEBUG MsgParsingHtml]) by reflexivity.
  unfold bind at 1.
  destruct (total_pages_on_no_page_start 1 (BeautifulSoup E (text resp)) w2)
    as (t2 & Ht2 & HF2).
  destruct (total_pages_on_ok 1 (BeautifulSoup E (text resp)) w2)
    as (tp & w2' & Htp & _).
  rewrite Htp in Ht2 |- *. simpl in Ht2.
  unfold bind at 1.
  destruct (process_items_no_page_start E
              (results_items (BeautifulSoup E (text resp))) category [] w2')
    as (t3 & Ht3 & HF3).
  destruct (QualitEnrScraper.process_items E _ category [] w2')
    as [[results|e] w3]; simpl in Ht3.
  2:{ split; [discriminate|]. simpl. eexists. split.
      - rewrite Ht3, Ht2, ?Hw2, Ht1, <- !app_assoc. reflexivity.
      - left. simpl. rewrite !pages_scraped_app, (pages_scraped_none t1 HF1).
        simpl. rewrite !pages_scraped_app, (pages_scraped_none t2 HF2),
          (pages_scraped_none t3 HF3). reflexivity. }
  unfold bind at 1. cbn [log emit]. cbv beta iota.
  set (w4 := {| self := self w3; heap := heap w3; fs := fs w3;
                trace := trace w3
                         ++ [Log INFO (MsgPageCompleted 1 tp (length results))];
                exchanges := exchanges w3; draws := draws w3 |}).
  assert (Hw4 : trace w4
                = trace w
                  ++ ([Log INFO (MsgScrapingPage 1 category region)] ++ t1
                      ++ [Log DEBUG MsgParsingHtml] ++ t2 ++ t3
                      ++ [Log INFO (MsgPageCompleted 1 tp (length results))])).
  { subst w4. simpl. rewrite Ht3, Ht2, ?Hw2, Ht1, <- !app_assoc. reflexivity. }
  assert (Hpages : pages_scraped
                     ([Log INFO (MsgScrapingPage 1 category region)] ++ t1
                      ++ [Log DEBUG MsgParsingHtml] ++ t2 ++ t3
                      ++ [Log INFO (MsgPageCompleted 1 tp (length results))])
                   = [1]).
  { simpl. rewrite !pages_scraped_app, (pages_scraped_none t1 HF1).
    simpl. rewrite !pages_scraped_app, (pages_scraped_none t2 HF2),
      (pages_scraped_none t3 HF3). reflexivity. }
  destruct (tp <=? 1)%Z.
  - split; [discriminate|]. simpl. eexists. split; [exact Hw4|]. by left.
  - destruct (scrape_loop_later_page E fuel (1 + 1) (all_results ++ results)
                category region w4 eq_refl eq_refl) as (Hsome & t5 & Ht5 & Hp5).
    change (P (QualitEnrScraper.scrape_loop E (S fuel) (1 + 1)
                 (all_results ++ results) category region w4)).
    split; [exact Hsome|]. eexists. split.
    + rewrite Ht5, Hw4, <- app_assoc. reflexivity.
    + right. by rewrite pages_scraped_app, Hpages, Hp5.
Qed.

(** [scrape_region_category] returns or raises within two iterations of
    its loop, having visited page 1, or pages 1 and 2, whatever the number
    of pages estimated on page 1. *)
Lemma scrape_visits_two_pages_at_most E fuel category region w :
  (QualitEnrScraper.scrape_region_category E (S (S fuel)) category region w).1
  <> Ok None
  /\ (pages_scraped
        (new_events w
           (QualitEnrScraper.scrape_region_category E (S (S fuel))
              category region w).2) = [1]
      \/ pages_scraped
           (new_events w
              (QualitEnrScraper.scrape_region_category E (S (S fuel))
                 category region w).2) = [1; 2]).
Proof.
  set (P := fun r : result (option (list record)) * world =>
              r.1 <> Ok None
              /\ (pages_scraped (new_events w r.2) = [1]
                  \/ pages_scraped (new_events w r.2) = [1; 2])).
  change (P (QualitEnrScraper.scrape_region_category E (S (S fuel))
               category region w)).
  unfold QualitEnrScraper.scrape_region_category.
  unfold bind at 1.
  change (log INFO (MsgStartingScrape category region) w)
    with (Ok tt, (log INFO (MsgStartingScrape category region) w).2).
  cbv beta iota.
  set (w0 := (log INFO (MsgStartingScrape category region) w).2).
  destruct (scrape_loop_two_pages E fuel [] category region w0)
    as (Hsome & t & Ht & Hpages).
  unfold bind at 1.
  destruct (QualitEnrScraper.scrape_loop E (S (S fuel)) 1 [] category region w0)
    as [[[all_results|]|e] w1]; simpl in Hsome, Ht; [| done |].
  - cbn. split; [discriminate|].
    rewrite (new_events_app w _
               ([Log INFO (MsgStartingScrape category region)] ++ t
                ++ [Log INFO (MsgCompletedScrape category region
                                (length all_results))])).
    + rewrite !pages_scraped_app. simpl. rewrite app_nil_r. exact Hpages.
    + simpl. rewrite Ht. simpl. by rewrite <- !app_assoc.
  - split; [discriminate|]. simpl.
    rewrite (new_events_app w w1
               ([Log INFO (MsgStartingScrape category region)] ++ t)).
    + exact Hpages.
    + rewrite Ht. simpl. by rewrite <- app_assoc.
Qed.

(** C1 on the code: on a site whose page 1 announces 45 results, the
    estimate on page 1 is 3 pages; the scrape returns after pages 1 and 2,
    and the only search pages requested are those two. *)
Theorem third_page_never_fetched :
  (QualitEnrScraper.total_pages_on 1 Samples.search_45 Samples.fresh_world).1
  = Ok 3
  /\ (exists all_results,
        (QualitEnrScraper.scrape_region_category Samples.site_up 10
           SampleRuns.category "75" Samples.fresh_world).1
        = Ok (Some all_results))
  /\ pages_scraped
       (new_events Samples.fresh_world
          (QualitEnrScraper.scrape_region_category Samples.site_up 10
             SampleRuns.category "75" Samples.fresh_world).2)
     = [1; 2]
  /\ requested
       (new_events Samples.fresh_world
          (QualitEnrScraper.scrape_region_category Samples.site_up 10
             SampleRuns.category "75" Samples.fresh_world).2)
     = [ QualitEnrScraper.search_url 1 SampleRuns.category "75";
         SampleRuns.untitled_url; Samples.acme_url;
         QualitEnrScraper.search_url 2 SampleRuns.category "75";
         SampleRuns.untitled_url; Samples.acme_url ].
Proof.
  split; [reflexivity|]. split; [|split].
  - eexists. vm_compute. reflexivity.
  - vm_compute. reflexivity.
  - vm_compute. reflexivity.
Qed.

(** * More on the request path *)

Lemma exchanged_app t1 t2 : exchanged (t1 ++ t2) = exchanged t1 ++ exchanged t2.
Proof.
  induction t1 as [|e t1 IH]; [done|].
  destruct e; simpl; by rewrite IH.
Qed.

Lemma throttles_app t1 t2 : throttles (t1 ++ t2) = throttles t1 ++ throttles t2.
Proof.
  induction t1 as [|e t1 IH]; [done|].
  destruct e; simpl; by rewrite IH.
Qed.

Lemma sleeps_and_exchanges_app t1 t2 :
  sleeps_and_exchanges (t1 ++ t2)
  = sleeps_and_exchanges t1 ++ sleeps_and_exchanges t2.
Proof.
  induction t1 as [|e t1 IH]; [done|].
  destruct e; simpl; by rewrite IH.
Qed.

(** What [_random_delay] does, in full. *)
Lemma random_delay_cases E w :
  exists w1 td,
    BaseScraper._random_delay E w = (Ok tt, w1)
    /\ self w1 = self w /\ heap w1 = heap w /\ fs w1 = fs w
    /\ exchanges w1 = exchanges w
    /\ trace w1 = trace w ++ td
    /\ match request_delay (self w) with
       | Some (lo, hi) =>
           if Qle_bool hi 0 then td = [] /\ draws w1 = draws w
           else td = [ Log INFO (MsgSleeping (lo + (hi - lo) * random E (draws w))%Q);
                       Throttle (lo + (hi - lo) * random E (draws w))%Q ]
                /\ draws w1 = S (draws w)
       | None => td = [] /\ draws w1 = draws w
       end.
Proof.
  unfold BaseScraper._random_delay, bind, gets.
  destruct (request_delay (self w)) as [[lo hi]|].
  - destruct (Qle_bool hi 0); simpl.
    + exists w, []. by rewrite app_nil_r.
    + eexists _, _. repeat split; simpl; try reflexivity.
      by rewrite <- app_assoc.
  - exists w, []. by rewrite app_nil_r.
Qed.

(** One call of the body, in full: the request sent, the outcome, the
    counters, and the events in order. *)
Lemma body_sends E url method headers cookies att w :
  is_Some (heap w !! default_cookies (self w)) ->
  exists w0 w1 td tl,
    BaseScraper._random_delay E w = (Ok tt, w0)
    /\ trace w0 = trace w ++ td
    /\ BaseScraper.make_request_body E url method headers cookies att w
       = (attempt_outcome
            (server E (exchanges w) (request_sent E w url method headers cookies)),
          w1)
    /\ exchanges w1 = S (exchanges w)
    /\ request_count (self w1) = request_count (self w) + 1
    /\ trace w1
       = trace w ++ td
         ++ [ Log DEBUG (MsgMakingRequest method
                           (resolved_url E (self w) url) (default 1 att));
              Exchange (request_sent E w url method headers cookies) ]
         ++ tl
    /\ Forall (fun e => is_throttle e = false /\ is_exchange e = false
                        /\ not_backoff e /\ logs_attempt (default 1 att) e) tl
    /\ draws w1 = draws w0.
Proof.
  intros Hc.
  destruct (random_delay_cases E w) as (w0 & td & Hd & Hs & Hh & Hf & Hx & Ht & _).
  exists w0.
  unfold BaseScraper.make_request_body. unfold bind at 1. rewrite Hd.
  unfold try_except, bind, BaseScraper.deref, BaseScraper.alloc,
    BaseScraper._log_request, BaseScraper.http, gets, modify, log, emit, ret.
  cbn. rewrite Hx, Hs, Hh.
  set (mh := BaseScraper.merged (default ∅ (heap w !! default_headers (self w)))
               (default ∅ headers)).
  set (lh := fresh (dom (heap w))).
  assert (Hlh : lh ∉ dom (heap w)) by apply is_fresh.
  assert (Hne : default_cookies (self w) <> lh).
  { intros Heq. apply Hlh. rewrite <- Heq. by apply elem_of_dom. }
  rewrite (lookup_insert_ne (heap w) lh (default_cookies (self w)) mh) by done.
  set (mc := BaseScraper.merged (default ∅ (heap w !! default_cookies (self w)))
               (default ∅ cookies)).
  set (lc := fresh (dom (<[lh:=mh]> (heap w)))).
  assert (Hlc : lc <> lh).
  { intros Heq. apply (is_fresh (dom (<[lh:=mh]> (heap w)))). fold lc.
    rewrite Heq. apply elem_of_dom. rewrite lookup_insert_eq. by eexists. }
  rewrite (lookup_insert_ne (<[lh:=mh]> (heap w)) lc lh mc) by done.
  rewrite !lookup_insert_eq. cbn.
  change {| rq_method := method;
            rq_url := match base_url (self w) with
                      | Some b =>
                          if negb (BaseScraper.is_absolute url)
                             && BaseScraper.nonempty b
                          then urljoin E b url else url
                      | None => url
                      end;
            rq_headers := mh; rq_cookies := mc; rq_curl := use_curl (self w) |}
    with (request_sent E w url method headers cookies).
  destruct (server E (exchanges w) (request_sent E w url method headers cookies))
    as [resp|e] eqn:Hsrv.
  - cbn. unfold BaseScraper.raise_for_status, raise, ret.
    destruct ((400 <=? status_code resp)%Z && (status_code resp <? 600)%Z) eqn:Hst;
      cbn; eexists _, td, _; (split; [reflexivity|]); (split; [exact Ht|]);
      (split; [reflexivity|]); cbn; rewrite ?Hx, ?Hs, ?Ht;
      (split; [done|]); (split; [done|]);
      (split; [rewrite <- !app_assoc; reflexivity|]);
      (split; [|reflexivity]);
      repeat constructor.
  - cbn. unfold raise. destruct (is_RequestException e); cbn;
      eexists _, td, _; (split; [reflexivity|]); (split; [exact Ht|]);
      (split; [reflexivity|]); cbn; rewrite ?Hx, ?Hs, ?Ht;
      (split; [done|]); (split; [done|]);
      (split; [rewrite <- !app_assoc; reflexivity|]);
      (split; [|reflexivity]);
      repeat constructor.
Qed.

Lemma request_sent_kept E w w' url method headers cookies :
  well_formed w -> config_kept w w' -> defaults_kept w w' ->
  well_formed w'
  /\ request_sent E w' url method headers cookies
     = request_sent E w url method headers cookies.
Proof.
  intros [Hh Hc] (_ & Hb & Hu & _) (Hlh & Hlc & Hheap).
  assert (Hh' : heap w' !! default_headers (self w')
                = heap w !! default_headers (self w))
    by (rewrite Hlh; by apply Hheap).
  assert (Hc' : heap w' !! default_cookies (self w')
                = heap w !! default_cookies (self w))
    by (rewrite Hlc; by apply Hheap).
  split.
  - split; [by rewrite Hh' | by rewrite Hc'].
  - unfold request_sent, resolved_url. by rewrite Hb, Hu, Hh', Hc'.
Qed.

(** The world after the wait between two tries. *)
Lemma backoff_world d w :
  exists w', emit (Backoff d) w = (Ok tt, w')
    /\ self w' = self w /\ heap w' = heap w /\ fs w' = fs w
    /\ exchanges w' = exchanges w /\ trace w' = trace w ++ [Backoff d]
    /\ draws w' = draws w.
Proof. by eexists. Qed.

(** One try of [make_request], started in a world [w1] that a run from [w]
    has reached with the scraper's settings intact. *)
Lemma next_try E url method headers cookies att w w1 :
  well_formed w -> config_kept w w1 -> defaults_kept w w1 ->
  exists w2 t,
    BaseScraper.make_request_body E url method headers cookies att w1
    = (attempt_outcome
         (server E (exchanges w1) (request_sent E w url method headers cookies)),
       w2)
    /\ config_kept w w2 /\ defaults_kept w w2
    /\ exchanges w2 = S (exchanges w1)
    /\ request_count (self w2) = request_count (self w1) + 1
    /\ trace w2 = trace w1 ++ t
    /\ exchanged t = [request_sent E w url method headers cookies]
    /\ backoffs t = []
    /\ Forall (logs_attempt (default 1 att)) t
    /\ (forall lo hi,
          request_delay (self w) = Some (lo, hi) -> Qle_bool hi 0 = false ->
          sleeps_and_exchanges t
          = sleep_then_exchange E lo hi
              (request_sent E w url method headers cookies) (draws w1)
          /\ draws w2 = S (draws w1)).
Proof.
  intros Hwf Hcfg Hdef.
  destruct (request_sent_kept E w w1 url method headers cookies Hwf Hcfg Hdef)
    as [[_ Hc1] Hrq].
  destruct (body_sends E url method headers cookies att w1 Hc1)
    as (w0 & w2 & td & tl & Hd & Htd & Hrun & Hx & Hn & Ht & HF & Hdr).
  rewrite Hrq in Hrun, Ht.
  exists w2. eexists. split; [exact Hrun|].
  pose proof (body_config_kept E url method headers cookies att w1) as Hk1.
  pose proof (body_defaults_kept E url method headers cookies att w1) as Hk2.
  rewrite Hrun in Hk1, Hk2. simpl in Hk1, Hk2.
  split; [by etransitivity|]. split; [by etransitivity|].
  split; [done|]. split; [done|]. split; [exact Ht|].
  destruct (random_delay_cases E w1)
    as (w0' & td' & Hd' & _ & _ & _ & _ & Htd' & Hcases).
  rewrite Hd in Hd'. injection Hd' as <-.
  rewrite Htd in Htd'. apply app_inv_head in Htd'. subst td'.
  assert (Htdq : exchanged td = [] /\ backoffs td = []
                 /\ Forall (logs_attempt (default 1 att)) td).
  { destruct (request_delay (self w1)) as [[lo hi]|].
    - destruct (Qle_bool hi 0); destruct Hcases as [-> _];
        repeat split; repeat constructor.
    - destruct Hcases as [-> _]. repeat split; constructor. }
  destruct Htdq as (Hex & Hbk & Hat).
  assert (Htl : exchanged tl = [] /\ backoffs tl = []
                /\ Forall (logs_attempt (default 1 att)) tl).
  { clear -HF. induction HF as [|e tl (Hth & Hexc & Hnb & Hla) _ (IH1 & IH2 & IH3)].
    - repeat split; constructor.
    - destruct e; simpl in *; try done; repeat split; try done;
        by constructor. }
  destruct Htl as (Hex2 & Hbk2 & Hat2).
  split.
  { rewrite !exchanged_app, Hex. simpl. by rewrite Hex2. }
  split.
  { rewrite !backoffs_app, Hbk. simpl. by rewrite Hbk2. }
  split.
  { apply Forall_app. split; [exact Hat|].
    apply Forall_app. split; [|exact Hat2].
    repeat constructor. }
  intros lo hi Hwin Hpos.
  assert (Hwin1 : request_delay (self w1) = Some (lo, hi)).
  { destruct Hcfg as (_ & _ & _ & -> & _). exact Hwin. }
  rewrite Hwin1, Hpos in Hcases. destruct Hcases as [-> Hdraw].
  split; [|by rewrite Hdr].
  assert (Hfl : sleeps_and_exchanges tl = []).
  { clear -HF. induction HF as [|e tl (Hth & Hexc & _) _ IH]; [done|].
    by destruct e. }
  rewrite !sleeps_and_exchanges_app, Hfl. reflexivity.
Qed.

(** A call of [make_request], in full: up to three tries of one and the
    same request; [n] is the number of tries made. *)
Lemma make_request_full E url method headers cookies att w :
  well_formed w ->
  exists n w',
    BaseScraper.make_request E url method headers cookies att w
    = (three_tries E (exchanges w)
         (request_sent E w url method headers cookies), w')
    /\ (1 <= n <= 3)%nat
    /\ (n < 3 ->
        exists r, three_tries E (exchanges w)
                    (request_sent E w url method headers cookies) = Ok r)%nat
    /\ config_kept w w' /\ defaults_kept w w'
    /\ exchanges w' = (exchanges w + n)%nat
    /\ request_count (self w') = request_count (self w) + Z.of_nat n
    /\ exchanged (new_events w w')
       = replicate n (request_sent E w url method headers cookies)
    /\ backoffs (new_events w w') = take (n - 1) [1; 2]
    /\ Forall (logs_attempt (default 1 att)) (new_events w w')
    /\ (forall lo hi,
          request_delay (self w) = Some (lo, hi) -> Qle_bool hi 0 = false ->
          sleeps_and_exchanges (new_events w w')
          = flat_map (sleep_then_exchange E lo hi
                        (request_sent E w url method headers cookies))
              (seq (draws w) n)).
Proof.
  intros Hwf.
  set (rq := request_sent E w url method headers cookies).
  unfold BaseScraper.make_request, BaseScraper.retry. simpl.
  destruct (next_try E url method headers cookies att w w Hwf
              ltac:(reflexivity) ltac:(reflexivity))
    as (w1 & t1 & Hrun1 & Hc1 & Hd1 & Hx1 & Hn1 & Ht1 & He1 & Hb1 & Ha1 & Hsl1).
  fold rq in Hrun1, He1, Hsl1.
  unfold three_tries. fold rq.
  unfold try_except at 1. rewrite Hrun1.
  destruct (attempt_outcome (server E (exchanges w) rq)) as [r1|e1].
  { exists 1%nat, w1. split; [reflexivity|]. split; [lia|].
    split; [by eexists|]. split; [done|]. split; [done|].
    split; [lia|]. split; [lia|].
    rewrite (new_events_app w w1 t1 Ht1). rewrite He1, Hb1.
    split; [done|]. split; [done|]. split; [done|].
    intros lo hi Hwin Hpos. destruct (Hsl1 lo hi Hwin Hpos) as [-> _].
    simpl. by rewrite ?app_nil_r. }
  unfold bind at 1.
  destruct (backoff_world 1 w1) as (w1' & Hem1 & Hs1 & Hh1 & _ & Hxb1 & Htb1 & Hdb1).
  rewrite Hem1.
  assert (Hc1' : config_kept w w1').
  { destruct Hc1 as (?&?&?&?&?&?). repeat split; by rewrite Hs1. }
  assert (Hd1' : defaults_kept w w1').
  { destruct Hd1 as (?&?&?). repeat split; rewrite ?Hs1, ?Hh1; auto. }
  destruct (next_try E url method headers cookies att w w1' Hwf Hc1' Hd1')
    as (w2 & t2 & Hrun2 & Hc2 & Hd2 & Hx2 & Hn2 & Ht2 & He2 & Hb2 & Ha2 & Hsl2).
  fold rq in Hrun2, He2, Hsl2. rewrite Hxb1, Hx1 in Hrun2.
  unfold try_except at 1. rewrite Hrun2.
  assert (Htr2 : trace w2 = trace w ++ (t1 ++ [Backoff 1] ++ t2)).
  { rewrite Ht2, Htb1, Ht1, <- !app_assoc. reflexivity. }
  destruct (attempt_outcome (server E (S (exchanges w)) rq)) as [r2|e2].
  { exists 2%nat, w2. split; [reflexivity|]. split; [lia|].
    split; [by eexists|]. split; [done|]. split; [done|].
    split; [rewrite Hx2, Hxb1, Hx1; lia|].
    split; [rewrite Hn2, Hs1, Hn1; lia|].
    rewrite (new_events_app w w2 _ Htr2).
    rewrite !exchanged_app, !backoffs_app, He1, He2, Hb1, Hb2.
    split; [reflexivity|]. split; [reflexivity|].
    split.
    { apply Forall_app. split; [done|]. apply Forall_app. split; [|done].
      by repeat constructor. }
    intros lo hi Hwin Hpos.
    destruct (Hsl1 lo hi Hwin Hpos) as [Hse1 Hdr1].
    destruct (Hsl2 lo hi Hwin Hpos) as [Hse2 _].
    rewrite !sleeps_and_exchanges_app, Hse1, Hse2, Hdb1, Hdr1.
    simpl. by rewrite ?app_nil_r. }
  unfold bind at 1.
  destruct (backoff_world (1 * 2) w2) as (w2' & Hem2 & Hs2 & Hh2 & _ & Hxb2 & Htb2 & Hdb2).
  rewrite Hem2.
  assert (Hc2' : config_kept w w2').
  { destruct Hc2 as (?&?&?&?&?&?). repeat split; by rewrite Hs2. }
  assert (Hd2' : defaults_kept w w2').
  { destruct Hd2 as (?&?&?). repeat split; rewrite ?Hs2, ?Hh2; auto. }
  destruct (next_try E url method headers cookies att w w2' Hwf Hc2' Hd2')
    as (w3 & t3 & Hrun3 & Hc3 & Hd3 & Hx3 & Hn3 & Ht3 & He3 & Hb3 & Ha3 & Hsl3).
  fold rq in Hrun3, He3, Hsl3. rewrite Hxb2, Hx2, Hxb1, Hx1 in Hrun3.
  unfold try_except at 1. rewrite Hrun3.
  assert (Htr3 : trace w3
                 = trace w ++ (t1 ++ [Backoff 1] ++ t2 ++ [Backoff (1 * 2)] ++ t3)).
  { rewrite Ht3, Htb2, Htr2, <- !app_assoc. reflexivity. }
  exists 3%nat, w3. split.
  { by destruct (attempt_outcome (server E (S (S (exchanges w))) rq)). }
  split; [lia|]. split; [lia|]. split; [done|]. split; [done|].
  split; [rewrite Hx3, Hxb2, Hx2, Hxb1, Hx1; lia|].
  split; [rewrite Hn3, Hs2, Hn2, Hs1, Hn1; lia|].
  rewrite (new_events_app w w3 _ Htr3).
  rewrite !exchanged_app, !backoffs_app, He1, He2, He3, Hb1, Hb2, Hb3.
  split; [reflexivity|]. split; [reflexivity|].
  split.
  { apply Forall_app. split; [done|].
    apply Forall_app. split; [by repeat constructor|].
    apply Forall_app. split; [done|]. apply Forall_app. split; [|done].
    by repeat constructor. }
  intros lo hi Hwin Hpos.
  destruct (Hsl1 lo hi Hwin Hpos) as [Hse1 Hdr1].
  destruct (Hsl2 lo hi Hwin Hpos) as [Hse2 Hdr2].
  destruct (Hsl3 lo hi Hwin Hpos) as [Hse3 _].
  rewrite !sleeps_and_exchanges_app, Hse1, Hse2, Hse3, Hdb2, Hdr2, Hdb1, Hdr1.
  simpl. by rewrite ?app_nil_r.
Qed.

Lemma fresh_world_well_formed : well_formed Samples.fresh_world.
Proof. split; eexists; reflexivity. Qed.

Lemma throttled_world_well_formed : well_formed Samples.throttled_world.
Proof. split; eexists; reflexivity. Qed.

(** X1: The result of [make_request] is the first accepted response among at
    most three tries of one request, the exchanges number [k], [k+1] and
    [k+2] of the run; when none is accepted, the failure of the third. *)
Theorem make_request_returns_first_accepted E url method headers cookies att w :
  well_formed w ->
  (BaseScraper.make_request E url method headers cookies att w).1
  = three_tries E (exchanges w) (request_sent E w url method headers cookies).
Proof.
  intros Hwf.
  destruct (make_request_full E url method headers cookies att w Hwf)
    as (n & w' & -> & _). reflexivity.
Qed.

Lemma make_request_returns_first_accepted_witness :
  well_formed Samples.fresh_world
  /\ (BaseScraper.make_request Samples.site_flaky "/entreprise/acme" "GET"
        None None None Samples.fresh_world).1
     = three_tries Samples.site_flaky (exchanges Samples.fresh_world)
         (request_sent Samples.site_flaky Samples.fresh_world
            "/entreprise/acme" "GET" None None).
Proof.
  split; [exact fresh_world_well_formed|].
  exact (make_request_returns_first_accepted Samples.site_flaky
           "/entreprise/acme" "GET" None None None Samples.fresh_world
           fresh_world_well_formed).
Defined.



(** X3: All the tries of a call send the same request: to [url] itself when
    it is absolute, to its join with the base URL otherwise, with the
    default headers and cookies of the scraper, each key that the caller
    overrides taking the caller's value. *)
Theorem make_request_sends_one_request E url method headers cookies att w :
  well_formed w ->
  Forall (fun rq => rq = request_sent E w url method headers cookies)
    (exchanged
       (new_events w
          (BaseScraper.make_request E url method headers cookies att w).2))
  /\ (BaseScraper.is_absolute url = true ->
      rq_url (request_sent E w url method headers cookies) = url)
  /\ (forall b,
        base_url (self w) = Some b -> BaseScraper.nonempty b = true ->
        BaseScraper.is_absolute url = false ->
        rq_url (request_sent E w url method headers cookies) = urljoin E b url)
  /\ (forall k,
        rq_headers (request_sent E w url method headers cookies) !! k
        = match default ∅ headers !! k with
          | Some v => Some v
          | None => default ∅ (heap w !! default_headers (self w)) !! k
          end)
  /\ (forall k,
        rq_cookies (request_sent E w url method headers cookies) !! k
        = match default ∅ cookies !! k with
          | Some v => Some v
          | None => default ∅ (heap w !! default_cookies (self w)) !! k
          end).
Proof.
  intros Hwf. split; [|split; [|split; [|split]]].
  - destruct (make_request_full E url method headers cookies att w Hwf)
      as (n & w' & Hrun & _ & _ & _ & _ & _ & _ & Hex & _).
    rewrite Hrun. simpl. rewrite Hex. apply Forall_forall. intros rq Hin.
    by apply elem_of_replicate in Hin as [-> _].
  - intros Habs. simpl. unfold resolved_url.
    destruct (base_url (self w)); [|done]. by rewrite Habs.
  - intros b Hb Hne Hrel. simpl. unfold resolved_url.
    by rewrite Hb, Hrel, Hne.
  - intros k. apply merged_lookup.
  - intros k. apply merged_lookup.
Qed.

Lemma make_request_sends_one_request_witness :
  well_formed Samples.fresh_world
  /\ exchanged
       (new_events Samples.fresh_world
          (BaseScraper.make_request Samples.site_flaky "/entreprise/acme" "GET"
             (Some {[ "Referer" := "https://example.org/" ]}) None None
             Samples.fresh_world).2)
     = replicate 3
         (request_sent Samples.site_flaky Samples.fresh_world
            "/entreprise/acme" "GET"
            (Some {[ "Referer" := "https://example.org/" ]}) None)
  /\ rq_url (request_sent Samples.site_flaky Samples.fresh_world
               "/entreprise/acme" "GET"
               (Some {[ "Referer" := "https://example.org/" ]}) None)
     = Samples.acme_url
  /\ rq_headers (request_sent Samples.site_flaky Samples.fresh_world
                   "/entreprise/acme" "GET"
                   (Some {[ "Referer" := "https://example.org/" ]}) None)
       !! "Referer" = Some "https://example.org/"
  /\ rq_headers (request_sent Samples.site_flaky Samples.fresh_world
                   "/entreprise/acme" "GET"
                   (Some {[ "Referer" := "https://example.org/" ]}) None)
       !! "Accept-Language" = Some "en-US,en;q=0.9".
Proof.
  pose proof (make_request_sends_one_request Samples.site_flaky
                "/entreprise/acme" "GET"
                (Some {[ "Referer" := "https://example.org/" ]}) None None
                Samples.fresh_world fresh_world_well_formed)
    as (Hall & _ & Hrel & Hhd & _).
  split; [exact fresh_world_well_formed|]. split; [|split; [|split]].
  - vm_compute. reflexivity.
  - exact (Hrel _ eq_refl eq_refl eq_refl).
  - rewrite Hhd. reflexivity.
  - rewrite Hhd. reflexivity.
Defined.



Lemma attempt_outcome_kind r :
  match attempt_outcome r with
  | Ok resp => attempt_fails (Responded resp) = false
  | Raise e => is_RequestException e = true
  end.
Proof.
  destruct r as [resp|e]; simpl.
  - destruct ((400 <=? status_code resp)%Z && (status_code resp <? 600)%Z) eqn:H;
      simpl; [done | exact H].
  - by destruct e.
Qed.





(** * More on [save_to_csv] *)

(** Dicts that use only the field names are written as their values, in
    order, after the rows that are there. *)
Lemma writerows_dicts filename fn (ds : list record) :
  forall rows0 w,
    fs w !! filename = Some (Content rows0) ->
    forallb (uses_only fn) ds = true ->
    exists w',
      BaseScraper.writerows (BaseScraper.dict_to_list fn) filename
        (IDict <$> ds) w = (Ok tt, w')
      /\ fs w' = <[filename := Content (rows0 ++ (rendered fn <$> (IDict <$> ds)))]> (fs w)
      /\ trace w' = trace w /\ self w' = self w /\ heap w' = heap w.
Proof.
  induction ds as [|d ds IH]; intros rows0 w Hf Hok.
  - exists w. simpl. rewrite app_nil_r. repeat split.
    by rewrite insert_id.
  - simpl in Hok. apply andb_prop in Hok as [Hd Hds].
    cbn [fmap list_fmap BaseScraper.writerows BaseScraper.dict_to_list].
    unfold uses_only in Hd. rewrite Hd.
    unfold bind at 1. cbn [ret]. cbv beta iota.
    unfold bind at 1. unfold BaseScraper.append_row at 1, modify.
    rewrite Hf. cbv beta iota.
    destruct (IH (rows0 ++ [rendered fn (IDict d)])
                (set_fs (<[filename:=Content (rows0 ++ [rendered fn (IDict d)])]>
                           (fs w)) w))
      as (w' & Hrun & Hfs & Htr & Hs & Hh); [apply lookup_insert_eq | exact Hds |].
    exists w'. unfold row in *. cbn [rendered] in *. rewrite Hrun.
    split; [done|]. split; [|done].
    rewrite Hfs. cbn. rewrite insert_insert_eq.
    by rewrite <- app_assoc.
Qed.

(** The part of [save_to_csv] after the header check, for dicts, when the
    header is to be written. *)
Lemma write_dicts_with_header filename names d ds w rows0 :
  fs w !! filename = Some (Content rows0) ->
  forallb (uses_only names) (d :: ds) = true ->
  exists w',
    bind (bind (BaseScraper.append_row filename names)
            (fun _ => BaseScraper.writerows (BaseScraper.dict_to_list names)
                        filename (IDict <$> d :: ds)))
      (fun _ => log DEBUG (MsgSavedCsv filename)) w = (Ok tt, w')
    /\ fs w' = <[filename := Content (rows0 ++ names
                                        :: (rendered names <$> (IDict <$> d :: ds)))]>
                 (fs w)
    /\ self w' = self w /\ heap w' = heap w.
Proof.
  intros Hf Hok.
  unfold bind. unfold BaseScraper.append_row at 1, modify. rewrite Hf.
  cbv beta iota.
  destruct (writerows_dicts filename names (d :: ds) (rows0 ++ [names])
              (set_fs (<[filename:=Content (rows0 ++ [names])]> (fs w)) w))
    as (w1 & Hrun & Hfs & Htr & Hs & Hh); [apply lookup_insert_eq | exact Hok |].
  unfold row in *. rewrite Hrun.
  cbn. eexists. split; [reflexivity|]. cbn.
  rewrite Hfs, Hs, Hh. cbn. rewrite insert_insert_eq, <- app_assoc. done.
Qed.

Ltac csv_eval :=
  unfold BaseScraper.save_to_csv, try_except, bind, gets, ret, log, emit,
    raise, BaseScraper.check_header;
  cbn -[bool_decide BaseScraper.writerows BaseScraper.open_file
        BaseScraper.append_row].

Ltac csv_step :=
  cbn -[bool_decide BaseScraper.writerows BaseScraper.open_file
        BaseScraper.append_row].

(** Dicts written to a file from its start. *)
Lemma save_dicts_from_start filename fieldnames mode d ds w :
  starts_afresh mode (fs w !! filename) = true ->
  forallb (uses_only (field_order fieldnames d)) (d :: ds) = true ->
  exists w',
    BaseScraper.save_to_csv (DList (IDict <$> d :: ds)) filename fieldnames
      mode w = (Ok tt, w')
    /\ fs w'
       = <[filename := Content (field_order fieldnames d
                                  :: (rendered (field_order fieldnames d)
                                        <$> (IDict <$> d :: ds)))]> (fs w).
Proof.
  intros Hfresh Hok.
  set (names := field_order fieldnames d) in *.
  assert (Hnames : (if BaseScraper.truthy_names fieldnames
                    then default [] fieldnames else keys d) = names)
    by reflexivity.
  csv_eval. rewrite Hnames.
  assert (Hwrite : forall w0 : world,
             fs w0 !! filename = Some (Content []) ->
             exists w',
               (let (r, w') :=
                  let (r, w') := BaseScraper.append_row filename names w0 in
                  match r with
                  | Ok _ =>
                      BaseScraper.writerows (BaseScraper.dict_to_list names)
                        filename (IDict d :: (IDict <$> ds)) w'
                  | Raise e => (Raise e, w')
                  end in
                match r with
                | Ok _ =>
                    (Ok tt,
                     {| self := self w'; heap := heap w'; fs := fs w';
                        trace := trace w' ++ [Log DEBUG (MsgSavedCsv filename)];
                        exchanges := exchanges w'; draws := draws w' |})
                | Raise e => (Raise e, w')
                end) = (Ok tt, w')
               /\ fs w'
                  = <[filename := Content (names :: (rendered names
                                                      <$> (IDict <$> d :: ds)))]>
                      (fs w0)).
  { intros w0 Hf0.
    destruct (write_dicts_with_header filename names d ds w0 [] Hf0 Hok)
      as (w' & Hrun & Hfs & _).
    exists w'. split; [|exact Hfs].
    exact Hrun. }
  destruct mode.
  - destruct (fs w !! filename) as [[[|r0 rows]|]|] eqn:Hf; try done; csv_step.
    + (* empty file *)
      unfold BaseScraper.open_file, modify. csv_step. rewrite Hf.
      match goal with
      | |- context [BaseScraper.append_row filename names ?w0] =>
          destruct (Hwrite w0 ltac:(exact Hf)) as (w' & Hrun & Hfs)
      end.
      exists w'. rewrite Hrun. split; [reflexivity|].
      rewrite Hfs. reflexivity.
    + (* unreadable file *)
      unfold BaseScraper.open_file, modify. csv_step.
      match goal with
      | |- context [BaseScraper.append_row filename names ?w0] =>
          destruct (Hwrite w0 ltac:(cbn; apply lookup_insert_eq))
            as (w' & Hrun & Hfs)
      end.
      exists w'. rewrite Hrun. split; [reflexivity|].
      rewrite Hfs. cbn. by rewrite insert_insert_eq.
    + (* missing file *)
      unfold BaseScraper.open_file, modify. csv_step. rewrite Hf.
      match goal with
      | |- context [BaseScraper.append_row filename names ?w0] =>
          destruct (Hwrite w0 ltac:(cbn; apply lookup_insert_eq))
            as (w' & Hrun & Hfs)
      end.
      exists w'. rewrite Hrun. split; [reflexivity|].
      rewrite Hfs. cbn. by rewrite insert_insert_eq.
  - (* mode 'w' *)
    unfold BaseScraper.open_file, modify. csv_step.
    match goal with
    | |- context [BaseScraper.append_row filename names ?w0] =>
        destruct (Hwrite w0 ltac:(cbn; apply lookup_insert_eq))
          as (w' & Hrun & Hfs)
    end.
    exists w'. rewrite Hrun. split; [reflexivity|].
    rewrite Hfs. cbn. by rewrite insert_insert_eq.
Qed.

(** X8: When the file is written from its start (mode ['w'], or a file that
    is missing, empty or unreadable), dicts that use only the field names
    give the header row followed by one row of values per dict, in order;
    nothing of an earlier content remains. *)
Theorem save_to_csv_writes_afresh filename fieldnames mode d ds w :
  starts_afresh mode (fs w !! filename) = true ->
  forallb (uses_only (field_order fieldnames d)) (d :: ds) = true ->
  exists w',
    BaseScraper.save_to_csv (DList (IDict <$> d :: ds)) filename fieldnames
      mode w = (Ok tt, w')
    /\ fs w'
       = <[filename := Content (field_order fieldnames d
                                  :: (rendered (field_order fieldnames d)
                                        <$> (IDict <$> d :: ds)))]> (fs w).
Proof. apply save_dicts_from_start. Qed.

(** Dicts appended under the header they use. *)
Lemma save_dicts_under_header filename fieldnames d ds rows w :
  field_order fieldnames d <> [] ->
  fs w !! filename = Some (Content (field_order fieldnames d :: rows)) ->
  forallb (uses_only (field_order fieldnames d)) (d :: ds) = true ->
  exists w',
    BaseScraper.save_to_csv (DList (IDict <$> d :: ds)) filename fieldnames
      ModeA w = (Ok tt, w')
    /\ fs w'
       = <[filename := Content (field_order fieldnames d
                                  :: rows
                                     ++ (rendered (field_order fieldnames d)
                                           <$> (IDict <$> d :: ds)))]> (fs w).
Proof.
  intros Hne Hf Hok.
  set (names := field_order fieldnames d) in *.
  assert (Hnames : (if BaseScraper.truthy_names fieldnames
                    then default [] fieldnames else keys d) = names)
    by reflexivity.
  csv_eval. rewrite Hnames, Hf. clearbody names.
  destruct names as [|name0 names']; [done|].
  csv_step. rewrite bool_decide_eq_true_2 by reflexivity. csv_step.
  unfold BaseScraper.open_file, modify. csv_step. rewrite Hf.
  match goal with
  | |- context [BaseScraper.writerows _ _ _ ?w0] =>
      destruct (writerows_dicts filename (name0 :: names') (d :: ds)
                  ((name0 :: names') :: rows) w0
                  ltac:(exact Hf) Hok) as (w' & Hrun & Hfs & _)
  end.
  cbn [fmap list_fmap] in Hrun. unfold row in *. rewrite Hrun.
  eexists. split; [reflexivity|]. cbn. rewrite Hfs. reflexivity.
Qed.

(** X9: On a file whose first row is the (non-empty) header that the call
    settles on, mode ['a'] appends one row of values per dict and touches
    nothing above: the header is not written again. *)
Theorem save_to_csv_appends filename fieldnames d ds rows w :
  field_order fieldnames d <> [] ->
  fs w !! filename = Some (Content (field_order fieldnames d :: rows)) ->
  forallb (uses_only (field_order fieldnames d)) (d :: ds) = true ->
  exists w',
    BaseScraper.save_to_csv (DList (IDict <$> d :: ds)) filename fieldnames
      ModeA w = (Ok tt, w')
    /\ fs w'
       = <[filename := Content (field_order fieldnames d
                                  :: rows
                                     ++ (rendered (field_order fieldnames d)
                                           <$> (IDict <$> d :: ds)))]> (fs w).
Proof. apply save_dicts_under_header. Qed.

Lemma own_keys_use_only (d : record) : uses_only (keys d) d = true.
Proof.
  unfold uses_only. apply forallb_forall. intros k Hin.
  apply bool_decide_eq_true_2. by apply list_elem_of_In.
Qed.

Lemma same_keys_use_only fn (ds : list record) :
  Forall (fun d => keys d = fn) ds -> forallb (uses_only fn) ds = true.
Proof.
  induction 1 as [|d ds Hd _ IH]; [done|].
  simpl. rewrite IH, andb_true_r. rewrite <- Hd. apply own_keys_use_only.
Qed.

(** Batches appended to a file that has the header. *)
Lemma append_batches_under_header filename fn batches :
  fn <> [] ->
  Forall (fun batch => batch <> [] /\ Forall (fun d => keys d = fn) batch) batches ->
  forall rows w,
    fs w !! filename = Some (Content (fn :: rows)) ->
    exists w',
      append_batches batches filename w = (Ok tt, w')
      /\ fs w' !! filename
         = Some (Content (fn :: rows
                            ++ (rendered fn <$> (IDict <$> concat batches)))).
Proof.
  intros Hfn. induction 1 as [|batch batches [Hne Hkeys] _ IH]; intros rows w Hf.
  - exists w. simpl. by rewrite app_nil_r.
  - destruct batch as [|d ds]; [done|].
    assert (Hd : keys d = fn) by (by inversion Hkeys).
    assert (Hfo : field_order None d = fn) by exact Hd.
    destruct (save_dicts_under_header filename None d ds rows w) as (w1 & Hrun & Hfs).
    { by rewrite Hfo. }
    { by rewrite Hfo. }
    { rewrite Hfo. by apply same_keys_use_only. }
    rewrite Hfo in Hfs.
    destruct (IH (rows ++ (rendered fn <$> (IDict <$> d :: ds))) w1)
      as (w' & Hrest & Hfs').
    { rewrite Hfs. apply lookup_insert_eq. }
    exists w'. cbn [append_batches]. unfold bind at 1. rewrite Hrun.
    split; [exact Hrest|]. rewrite Hfs'.
    cbn [concat]. by rewrite !fmap_app, <- app_assoc.
Qed.

(** X10: Appending batch after batch of records with the same keys, from a
    file that is missing or empty: the header is written once, by the
    first call, and every record gives one row, in the order of
    submission. *)
Theorem append_batches_header_once filename fn batch batches w :
  fn <> [] ->
  starts_afresh ModeA (fs w !! filename) = true ->
  Forall (fun batch => batch <> [] /\ Forall (fun d => keys d = fn) batch)
    (batch :: batches) ->
  exists w',
    append_batches (batch :: batches) filename w = (Ok tt, w')
    /\ rows_of w' filename
       = Some (fn :: (rendered fn <$> (IDict <$> concat (batch :: batches)))).
Proof.
  intros Hfn Hfresh Hall.
  inversion Hall as [|? ? [Hne Hkeys] Hrest]; subst.
  destruct batch as [|d ds]; [done|].
  assert (Hd : keys d = fn) by (by inversion Hkeys).
  assert (Hfo : field_order None d = fn) by exact Hd.
  destruct (save_dicts_from_start filename None ModeA d ds w Hfresh)
    as (w1 & Hrun & Hfs).
  { rewrite Hfo. by apply same_keys_use_only. }
  rewrite Hfo in Hfs.
  destruct (append_batches_under_header filename fn batches Hfn Hrest
              (rendered fn <$> (IDict <$> d :: ds)) w1)
    as (w' & Hrest' & Hfs').
  { rewrite Hfs. apply lookup_insert_eq. }
  exists w'. cbn [append_batches]. unfold bind at 1. rewrite Hrun.
  split; [exact Hrest'|]. unfold rows_of. rewrite Hfs'.
  cbn [concat]. by rewrite !fmap_app.
Qed.

Lemma append_batches_header_once_witness :
  columns <> []
  /\ starts_afresh ModeA (fs Samples.fresh_world !! Samples.out) = true
  /\ exists w',
      append_batches
        [ [SampleRuns.acme_record]; [SampleRuns.acme_record; SampleRuns.acme_record] ]
        Samples.out Samples.fresh_world = (Ok tt, w')
      /\ rows_of w' Samples.out
         = Some (columns
                   :: (rendered columns
                         <$> (IDict
                                <$> concat [ [SampleRuns.acme_record];
                                             [SampleRuns.acme_record;
                                              SampleRuns.acme_record] ]))).
Proof.
  assert (H1 : columns <> []) by discriminate.
  assert (H2 : starts_afresh ModeA (fs Samples.fresh_world !! Samples.out) = true)
    by reflexivity.
  split; [exact H1|]. split; [exact H2|].
  apply (append_batches_header_once Samples.out columns
           [SampleRuns.acme_record]
           [ [SampleRuns.acme_record; SampleRuns.acme_record] ]
           Samples.fresh_world H1 H2).
  repeat constructor; discriminate.
Defined.

Lemma save_to_csv_writes_afresh_witness :
  starts_afresh ModeA (fs unreadable_world !! Samples.out) = true
  /\ forallb (uses_only (field_order None SampleRuns.acme_record))
       [SampleRuns.acme_record] = true
  /\ exists w',
      BaseScraper.save_to_csv (DList (IDict <$> [SampleRuns.acme_record]))
        Samples.out None ModeA unreadable_world = (Ok tt, w')
      /\ fs w'
         = <[Samples.out :=
               Content (field_order None SampleRuns.acme_record
                          :: (rendered (field_order None SampleRuns.acme_record)
                                <$> (IDict <$> [SampleRuns.acme_record])))]>
             (fs unreadable_world).
Proof.
  assert (H1 : starts_afresh ModeA (fs unreadable_world !! Samples.out) = true)
    by reflexivity.
  assert (H2 : forallb (uses_only (field_order None SampleRuns.acme_record))
                 [SampleRuns.acme_record] = true) by reflexivity.
  split; [exact H1|]. split; [exact H2|].
  exact (save_to_csv_writes_afresh Samples.out None ModeA
           SampleRuns.acme_record [] unreadable_world H1 H2).
Defined.

Lemma save_to_csv_appends_witness :
  field_order None SampleRuns.acme_record <> []
  /\ fs started_world !! Samples.out
     = Some (Content (field_order None SampleRuns.acme_record
                        :: [rendered columns (IDict SampleRuns.acme_record)]))
  /\ forallb (uses_only (field_order None SampleRuns.acme_record))
       [SampleRuns.acme_record] = true
  /\ exists w',
      BaseScraper.save_to_csv (DList (IDict <$> [SampleRuns.acme_record]))
        Samples.out None ModeA started_world = (Ok tt, w')
      /\ fs w'
         = <[Samples.out :=
               Content (field_order None SampleRuns.acme_record
                          :: [rendered columns (IDict SampleRuns.acme_record)]
                             ++ (rendered (field_order None SampleRuns.acme_record)
                                   <$> (IDict <$> [SampleRuns.acme_record])))]>
             (fs started_world).
Proof.
  assert (H1 : field_order None SampleRuns.acme_record <> []) by discriminate.
  assert (H2 : fs started_world !! Samples.out
               = Some (Content (field_order None SampleRuns.acme_record
                                  :: [rendered columns (IDict SampleRuns.acme_record)])))
    by reflexivity.
  assert (H3 : forallb (uses_only (field_order None SampleRuns.acme_record))
                 [SampleRuns.acme_record] = true) by reflexivity.
  split; [exact H1|]. split; [exact H2|]. split; [exact H3|].
  exact (save_to_csv_appends Samples.out None SampleRuns.acme_record []
           [rendered columns (IDict SampleRuns.acme_record)] started_world
           H1 H2 H3).
Defined.

#[global] Instance others_kept_preorder filename : PreOrder (others_kept filename).
Proof.
  split.
  - by intros w f Hf.
  - intros w1 w2 w3 H12 H23 f Hf. rewrite H23 by done. by apply H12.
Qed.

#[global] Instance object_kept_preorder : PreOrder object_kept.
Proof.
  split.
  - by intros w.
  - intros w1 w2 w3 (?&?&?&?) (?&?&?&?). repeat split; congruence.
Qed.

Lemma open_file_others_kept filename mode :
  preserves (others_kept filename) (BaseScraper.open_file filename mode).
Proof.
  intros w f Hf. unfold BaseScraper.open_file, modify. simpl.
  destruct mode, (fs w !! filename); simpl; by rewrite ?lookup_insert_ne.
Qed.

Lemma append_row_others_kept filename r :
  preserves (others_kept filename) (BaseScraper.append_row filename r).
Proof.
  intros w f Hf. unfold BaseScraper.append_row, modify. simpl.
  destruct (fs w !! filename) as [[rows|]|]; simpl; by rewrite ?lookup_insert_ne.
Qed.
#[export] Hint Resolve open_file_others_kept append_row_others_kept : keeps.

Lemma save_to_csv_others_kept data filename fieldnames mode :
  preserves (others_kept filename)
    (BaseScraper.save_to_csv data filename fieldnames mode).
Proof. unfold_csv. keeps. Qed.

Lemma save_to_csv_object_kept data filename fieldnames mode :
  preserves object_kept (BaseScraper.save_to_csv data filename fieldnames mode).
Proof. unfold_csv. keeps. Qed.



Lemma writerows_dicts_odd filename fn bad (rest : list record) (ds : list record) :
  uses_only fn bad = false ->
  forall rows0 w,
    fs w !! filename = Some (Content rows0) ->
    forallb (uses_only fn) ds = true ->
    exists w',
      BaseScraper.writerows (BaseScraper.dict_to_list fn) filename
        (IDict <$> ds ++ bad :: rest) w
      = (Raise (ValueError "dict contains fields not in fieldnames"), w')
      /\ fs w' = <[filename := Content (rows0 ++ (rendered fn <$> (IDict <$> ds)))]> (fs w)
      /\ trace w' = trace w.
Proof.
  intros Hbad. induction ds as [|d ds IH]; intros rows0 w Hf Hok.
  - exists w. cbn [app fmap list_fmap BaseScraper.writerows BaseScraper.dict_to_list].
    unfold uses_only in Hbad. rewrite Hbad. unfold bind, raise.
    rewrite app_nil_r. repeat split. by rewrite insert_id.
  - simpl in Hok. apply andb_prop in Hok as [Hd Hds].
    cbn [app fmap list_fmap BaseScraper.writerows BaseScraper.dict_to_list].
    unfold uses_only in Hd. rewrite Hd.
    unfold bind at 1. cbn [ret]. cbv beta iota.
    unfold bind at 1. unfold BaseScraper.append_row at 1, modify.
    rewrite Hf. cbv beta iota.
    destruct (IH (rows0 ++ [rendered fn (IDict d)])
                (set_fs (<[filename:=Content (rows0 ++ [rendered fn (IDict d)])]>
                           (fs w)) w))
      as (w' & Hrun & Hfs & Htr); [apply lookup_insert_eq | exact Hds |].
    exists w'. unfold row in *. cbn [rendered] in *. rewrite Hrun.
    split; [done|]. split; [|done].
    rewrite Hfs. cbn. rewrite insert_insert_eq.
    by rewrite <- app_assoc.
Qed.

(** X12: A dict with a key outside the field names stops the call with a
    [ValueError]; the records before it are in the file by then, the
    records from it on are not. *)
Theorem save_to_csv_stops_at_odd_record filename fieldnames d ds bad rest rows w :
  field_order fieldnames d <> [] ->
  fs w !! filename = Some (Content (field_order fieldnames d :: rows)) ->
  forallb (uses_only (field_order fieldnames d)) (d :: ds) = true ->
  uses_only (field_order fieldnames d) bad = false ->
  exists w',
    BaseScraper.save_to_csv (DList (IDict <$> (d :: ds) ++ bad :: rest))
      filename fieldnames ModeA w
    = (Raise (ValueError "dict contains fields not in fieldnames"), w')
    /\ fs w'
       = <[filename := Content (field_order fieldnames d
                                  :: rows
                                     ++ (rendered (field_order fieldnames d)
                                           <$> (IDict <$> d :: ds)))]> (fs w).
Proof.
  intros Hne Hf Hok Hbad.
  set (names := field_order fieldnames d) in *.
  assert (Hnames : (if BaseScraper.truthy_names fieldnames
                    then default [] fieldnames else keys d) = names)
    by reflexivity.
  csv_eval. rewrite Hnames, Hf. clearbody names.
  destruct names as [|name0 names']; [done|].
  csv_step. rewrite bool_decide_eq_true_2 by reflexivity. csv_step.
  unfold BaseScraper.open_file, modify. csv_step. rewrite Hf.
  match goal with
  | |- context [BaseScraper.writerows _ _ _ ?w0] =>
      destruct (writerows_dicts_odd filename (name0 :: names') bad rest (d :: ds)
                  Hbad ((name0 :: names') :: rows) w0
                  ltac:(exact Hf) Hok) as (w' & Hrun & Hfs & _)
  end.
  cbn [app fmap list_fmap] in Hrun. unfold row in *. rewrite Hrun.
  eexists. split; [reflexivity|]. cbn. rewrite Hfs. reflexivity.
Qed.

Lemma save_to_csv_stops_at_odd_record_witness :
  field_order None SampleRuns.acme_record <> []
  /\ fs started_world !! Samples.out
     = Some (Content (field_order None SampleRuns.acme_record
                        :: [rendered columns (IDict SampleRuns.acme_record)]))
  /\ forallb (uses_only (field_order None SampleRuns.acme_record))
       [SampleRuns.acme_record] = true
  /\ uses_only (field_order None SampleRuns.acme_record) odd_record = false
  /\ exists w',
      BaseScraper.save_to_csv
        (DList (IDict <$> [SampleRuns.acme_record]
                            ++ odd_record :: [SampleRuns.acme_record]))
        Samples.out None ModeA started_world
      = (Raise (ValueError "dict contains fields not in fieldnames"), w')
      /\ fs w'
         = <[Samples.out :=
               Content (field_order None SampleRuns.acme_record
                          :: [rendered columns (IDict SampleRuns.acme_record)]
                             ++ (rendered (field_order None SampleRuns.acme_record)
                                   <$> (IDict <$> [SampleRuns.acme_record])))]>
             (fs started_world).
Proof.
  assert (H1 : field_order None SampleRuns.acme_record <> []) by discriminate.
  assert (H2 : fs started_world !! Samples.out
               = Some (Content (field_order None SampleRuns.acme_record
                                  :: [rendered columns (IDict SampleRuns.acme_record)])))
    by reflexivity.
  assert (H3 : forallb (uses_only (field_order None SampleRuns.acme_record))
                 [SampleRuns.acme_record] = true) by reflexivity.
  assert (H4 : uses_only (field_order None SampleRuns.acme_record) odd_record
               = false) by reflexivity.
  split; [exact H1|]. split; [exact H2|]. split; [exact H3|]. split; [exact H4|].
  exact (save_to_csv_stops_at_odd_record Samples.out None SampleRuns.acme_record
           [] odd_record [SampleRuns.acme_record]
           [rendered columns (IDict SampleRuns.acme_record)] started_world
           H1 H2 H3 H4).
Defined.

(** * More on listings *)

(** X13: [parse_details] never raises.  From a complete page it reads the
    eight columns: the link and the category as given, the heading, the
    three parts of the address block, the phone and the skills text (the
    empty string for a missing container); the world is untouched.  From
    any other page it gives the empty dict and logs one error. *)
Theorem parse_details_all_or_nothing link category s w :
  if page_complete s then
    exists street zip_code city,
      QualitEnrScraper.split_address (default "" (address_block s)) w
      = (Ok (street, zip_code, city), w)
      /\ QualitEnrScraper.parse_details link category s w
         = (Ok [ ("link", link); ("type", category);
                 ("name", default "" (h1 s));
                 ("zip_code", zip_code); ("city", city); ("street", street);
                 ("phone", inner_text (phone_container s));
                 ("skills_name", inner_text (skills_heading s)) ], w)
  else
    exists e,
      QualitEnrScraper.parse_details link category s w
      = (Ok [], (log ERROR (MsgErrorParsingDetails link e) w).2).
Proof.
  unfold page_complete, QualitEnrScraper.parse_details, try_except, bind,
    QualitEnrScraper.expect, ret, raise.
  destruct (h1 s) as [name|]; simpl; [|by eexists].
  destruct (address_block s) as [addr|]; simpl; [|by eexists].
  destruct (split_address_total addr w) as ([[street zip] city] & Hsplit).
  rewrite Hsplit.
  destruct (skills_heading s) as [[sk|]|]; simpl; [| by eexists |];
    (destruct (phone_container s) as [[ph|]|]; simpl; [| by eexists |]);
    by exists street, zip, city.
Qed.

(** ** [split] and [join] *)

Lemma append_cons c (a b : string) : String c a +:+ b = String c (a +:+ b).
Proof. reflexivity. Qed.

Lemma append_assoc (a b c : string) : (a +:+ b) +:+ c = a +:+ (b +:+ c).
Proof.
  induction a as [|x a IH]; [done|]. by rewrite !append_cons, IH.
Qed.

Lemma append_nil_r (a : string) : a +:+ "" = a.
Proof. induction a as [|x a IH]; [done|]. by rewrite append_cons, IH. Qed.

Lemma append_length (a b : string) :
  String.length (a +:+ b) = (String.length a + String.length b)%nat.
Proof.
  induction a as [|x a IH]; [done|]. rewrite append_cons. simpl. by rewrite IH.
Qed.

Lemma rev_app_spec s : forall t, String.rev_app s t = String.rev s +:+ t.
Proof.
  unfold String.rev. induction s as [|c s IH]; intros t; [done|].
  simpl. rewrite (IH (String c "")), (IH (String c t)).
  by rewrite append_assoc.
Qed.

Lemma prefix_split a : forall b, String.prefix a b = true -> exists t, b = a +:+ t.
Proof.
  induction a as [|x a IH]; intros b Hp; [by exists b|].
  destruct b as [|y b]; [done|]. simpl in Hp.
  destruct (ascii_dec x y) as [->|]; [|done].
  destruct (IH b Hp) as [t ->]. by exists t.
Qed.

(** Inside an occurrence of the separator, the characters left to skip
    are dropped. *)
Lemma split_go_skip sep cur q : forall s,
  Py.split_go sep (String.length q) cur (q +:+ s) = Py.split_go sep 0 cur s.
Proof.
  induction q as [|c q IH]; intros s; [done|].
  rewrite append_cons. simpl. apply IH.
Qed.

Lemma join_cons sep x l :
  l <> [] -> Py.join sep (x :: l) = x +:+ sep +:+ Py.join sep l.
Proof. by destruct l. Qed.

Lemma join_split_go sep c0 sep0 :
  sep = String c0 sep0 ->
  forall n s, (String.length s <= n)%nat ->
  forall cur, Py.join sep (Py.split_go sep 0 cur s) = String.rev cur +:+ s.
Proof.
  intros Hsep. induction n as [|n IH]; intros s Hlen cur.
  - destruct s; [|simpl in Hlen; lia]. simpl. by rewrite append_nil_r.
  - destruct s as [|c s]; [simpl; by rewrite append_nil_r|].
    cbn [Py.split_go].
    destruct (String.prefix sep (String c s)) eqn:Hp.
    + destruct (prefix_split _ _ Hp) as [t Ht].
      rewrite Hsep, append_cons in Ht. injection Ht as -> ->.
      assert (Hskip : (String.length sep - 1)%nat = String.length sep0)
        by (rewrite Hsep; simpl; lia).
      rewrite Hskip, split_go_skip.
      rewrite join_cons by apply split_go_nonempty.
      rewrite (IH t).
      * rewrite Hsep. reflexivity.
      * simpl in Hlen. rewrite append_length in Hlen. lia.
    + rewrite (IH s); [|simpl in Hlen; lia].
      unfold String.rev. simpl. rewrite rev_app_spec.
      by rewrite append_assoc.
Qed.

(** Joining the pieces of a split with the separator gives the string
    back. *)
Lemma join_split sep s l : Py.split sep s = Some l -> Py.join sep l = s.
Proof.
  destruct sep as [|c0 sep0]; [done|]. intros [= <-].
  by rewrite (join_split_go _ c0 sep0 eq_refl (String.length s) s).
Qed.

Lemma join_head sep x l :
  Py.join sep (x :: l) = x
  \/ exists r, Py.join sep (x :: l) = x +:+ sep +:+ r.
Proof. destruct l; [by left | right; by eexists]. Qed.

Lemma join_last sep z : forall l,
  Py.last l = Some z ->
  Py.join sep l = z \/ exists p, Py.join sep l = p +:+ sep +:+ z.
Proof.
  unfold Py.last. induction l as [|x [|y l] IH]; intros Hl; [done | |].
  - injection Hl as ->. by left.
  - right. rewrite join_cons by done.
    destruct (IH Hl) as [-> | [p ->]]; [by exists x|].
    exists (x +:+ sep +:+ p). by rewrite !append_assoc.
Qed.

(** X14: The pieces of an address block put it together again: the block is
    the street alone or starts with the street and [||]; it is the last
    segment alone or ends with [||] and the last segment; and the last
    segment is the postal code alone (the city is then empty) or the
    postal code, a space and the city.  No address block makes the cut
    fail. *)
Theorem split_address_reassembles addr w :
  exists street zip_code city zip_city,
    QualitEnrScraper.split_address addr w = (Ok (street, zip_code, city), w)
    /\ (addr = street \/ exists r, addr = street +:+ "||" +:+ r)
    /\ (addr = zip_city \/ exists p, addr = p +:+ "||" +:+ zip_city)
    /\ ((zip_city = zip_code /\ city = "")
        \/ zip_city = zip_code +:+ " " +:+ city).
Proof.
  destruct (Py.split_go "||" 0 "" addr) as [|street segs] eqn:Hsegs.
  { by apply split_go_nonempty in Hsegs. }
  destruct (proj2 (last_is_Some (street :: segs)) ltac:(done)) as [zip_city Hl].
  destruct (Py.split_go " " 0 "" zip_city) as [|z rest] eqn:Hz.
  { by apply split_go_nonempty in Hz. }
  assert (Ha : Py.split "||" addr = Some (street :: segs))
    by (by rewrite <- Hsegs).
  assert (Hzc : Py.split " " zip_city = Some (z :: rest))
    by (by rewrite <- Hz).
  exists street, z, (Py.join " " rest), zip_city.
  split; [by apply (split_address_rule addr (street :: segs) _ zip_city)|].
  apply join_split in Ha, Hzc.
  split; [rewrite <- Ha; apply join_head|].
  split; [rewrite <- Ha; by apply join_last|].
  rewrite <- Hzc. destruct rest; [by left | right].
  by rewrite join_cons.
Qed.

(** * What a scrape saves *)

Lemma bind_inv {A B} (m : M A) (k : A -> M B) w r w' :
  bind m k w = (r, w') ->
  (exists e, m w = (Raise e, w') /\ r = Raise e)
  \/ (exists a w1, m w = (Ok a, w1) /\ k a w1 = (r, w')).
Proof.
  unfold bind. destruct (m w) as [[a|e] w1]; intros H.
  - right. by exists a, w1.
  - left. injection H as <- <-. by exists e.
Qed.

Lemma preserves_run {A} (R : world -> world -> Prop) (m : M A) w r w1 :
  preserves R m -> m w = (r, w1) -> R w w1.
Proof. intros H Hm. specialize (H w). by rewrite Hm in H. Qed.

Lemma details_config_kept E link category :
  preserves config_kept (QualitEnrScraper._get_company_details E link category).
Proof. unfold_scraper. keeps. Qed.

Lemma total_pages_on_files_kept page s :
  preserves files_kept (QualitEnrScraper.total_pages_on page s).
Proof. unfold_scraper. keeps. Qed.

Lemma total_pages_on_config_kept page s :
  preserves config_kept (QualitEnrScraper.total_pages_on page s).
Proof. unfold_scraper. keeps. Qed.

(** What [parse_details] returns is the empty dict or a dict with the
    columns. *)
Lemma parse_details_keys link category s w :
  exists d w', QualitEnrScraper.parse_details link category s w = (Ok d, w')
               /\ (d = [] \/ keys d = columns).
Proof.
  unfold QualitEnrScraper.parse_details, try_except, bind,
    QualitEnrScraper.expect, ret, raise.
  destruct (h1 s) as [name|]; simpl; [|by eexists _, _; eauto].
  destruct (address_block s) as [addr|]; simpl; [|by eexists _, _; eauto].
  destruct (split_address_total addr w) as ([[street zip] city] & Hsplit).
  rewrite Hsplit.
  destruct (skills_heading s) as [[sk|]|]; simpl;
    try (by eexists _, _; eauto);
    (destruct (phone_container s) as [[ph|]|]; simpl;
     by eexists _, _; eauto).
Qed.

Lemma details_record E link category w d w' :
  QualitEnrScraper._get_company_details E link category w = (Ok d, w') ->
  d = [] \/ keys d = columns.
Proof.
  unfold QualitEnrScraper._get_company_details. intros Hrun.
  apply bind_inv in Hrun as [(e & _ & [=]) | ([] & w0 & _ & Hrun)].
  apply bind_inv in Hrun as [(e & _ & [=]) | (resp & w1 & _ & Hrun)].
  apply bind_inv in Hrun as [(e & _ & [=]) | (s & w2 & _ & Hrun)].
  destruct (parse_details_keys link category s w2) as (d' & w3 & Hp & Hd).
  rewrite Hp in Hrun. by injection Hrun as <- <-.
Qed.

Lemma files_after_some new out w :
  new <> [] ->
  files_after new out w
  = <[out := Content (columns
                        :: data_rows w out
                           ++ (rendered columns <$> (IDict <$> new)))]> (fs w).
Proof. by destruct new. Qed.

Lemma files_after_app n1 n2 out w w1 :
  fs w1 = files_after n1 out w ->
  files_after n2 out w1 = files_after (n1 ++ n2) out w.
Proof.
  intros H. destruct n1 as [|d1 n1].
  - simpl in H. unfold files_after, data_rows. by rewrite H.
  - destruct n2 as [|d2 n2].
    + rewrite app_nil_r. exact H.
    + rewrite files_after_some in H by done.
      rewrite !files_after_some by done. unfold data_rows at 1.
      rewrite H, lookup_insert_eq, insert_insert_eq.
      by rewrite !fmap_app, <- app_assoc.
Qed.

Lemma header_ready_after new out w w1 :
  header_ready (fs w !! out) = true ->
  fs w1 = files_after new out w ->
  header_ready (fs w1 !! out) = true.
Proof.
  intros Hr ->. destruct new; [done|].
  unfold files_after. by rewrite lookup_insert_eq.
Qed.

(** One record with the columns, saved as [process_items] does. *)
Lemma save_record out d w :
  header_ready (fs w !! out) = true -> keys d = columns ->
  exists w',
    BaseScraper.save_to_csv (DList [IDict d]) out None ModeA w = (Ok tt, w')
    /\ fs w' = files_after [d] out w /\ self w' = self w.
Proof.
  intros Hr Hk.
  assert (Hfo : field_order None d = columns) by exact Hk.
  assert (Hok : forallb (uses_only (field_order None d)) [d] = true).
  { simpl. by rewrite own_keys_use_only. }
  pose proof (save_to_csv_object_kept (DList [IDict d]) out None ModeA w)
    as (Hs & _).
  unfold files_after, data_rows.
  destruct (fs w !! out) as [[[|hd rows]|]|] eqn:Hf.
  - destruct (save_dicts_from_start out None ModeA d [] w) as (w' & Hrun & Hfs);
      [by rewrite Hf | done |].
    change (IDict <$> [d]) with [IDict d] in Hrun.
    exists w'. rewrite Hrun in Hs. rewrite Hfo in Hfs. by rewrite Hfs.
  - simpl in Hr. apply bool_decide_eq_true_1 in Hr as ->.
    destruct (save_dicts_under_header out None d [] rows w) as (w' & Hrun & Hfs);
      [by rewrite Hfo | by rewrite Hfo | done |].
    change (IDict <$> [d]) with [IDict d] in Hrun.
    exists w'. rewrite Hrun in Hs. rewrite Hfo in Hfs. by rewrite Hfs.
  - destruct (save_dicts_from_start out None ModeA d [] w) as (w' & Hrun & Hfs);
      [by rewrite Hf | done |].
    change (IDict <$> [d]) with [IDict d] in Hrun.
    exists w'. rewrite Hrun in Hs. rewrite Hfo in Hfs. by rewrite Hfs.
  - destruct (save_dicts_from_start out None ModeA d [] w) as (w' & Hrun & Hfs);
      [by rewrite Hf | done |].
    change (IDict <$> [d]) with [IDict d] in Hrun.
    exists w'. rewrite Hrun in Hs. rewrite Hfo in Hfs. by rewrite Hfs.
Qed.

(** The loop over the listings of a page: the records it appends to its
    results are the records it saves. *)
Lemma process_items_saves E category items : forall acc w r w',
  header_ready (fs w !! output_file (self w)) = true ->
  QualitEnrScraper.process_items E items category acc w = (r, w') ->
  exists new,
    Forall (fun d => keys d = columns) new
    /\ fs w' = files_after new (output_file (self w)) w
    /\ output_file (self w') = output_file (self w)
    /\ match r with Ok results => results = acc ++ new | Raise _ => True end.
Proof.
  induction items as [|href rest IH]; intros acc w r w' Hr Hrun.
  - injection Hrun as <- <-. exists []. by rewrite app_nil_r.
  - cbn [QualitEnrScraper.process_items] in Hrun.
    apply bind_inv in Hrun as [(e & Hd & ->) | (d & w1 & Hd & Hrun)].
    { pose proof (preserves_run _ _ _ _ _ (details_files_kept E href category) Hd)
        as Hf.
      pose proof (preserves_run _ _ _ _ _ (details_config_kept E href category) Hd)
        as (_ & _ & _ & _ & _ & Hout).
      by exists []. }
    pose proof (preserves_run _ _ _ _ _ (details_files_kept E href category) Hd)
      as Hf.
    pose proof (preserves_run _ _ _ _ _ (details_config_kept E href category) Hd)
      as (_ & _ & _ & _ & _ & Hout).
    unfold files_kept in Hf.
    assert (Hr1 : header_ready (fs w1 !! output_file (self w1)) = true)
      by (by rewrite Hf, Hout).
    destruct (details_record _ _ _ _ _ _ Hd) as [-> | Hk].
    + cbn [QualitEnrScraper.truthy_record] in Hrun.
      destruct (IH acc w1 r w' Hr1 Hrun) as (new & Hall & Hfs & Hout' & Hres).
      exists new. split; [done|]. rewrite Hout in Hfs, Hout'.
      split; [|done]. rewrite Hfs. by apply (files_after_app []).
    + destruct d as [|kv d]; [done|].
      cbn [QualitEnrScraper.truthy_record] in Hrun. cbv zeta in Hrun.
      apply bind_inv in Hrun as [(e & [=] & _) | (out & w1' & [= <- <-] & Hrun)].
      destruct (save_record (output_file (self w1)) (kv :: d) w1 Hr1 Hk)
        as (w2 & Hsave & Hfs2 & Hs2).
      apply bind_inv in Hrun as [(e & Hsv & _) | ([] & w2' & Hsv & Hrun)];
        rewrite Hsave in Hsv; [done|]. injection Hsv as <-.
      assert (Hr2 : header_ready (fs w2 !! output_file (self w2)) = true).
      { rewrite Hs2. by apply (header_ready_after [kv :: d] _ w1). }
      destruct (IH (acc ++ [kv :: d]) w2 r w' Hr2 Hrun)
        as (new & Hall & Hfs & Hout' & Hres).
      exists ((kv :: d) :: new). split; [by constructor|].
      rewrite Hs2, Hout in Hfs, Hout'. rewrite Hout in Hfs2.
      split; [|split; [done|]].
      * rewrite Hfs. rewrite (files_after_app [kv :: d] new _ w1 w2 Hfs2).
        by apply (files_after_app []).
      * destruct r; [|done]. by rewrite Hres, <- app_assoc.
Qed.

Lemma files_after_same new out w w1 :
  fs w1 = fs w -> files_after new out w1 = files_after new out w.
Proof. intros H. by apply (files_after_app []). Qed.

(** The loop over the pages: what it adds to [all_results] is what it
    saves. *)
Lemma scrape_loop_saves E category region fuel :
  forall page all_results w r w',
    header_ready (fs w !! output_file (self w)) = true ->
    QualitEnrScraper.scrape_loop E fuel page all_results category region w
    = (r, w') ->
    exists new,
      Forall (fun d => keys d = columns) new
      /\ fs w' = files_after new (output_file (self w)) w
      /\ output_file (self w') = output_file (self w)
      /\ match r with
         | Ok (Some results) => results = all_results ++ new
         | _ => True
         end.
Proof.
  induction fuel as [|fuel IH]; intros page all_results w r w' Hr Hrun.
  { injection Hrun as <- <-. by exists []. }
  cbn [QualitEnrScraper.scrape_loop] in Hrun. cbv zeta in Hrun.
  apply bind_inv in Hrun as [(e & [=] & _) | ([] & w0 & [= <-] & Hrun)].
  apply bind_inv in Hrun as [(e & Hm & ->) | (resp & w1 & Hm & Hrun)].
  { pose proof (preserves_run _ _ _ _ _
                  (make_request_files_kept E _ "GET" None None None) Hm) as Hf.
    pose proof (preserves_run _ _ _ _ _
                  (make_request_config_kept E _ "GET" None None None) Hm)
      as (_ & _ & _ & _ & _ & Hout).
    by exists []. }
  pose proof (preserves_run _ _ _ _ _
                (make_request_files_kept E _ "GET" None None None) Hm) as Hf1.
  pose proof (preserves_run _ _ _ _ _
                (make_request_config_kept E _ "GET" None None None) Hm)
    as (_ & _ & _ & _ & _ & Hout1).
  unfold files_kept in Hf1. cbn in Hf1, Hout1.
  apply bind_inv in Hrun as [(e & [=] & _) | (s & w2 & [= <- <-] & Hrun)].
  apply bind_inv in Hrun as [(e & Hm2 & ->) | (total_pages & w3 & Hm2 & Hrun)].
  { pose proof (preserves_run _ _ _ _ _ (total_pages_on_files_kept _ _) Hm2)
      as Hf.
    pose proof (preserves_run _ _ _ _ _ (total_pages_on_config_kept _ _) Hm2)
      as (_ & _ & _ & _ & _ & Hout).
    unfold files_kept in Hf. cbn in Hf, Hout.
    exists []. simpl. by rewrite Hf, Hout, Hf1, Hout1. }
  pose proof (preserves_run _ _ _ _ _ (total_pages_on_files_kept _ _) Hm2)
    as Hf3.
  pose proof (preserves_run _ _ _ _ _ (total_pages_on_config_kept _ _) Hm2)
    as (_ & _ & _ & _ & _ & Hout3).
  unfold files_kept in Hf3. cbn in Hf3, Hout3.
  assert (Hfs3 : fs w3 = fs w) by (by rewrite Hf3, Hf1).
  assert (Hself3 : output_file (self w3) = output_file (self w))
    by (by rewrite Hout3, Hout1).
  assert (Hr3 : header_ready (fs w3 !! output_file (self w3)) = true)
    by (by rewrite Hfs3, Hself3).
  apply bind_inv in Hrun as [(e & Hp & ->) | (results & w4 & Hp & Hrun)].
  { destruct (process_items_saves _ _ _ _ _ _ _ Hr3 Hp)
      as (new & Hall & Hfs & Hout & _).
    exists new. rewrite Hself3 in Hfs, Hout.
    split; [done|]. split; [|done].
    rewrite Hfs. by apply files_after_same. }
  destruct (process_items_saves _ _ _ _ _ _ _ Hr3 Hp)
    as (new & Hall & Hfs4 & Hout4 & Hres).
  simpl in Hres. subst results.
  rewrite Hself3 in Hfs4, Hout4.
  rewrite (files_after_same new _ w w3 Hfs3) in Hfs4.
  apply bind_inv in Hrun as [(e & [=] & _) | ([] & w5 & [= <-] & Hrun)].
  destruct (total_pages <=? page)%Z.
  - injection Hrun as <- <-. exists new.
    split; [done|]. split; [exact Hfs4|]. split; [exact Hout4 | done].
  - match type of Hrun with
    | QualitEnrScraper.scrape_loop _ _ _ _ _ _ ?w5 = _ =>
        assert (Hr5 : header_ready (fs w5 !! output_file (self w5)) = true)
          by (change (header_ready (fs w4 !! output_file (self w4)) = true);
              rewrite Hout4; by apply (header_ready_after new _ w w4));
        destruct (IH _ _ w5 r w' Hr5 Hrun) as (new' & Hall' & Hfs & Hout & Hres)
    end.
    change (fs w' = files_after new' (output_file (self w4)) w4) in Hfs.
    change (output_file (self w') = output_file (self w4)) in Hout.
    rewrite Hout4 in Hfs, Hout.
    exists (new ++ new'). split; [by apply Forall_app|].
    split; [|split; [done|]].
    + rewrite Hfs. by apply files_after_app.
    + destruct r as [[results|]|]; [|done..]. by rewrite Hres, <- app_assoc.
Qed.

(** A whole scrape: what it returns is what it saves. *)
Lemma scrape_saves E fuel category region w r w' :
  header_ready (fs w !! output_file (self w)) = true ->
  QualitEnrScraper.scrape_region_category E fuel category region w = (r, w') ->
  exists new,
    Forall (fun d => keys d = columns) new
    /\ fs w' = files_after new (output_file (self w)) w
    /\ output_file (self w') = output_file (self w)
    /\ match r with
       | Ok (Some results) => results = new
       | _ => True
       end.
Proof.
  intros Hr Hrun.
  unfold QualitEnrScraper.scrape_region_category in Hrun.
  apply bind_inv in Hrun as [(e & [=] & _) | ([] & w0 & [= <-] & Hrun)].
  apply bind_inv in Hrun as [(e & Hl & ->) | (res & w1 & Hl & Hrun)].
  - eapply scrape_loop_saves in Hl as (new & Hall & Hfs & Hout & _);
      [|exact Hr].
    by exists new.
  - eapply scrape_loop_saves in Hl as (new & Hall & Hfs & Hout & Hres);
      [|exact Hr].
    exists new. split; [done|].
    destruct res as [all_results|].
    + apply bind_inv in Hrun as [(e & [=] & _) | ([] & w2 & [= <-] & Hrun)].
      injection Hrun as <- <-. split; [exact Hfs|]. split; [exact Hout|].
      exact Hres.
    + injection Hrun as <- <-. by split; [exact Hfs|].
Qed.

(** X16: Whatever the site answers, a scrape that finds its output file
    missing, empty, unreadable or headed by the columns of a record
    leaves the other files alone and puts into the output file, below the
    columns and the rows it had, one row per record it read.  When it
    returns, the list it returns is the list of the records saved, in
    order; when a request fails for good, the records saved before stay
    in the file. *)
Theorem scrape_returns_what_it_saved E fuel category region w :
  header_ready (fs w !! output_file (self w)) = true ->
  exists new,
    Forall (fun d => keys d = columns) new
    /\ fs (QualitEnrScraper.scrape_region_category E fuel category region w).2
       = files_after new (output_file (self w)) w
    /\ forall all_results,
         (QualitEnrScraper.scrape_region_category E fuel category region w).1
         = Ok (Some all_results) ->
         all_results = new.
Proof.
  intros Hr.
  destruct (QualitEnrScraper.scrape_region_category E fuel category region w)
    as [r w'] eqn:Hrun.
  destruct (scrape_saves _ _ _ _ _ _ _ Hr Hrun) as (new & Hall & Hfs & _ & Hres).
  exists new. split; [done|]. split; [exact Hfs|].
  intros all_results Heq. simpl in Heq. by subst r.
Qed.

Lemma scrape_returns_what_it_saved_witness :
  header_ready (fs started_world !! output_file (self started_world)) = true
  /\ exists new,
      Forall (fun d => keys d = columns) new
      /\ fs (QualitEnrScraper.scrape_region_category Samples.site_flaky 5
               SampleRuns.category "75" started_world).2
         = files_after new (output_file (self started_world)) started_world
      /\ forall all_results,
           (QualitEnrScraper.scrape_region_category Samples.site_flaky 5
              SampleRuns.category "75" started_world).1
           = Ok (Some all_results) ->
           all_results = new.
Proof.
  split; [reflexivity|].
  exact (scrape_returns_what_it_saved Samples.site_flaky 5 SampleRuns.category
           "75" started_world eq_refl).
Defined.



(** X17: Whatever the site answers, [scrape_region_category] is over within
    two iterations of its [while True] loop: it returns or raises, having
    started page 1, or pages 1 and 2, and no other page. *)
Theorem scrape_ends_within_two_pages E fuel category region w :
  (QualitEnrScraper.scrape_region_category E (S (S fuel)) category region w).1
  <> Ok None
  /\ (pages_scraped
        (new_events w
           (QualitEnrScraper.scrape_region_category E (S (S fuel))
              category region w).2) = [1]
      \/ pages_scraped
           (new_events w
              (QualitEnrScraper.scrape_region_category E (S (S fuel))
                 category region w).2) = [1; 2]).
Proof. apply scrape_visits_two_pages_at_most. Qed.

(** ** When page 2 is fetched *)

Lemma total_count_of_announced s w :
  match announced s with
  | Some n => QualitEnrScraper.total_count_of s w = (Ok n, w)
  | None => exists e, QualitEnrScraper.total_count_of s w = (Raise e, w)
  end.
Proof.
  unfold announced, QualitEnrScraper.total_count_of, QualitEnrScraper.expect,
    bind, ret, raise.
  destruct (search_results_count s) as [count_text|]; [|by eexists].
  destruct (Py.split "/" count_text) as [parts|]; [|by eexists].
  destruct (Py.second parts) as [part|]; [|by eexists].
  destruct (Py.int _) as [n|]; [done | by eexists].
Qed.

(** The estimate on page 1 is more than one page exactly for 20 results
    and more. *)
Lemma total_pages_on_first s w :
  exists tp w',
    QualitEnrScraper.total_pages_on 1 s w = (Ok tp, w')
    /\ (tp <=? 1)%Z = few_results s.
Proof.
  unfold QualitEnrScraper.total_pages_on, few_results. cbn [Z.eqb Pos.eqb].
  unfold try_except, bind.
  pose proof (total_count_of_announced s w) as H.
  destruct (announced s) as [n|].
  - rewrite H. cbn. eexists _, _. split; [reflexivity|].
    unfold QualitEnrScraper.estimated_pages.
    pose proof (Z.div_mod n 20 ltac:(lia)) as Hdiv.
    pose proof (Z.mod_pos_bound n 20 ltac:(lia)) as Hmod.
    destruct (n <? 20)%Z eqn:Hn.
    + apply Z.ltb_lt in Hn. apply Z.leb_le. lia.
    + apply Z.ltb_ge in Hn. apply Z.leb_gt. lia.
  - destruct H as [e ->]. cbn. by eexists _, _.
Qed.

(** The iteration for page 1: it is the last one when the page announces
    few results, and page 2 comes next when it announces 20 or more. *)
Lemma scrape_loop_first_page E fuel all_results category region w r w' :
  QualitEnrScraper.scrape_loop E (S fuel) 1 all_results category region w
  = (r, w') ->
  (exists t,
      trace w' = trace w ++ t /\ pages_scraped t = [1] /\ r <> Ok None
      /\ forall res, r = Ok (Some res) ->
                     exists html, few_results (BeautifulSoup E html) = true)
  \/ (exists html results w4 t,
        few_results (BeautifulSoup E html) = false
        /\ trace w4 = trace w ++ t /\ pages_scraped t = [1]
        /\ QualitEnrScraper.scrape_loop E fuel 2 (all_results ++ results)
             category region w4 = (r, w')).
Proof.
  intros Hrun.
  cbn [QualitEnrScraper.scrape_loop] in Hrun. cbv zeta in Hrun.
  apply bind_inv in Hrun as [(e & [=] & _) | ([] & w0 & [= <-] & Hrun)].
  apply bind_inv in Hrun as [(e & Hm & ->) | (resp & w1 & Hm & Hrun)].
  { destruct (preserves_run _ _ _ _ _
                (make_request_no_page_start E _ "GET" None None None) Hm)
      as (t1 & Ht1 & HF1).
    left. exists ([Log INFO (MsgScrapingPage 1 category region)] ++ t1).
    split; [by rewrite Ht1; cbn; rewrite <- app_assoc|].
    split; [|by split].
    cbn. by rewrite (pages_scraped_none t1 HF1). }
  destruct (preserves_run _ _ _ _ _
              (make_request_no_page_start E _ "GET" None None None) Hm)
    as (t1 & Ht1 & HF1).
  cbn in Ht1.
  apply bind_inv in Hrun as [(e & [=] & _) | (s & w2 & [= <- <-] & Hrun)].
  destruct (total_pages_on_first (BeautifulSoup E (text resp))
              (log DEBUG MsgParsingHtml w1).2) as (tp & w3 & Htp & Hfew).
  destruct (preserves_run _ _ _ _ _ (total_pages_on_no_page_start _ _) Htp)
    as (t2 & Ht2 & HF2).
  cbn in Ht2.
  apply bind_inv in Hrun as [(e & Hm2 & _) | (tp' & w3' & Hm2 & Hrun)];
    pose proof (eq_trans (eq_sym Htp) Hm2) as Heq; [done|].
  injection Heq as <- <-. clear Hm2.
  apply bind_inv in Hrun as [(e & Hp & ->) | (results & w4 & Hp & Hrun)].
  { destruct (preserves_run _ _ _ _ _
                (process_items_no_page_start E _ category []) Hp)
      as (t3 & Ht3 & HF3).
    left. exists ([Log INFO (MsgScrapingPage 1 category region)] ++ t1
                  ++ [Log DEBUG MsgParsingHtml] ++ t2 ++ t3).
    split; [by rewrite Ht3, Ht2, Ht1, <- !app_assoc|].
    split; [|by split].
    cbn. rewrite !pages_scraped_app, (pages_scraped_none t1 HF1).
    cbn. by rewrite !pages_scraped_app, (pages_scraped_none t2 HF2),
           (pages_scraped_none t3 HF3). }
  destruct (preserves_run _ _ _ _ _
              (process_items_no_page_start E _ category []) Hp)
    as (t3 & Ht3 & HF3).
  apply bind_inv in Hrun as [(e & [=] & _) | ([] & w5 & [= <-] & Hrun)].
  set (t := [Log INFO (MsgScrapingPage 1 category region)] ++ t1
            ++ [Log DEBUG MsgParsingHtml] ++ t2 ++ t3
            ++ [Log INFO (MsgPageCompleted 1 tp (length results))]).
  assert (Hpages : pages_scraped t = [1]).
  { subst t. cbn. rewrite !pages_scraped_app, (pages_scraped_none t1 HF1).
    cbn. by rewrite !pages_scraped_app, (pages_scraped_none t2 HF2),
           (pages_scraped_none t3 HF3). }
  rewrite Hfew in Hrun.
  destruct (few_results (BeautifulSoup E (text resp))) eqn:Hf.
  - injection Hrun as <- <-. left. exists t.
    split; [subst t; cbn; by rewrite Ht3, Ht2, Ht1, <- !app_assoc|].
    split; [done|]. split; [done|]. intros _ _. by exists (text resp).
  - right.
    match type of Hrun with
    | QualitEnrScraper.scrape_loop _ _ _ _ _ _ ?w5 = _ =>
        exists (text resp), results, w5, t
    end.
    split; [done|]. split; [|split; [done | exact Hrun]].
    subst t. cbn. by rewrite Ht3, Ht2, Ht1, <- !app_assoc.
Qed.

Lemma scrape_pages E fuel category region w r w' t :
  QualitEnrScraper.scrape_loop E fuel 1 [] category region
    (log INFO (MsgStartingScrape category region) w).2 = (r, w') ->
  trace w' = trace (log INFO (MsgStartingScrape category region) w).2 ++ t ->
  pages_scraped
    (new_events w
       (QualitEnrScraper.scrape_region_category E fuel category region w).2)
  = pages_scraped t
  /\ (QualitEnrScraper.scrape_region_category E fuel category region w).1
     = match r with
       | Ok (Some all_results) => Ok (Some all_results)
       | Ok None => Ok None
       | Raise e => Raise e
       end.
Proof.
  intros Hrun Ht.
  assert (Heq : QualitEnrScraper.scrape_region_category E fuel category region w
                = match r with
                  | Ok (Some all_results) =>
                      (Ok (Some all_results),
                       (log INFO (MsgCompletedScrape category region
                                    (length all_results)) w').2)
                  | Ok None => (Ok None, w')
                  | Raise e => (Raise e, w')
                  end).
  { unfold QualitEnrScraper.scrape_region_category.
    unfold bind at 1.
    change (log INFO (MsgStartingScrape category region) w)
      with (Ok tt, (log INFO (MsgStartingScrape category region) w).2).
    cbv beta iota. unfold bind at 1. rewrite Hrun.
    by destruct r as [[all_results|]|e]. }
  rewrite Heq. clear Heq.
  destruct r as [[all_results|]|e]; cbn [fst snd]; (split; [|done]).
  - rewrite (new_events_app w _
               ([Log INFO (MsgStartingScrape category region)] ++ t
                ++ [Log INFO (MsgCompletedScrape category region
                                (length all_results))])).
    + rewrite !pages_scraped_app. cbn. by rewrite app_nil_r.
    + cbn. rewrite Ht. cbn. by rewrite <- !app_assoc.
  - rewrite (new_events_app w w'
               ([Log INFO (MsgStartingScrape category region)] ++ t)); [done|].
    rewrite Ht. cbn. by rewrite <- app_assoc.
  - rewrite (new_events_app w w'
               ([Log INFO (MsgStartingScrape category region)] ++ t)); [done|].
    rewrite Ht. cbn. by rewrite <- app_assoc.
Qed.



(** * The constructor *)

Lemma rev_cons c s : String.rev (String c s) = String.rev s +:+ String c "".
Proof. unfold String.rev at 1. simpl. apply rev_app_spec. Qed.

Lemma rev_append a b : String.rev (a +:+ b) = String.rev b +:+ String.rev a.
Proof.
  induction a as [|c a IH]; [by rewrite append_nil_r|].
  by rewrite append_cons, !rev_cons, IH, append_assoc.
Qed.

Lemma rev_involutive s : String.rev (String.rev s) = s.
Proof.
  induction s as [|c s IH]; [done|].
  by rewrite rev_cons, rev_append, IH.
Qed.

Lemma slashes_snoc k : slashes k +:+ "/" = String "/" (slashes k).
Proof. induction k as [|k IH]; [done|]. simpl. by rewrite append_cons, IH. Qed.

Lemma rev_slashes k : String.rev (slashes k) = slashes k.
Proof.
  induction k as [|k IH]; [done|].
  simpl. by rewrite rev_cons, IH, slashes_snoc.
Qed.

Lemma lstrip_slash_split s :
  exists k, s = slashes k +:+ BaseScraper.lstrip_slash s.
Proof.
  induction s as [|c s [k IH]]; [by exists 0%nat|].
  destruct (decide (c = "/"%char)) as [->|Hc].
  - exists (S k). simpl. by rewrite append_cons, <- IH.
  - exists 0%nat.
    destruct c as [[] [] [] [] [] [] [] []]; try done.
Qed.

Lemma lstrip_slash_head s t : BaseScraper.lstrip_slash s <> String "/" t.
Proof.
  induction s as [|c s IH]; [done|].
  destruct (decide (c = "/"%char)) as [->|Hc]; [exact IH|].
  destruct c as [[] [] [] [] [] [] [] []]; simpl; congruence.
Qed.

(** [rstrip('/')] takes the slashes off the end, and only them. *)
Lemma rstrip_slash_split b :
  exists k, b = BaseScraper.rstrip_slash b +:+ slashes k.
Proof.
  unfold BaseScraper.rstrip_slash.
  destruct (lstrip_slash_split (String.rev b)) as [k Hk].
  exists k. rewrite <- (rev_slashes k), <- rev_append, <- Hk.
  by rewrite rev_involutive.
Qed.

Lemma rstrip_slash_end b p : BaseScraper.rstrip_slash b <> p +:+ "/".
Proof.
  unfold BaseScraper.rstrip_slash. intros H.
  apply (f_equal String.rev) in H.
  rewrite rev_involutive, rev_append in H.
  by apply lstrip_slash_head in H.
Qed.

(** X21: The base URL that the constructor keeps is the one given without the
    slashes at its end; none is kept for a missing or empty one. *)
Theorem init_base_url_without_trailing_slash name base curl headers cookies
    delay retries out h :
  match base_url (BaseScraper.__init__ name base curl headers cookies delay
                    retries out h).1 with
  | Some kept =>
      exists b k, base = Some b /\ b = kept +:+ slashes k
                  /\ forall p, kept <> p +:+ "/"
  | None => base = None \/ base = Some ""
  end.
Proof.
  unfold BaseScraper.__init__.
  repeat match goal with
         | |- context [let '(_, _) := ?x in _] => destruct x
         end.
  cbn [fst base_url].
  destruct base as [[|c b]|]; cbn [BaseScraper.nonempty]; [by right | | by left].
  destruct (rstrip_slash_split (String c b)) as [k Hk].
  exists (String c b), k. split; [done|]. split; [exact Hk|].
  apply rstrip_slash_end.
Qed.

Lemma fresh_loc_unused (h : gmap nat dict) : h !! fresh (dom h) = None.
Proof. apply not_elem_of_dom, is_fresh. Qed.

Lemma fallback_user_agent (hd : dict) :
  exists ua,
    BaseScraper.merged hd (list_to_map BaseScraper.fallback_headers)
      !! "User-Agent" = Some ua
    /\ ua <> "".
Proof.
  eexists. split; [|shelve].
  rewrite merged_lookup. reflexivity.
  Unshelve. discriminate.
Qed.

(** The constructor, by the dictionaries it settles on. *)
Lemma init_by_adopted name base curl headers cookies delay retries out h :
  BaseScraper.__init__ name base curl headers cookies delay retries out h
  = let '(lh, h1) := adopted headers h in
    let '(lc, h2) := adopted cookies h1 in
    let hd := default ∅ (h2 !! lh) in
    ({| site_name := name;
        base_url := match base with
                    | Some b => if BaseScraper.nonempty b
                                then Some (BaseScraper.rstrip_slash b) else None
                    | None => None
                    end;
        use_curl := curl;
        default_headers := lh;
        default_cookies := lc;
        request_delay := delay;
        max_retries := retries;
        request_count := 0;
        output_file := out |},
     if BaseScraper.nonempty (default "" (hd !! "User-Agent")) then h2
     else <[lh := BaseScraper.merged hd
                    (list_to_map BaseScraper.fallback_headers)]> h2).
Proof. reflexivity. Qed.

Lemma adopted_exists arg h : is_Some ((adopted arg h).2 !! (adopted arg h).1).
Proof.
  unfold adopted.
  destruct arg as [l|]; [destruct (h !! l) as [d|] eqn:Hl;
                         [destruct (decide (d = ∅))|] |];
    cbn; rewrite ?lookup_insert_eq; eauto.
Qed.

(** Settling on a dictionary leaves those that exist as they are. *)
Lemma adopted_keeps arg h l :
  is_Some (h !! l) -> (adopted arg h).2 !! l = h !! l.
Proof.
  intros Hl. unfold adopted.
  assert (l <> fresh (dom h)).
  { intros ->. rewrite fresh_loc_unused in Hl. by destruct Hl. }
  destruct arg as [l0|]; [destruct (h !! l0) as [d|] eqn:Hl0;
                          [destruct (decide (d = ∅))|] |];
    cbn; rewrite ?lookup_insert_ne by done; done.
Qed.

(** X19: Whatever it is given, the constructor leaves a scraper whose default
    headers and cookies are dictionaries that exist, whose headers carry
    a non-empty [User-Agent], and whose request counter is 0. *)
Theorem init_installs_user_agent name base curl headers cookies delay
    retries out h :
  (exists hd ua,
      (BaseScraper.__init__ name base curl headers cookies delay retries out
         h).2
        !! default_headers
             (BaseScraper.__init__ name base curl headers cookies delay
                retries out h).1 = Some hd
      /\ hd !! "User-Agent" = Some ua /\ ua <> "")
  /\ is_Some
       ((BaseScraper.__init__ name base curl headers cookies delay retries out
           h).2
          !! default_cookies
               (BaseScraper.__init__ name base curl headers cookies delay
                  retries out h).1)
  /\ request_count
       (BaseScraper.__init__ name base curl headers cookies delay retries out
          h).1 = 0.
Proof.
  rewrite init_by_adopted.
  pose proof (adopted_exists headers h) as Hh.
  destruct (adopted headers h) as [lh h1]. cbn [fst snd] in Hh.
  pose proof (adopted_exists cookies h1) as Hc.
  pose proof (adopted_keeps cookies h1 lh Hh) as Hh2.
  destruct (adopted cookies h1) as [lc h2]. cbn [fst snd] in Hc, Hh2.
  cbv zeta. cbn [fst snd default_headers default_cookies request_count].
  destruct Hh as [hd Hhd]. rewrite Hhd in Hh2. rewrite Hh2. cbn [from_option id].
  destruct (BaseScraper.nonempty (default "" (hd !! "User-Agent"))) eqn:Hua.
  - split; [|done]. exists hd.
    destruct (hd !! "User-Agent") as [ua|]; [|done].
    exists ua. split; [done|]. split; [done|]. by intros ->.
  - split; [|split; [|done]].
    + destruct (fallback_user_agent hd) as (ua & Hl & Hne).
      eexists _, ua. rewrite lookup_insert_eq. done.
    + destruct (decide (lc = lh)) as [->|Hne].
      * rewrite lookup_insert_eq. eauto.
      * by rewrite lookup_insert_ne.
Qed.

(** X20: What becomes of a dictionary passed as [default_headers].  An empty
    one is left aside and stays empty: the scraper takes a new dictionary,
    which gets the fallback headers.  Any other one becomes the
    scraper's own dictionary, the same object: it is as it was when it
    carries a non-empty [User-Agent], and is updated in place with the
    fallback headers, which override its entries, when it does not. *)
Theorem init_headers_argument name base curl l cookies delay retries out h d :
  h !! l = Some d ->
  (d = ∅ ->
   default_headers
     (BaseScraper.__init__ name base curl (Some l) cookies delay retries out
        h).1 <> l
   /\ (BaseScraper.__init__ name base curl (Some l) cookies delay retries out
         h).2 !! l = Some ∅
   /\ (BaseScraper.__init__ name base curl (Some l) cookies delay retries out
         h).2
        !! default_headers
             (BaseScraper.__init__ name base curl (Some l) cookies delay
                retries out h).1
      = Some (list_to_map BaseScraper.fallback_headers))
  /\ (d <> ∅ ->
      default_headers
        (BaseScraper.__init__ name base curl (Some l) cookies delay retries
           out h).1 = l
      /\ (BaseScraper.__init__ name base curl (Some l) cookies delay retries
            out h).2 !! l
         = Some (if BaseScraper.nonempty (default "" (d !! "User-Agent"))
                 then d
                 else BaseScraper.merged d
                        (list_to_map BaseScraper.fallback_headers))).
Proof.
  intros Hl. rewrite init_by_adopted.
  assert (Ha : adopted (Some l) h
               = if decide (d = ∅)
                 then (fresh (dom h), <[fresh (dom h) := ∅]> h) else (l, h)).
  { unfold adopted. rewrite Hl. by destruct (decide (d = ∅)). }
  rewrite Ha. clear Ha.
  assert (Hfresh : l <> fresh (dom h)).
  { intros Heq. rewrite Heq, fresh_loc_unused in Hl. done. }
  destruct (decide (d = ∅)) as [->|Hd]; (split; [|done]) || (split; [done|]).
  - intros _. cbv beta iota zeta.
    pose proof (adopted_keeps cookies (<[fresh (dom h) := ∅]> h)
                  (fresh (dom h))) as Hlh.
    rewrite lookup_insert_eq in Hlh. specialize (Hlh ltac:(eauto)).
    pose proof (adopted_keeps cookies (<[fresh (dom h) := ∅]> h) l) as Hkl.
    rewrite lookup_insert_ne, Hl in Hkl by done. specialize (Hkl ltac:(eauto)).
    destruct (adopted cookies (<[fresh (dom h) := ∅]> h)) as [lc h2].
    cbn [fst snd default_headers] in *.
    rewrite Hlh. cbn [from_option id BaseScraper.nonempty].
    rewrite lookup_empty. cbn [from_option id BaseScraper.nonempty].
    split; [done|]. split.
    + by rewrite lookup_insert_ne.
    + rewrite lookup_insert_eq. unfold BaseScraper.merged.
      by rewrite (right_id_L ∅ (∪)).
  - intros _.
    pose proof (adopted_keeps cookies h l) as Hkl.
    rewrite Hl in Hkl. specialize (Hkl ltac:(eauto)).
    cbv beta iota zeta.
    destruct (adopted cookies h) as [lc h2].
    cbv beta iota zeta. cbn [fst snd default_headers] in *.
    rewrite Hkl. cbn [from_option id].
    split; [done|].
    destruct (BaseScraper.nonempty (default "" (d !! "User-Agent")));
      [done | by rewrite lookup_insert_eq].
Qed.

Lemma init_headers_argument_witness :
  ({[ 7%nat := {[ "Accept" := "application/json"; "X-Token" := "t" ]} ]}
     : gmap nat dict) !! 7%nat
  = Some {[ "Accept" := "application/json"; "X-Token" := "t" ]}
  /\ default_headers
       (BaseScraper.__init__ "sample" None false (Some 7%nat) (Some 7%nat)
          None 3 "out.csv"
          {[ 7%nat := {[ "Accept" := "application/json"; "X-Token" := "t" ]} ]}).1
     = 7%nat
  /\ (BaseScraper.__init__ "sample" None false (Some 7%nat) (Some 7%nat)
        None 3 "out.csv"
        {[ 7%nat := {[ "Accept" := "application/json"; "X-Token" := "t" ]} ]}).2
       !! 7%nat
     = Some (BaseScraper.merged
               {[ "Accept" := "application/json"; "X-Token" := "t" ]}
               (list_to_map BaseScraper.fallback_headers)).
Proof.
  assert (H : ({[ 7%nat := {[ "Accept" := "application/json"; "X-Token" := "t" ]} ]}
                 : gmap nat dict) !! 7%nat
              = Some {[ "Accept" := "application/json"; "X-Token" := "t" ]})
    by reflexivity.
  split; [exact H|].
  apply (init_headers_argument "sample" None false 7%nat (Some 7%nat) None 3
           "out.csv" _ _ H).
  intros Heq. apply (f_equal (fun m : dict => m !! "X-Token")) in Heq.
  discriminate Heq.
Defined.

(** * The request counter over a scrape *)

#[global] Instance counting_preorder : PreOrder counting.
Proof.
  split.
  - intros w Hw. split; [done|]. unfold counted. lia.
  - intros w1 w2 w3 H12 H23 Hw.
    destruct (H12 Hw) as [Hw2 Hc12]. destruct (H23 Hw2) as [Hw3 Hc23].
    split; [done|]. unfold counted in *. lia.
Qed.

Lemma well_formed_kept w w' :
  defaults_kept w w' -> well_formed w -> well_formed w'.
Proof.
  intros (Hh & Hc & Hl) [Hwh Hwc]. split.
  - rewrite Hh, Hl; done.
  - rewrite Hc, Hl; done.
Qed.

(** A computation that leaves the scraper object, the dictionaries and
    the exchanges alone keeps the count. *)
Lemma counting_of_object_kept {A} (m : M A) :
  preserves object_kept m -> preserves counting m.
Proof.
  intros H w [Hh Hc]. destruct (H w) as (Hs & Hhp & Hx & _).
  split.
  - split; by rewrite Hs, Hhp.
  - unfold counted. rewrite Hs, Hx. lia.
Qed.
#[export] Hint Extern 3 (preserves counting _) =>
  apply counting_of_object_kept; solve [auto with keeps] : keeps.

Lemma make_request_counting E url method headers cookies att :
  preserves counting
    (BaseScraper.make_request E url method headers cookies att).
Proof.
  intros w Hwf.
  destruct (make_request_full E url method headers cookies att w Hwf)
    as (n & w' & -> & _ & _ & _ & Hd & Hx & Hn & _).
  cbn [snd]. split; [by apply (well_formed_kept w)|].
  unfold counted. lia.
Qed.
#[export] Hint Resolve make_request_counting : keeps.

Lemma details_counting E link category :
  preserves counting (QualitEnrScraper._get_company_details E link category).
Proof. unfold_scraper. keeps. Qed.

Lemma save_to_csv_counting data filename fieldnames mode :
  preserves counting (BaseScraper.save_to_csv data filename fieldnames mode).
Proof. apply counting_of_object_kept, save_to_csv_object_kept. Qed.

Lemma scrape_counting E fuel category region :
  preserves counting
    (QualitEnrScraper.scrape_region_category E fuel category region).
Proof.
  apply (scrape_region_category_preserves counting E); intros.
  - apply details_counting.
  - apply save_to_csv_counting.
  - apply make_request_counting.
  - auto with keeps.
Qed.



(** * [clean_text] *)

Section CleanTextProps.
Import CleanText.

Lemma sub_spaces_spaced t : forall b, spaced_go b (sub_spaces b t) = true.
Proof.
  induction t as [|c t IH]; intros b; [done|].
  simpl. destruct (isspace c) eqn:Hc.
  - destruct b; [apply IH|]. simpl. by rewrite IH.
  - simpl. by rewrite Hc, IH.
Qed.

(** No newline or carriage return is left to replace once the runs of
    white space are single spaces. *)
Lemma spaced_no_newline t : forall b,
  spaced_go b t = true ->
  replace_char RETURN SPACE (replace_char NEWLINE SPACE t) = t.
Proof.
  unfold replace_char.
  induction t as [|c t IH]; intros b H; [done|].
  simpl in H. cbn [fmap list_fmap]. destruct (isspace c) eqn:Hc.
  - apply andb_prop in H as [H Ht]. apply andb_prop in H as [Heq _].
    apply N.eqb_eq in Heq. subst c. f_equal. by apply (IH true).
  - rewrite (IH false H). f_equal.
    destruct (c =? NEWLINE)%N eqn:H1; [by apply N.eqb_eq in H1; subst c|].
    destruct (c =? RETURN)%N eqn:H2; [by apply N.eqb_eq in H2; subst c|].
    done.
Qed.

Lemma clean_text_eq t b :
  clean_text t b = strip (sub_spaces false t).
Proof.
  destruct t as [|c t]; [done|]. unfold clean_text.
  destruct b; [done|]. cbn [negb].
  by rewrite (spaced_no_newline _ false (sub_spaces_spaced _ _)).
Qed.

Lemma lstrip_spaced t :
  spaced_go false t = true ->
  lstrip t = [] \/ spaced_go true (lstrip t) = true.
Proof.
  destruct t as [|c t]; [by left|]. simpl.
  destruct (isspace c) eqn:Hc.
  - intros H. apply andb_prop in H as [_ Ht].
    destruct t as [|c' t]; [by left|]. simpl in *.
    destruct (isspace c') eqn:Hc'.
    + by rewrite andb_false_r in Ht.
    + right. simpl. by rewrite Hc'.
  - intros H. right. simpl. by rewrite Hc.
Qed.

Lemma tidy_go_cons p c t :
  tidy_go p (c :: t)
  = if isspace c then (c =? SPACE)%N && negb p && tidy_go true t
    else tidy_go false t.
Proof. reflexivity. Qed.

Lemma rstrip_tidy t : forall p,
  spaced_go p t = true -> rstrip t = [] \/ tidy_go p (rstrip t) = true.
Proof.
  induction t as [|c t IH]; intros p H; [by left|].
  simpl in H. cbn [rstrip]. destruct (isspace c) eqn:Hc.
  - apply andb_prop in H as [H Ht]. apply andb_prop in H as [Heq Hp].
    destruct (IH true Ht) as [-> | Hr]; [by left|].
    destruct (rstrip t) as [|x r]; [by left|].
    right. by rewrite tidy_go_cons, Hc, Heq, Hp, Hr.
  - destruct (IH false H) as [-> | Hr].
    + right. simpl. by rewrite Hc.
    + destruct (rstrip t) as [|x r] eqn:Hrt.
      * right. simpl. by rewrite Hc.
      * right. by rewrite tidy_go_cons, Hc.
Qed.

Lemma sub_spaces_letters t : forall b, letters (sub_spaces b t) = letters t.
Proof.
  induction t as [|c t IH]; intros b; [done|].
  simpl. destruct (isspace c) eqn:Hc.
  - destruct b; [apply IH|]. simpl. apply IH.
  - simpl. by rewrite Hc, IH.
Qed.

Lemma lstrip_letters t : letters (lstrip t) = letters t.
Proof.
  induction t as [|c t IH]; [done|].
  simpl. destruct (isspace c) eqn:Hc; [exact IH|]. simpl. by rewrite Hc.
Qed.

Lemma rstrip_letters t : letters (rstrip t) = letters t.
Proof.
  induction t as [|c t IH]; [done|].
  cbn [rstrip]. destruct (rstrip t) as [|x r] eqn:Hr.
  - simpl in *. destruct (isspace c) eqn:Hc; [done|].
    simpl. by rewrite Hc, <- IH.
  - change (letters (c :: x :: r))
      with (if isspace c then letters (x :: r) else c :: letters (x :: r)).
    rewrite IH. reflexivity.
Qed.

(** X22: The flag [preserve_newlines] changes nothing: the substitution of
    line 523 has turned every newline into a space before the flag is
    looked at, so newlines are never preserved. *)
Theorem clean_text_ignores_preserve_newlines t :
  clean_text t true = clean_text t false.
Proof. by rewrite !clean_text_eq. Qed.

(** X23: What [clean_text] returns has no white space but single spaces, each
    between two characters that are not white space; the characters that
    are not white space are those of the text given, in the same
    order. *)
Theorem clean_text_tidy t b :
  tidy (clean_text t b) = true
  /\ letters (clean_text t b) = letters t.
Proof.
  rewrite clean_text_eq. unfold strip. split.
  - destruct (lstrip_spaced _ (sub_spaces_spaced t false)) as [-> | H]; [done|].
    destruct (rstrip_tidy _ _ H) as [-> | Ht]; [done|].
    unfold tidy. by destruct (rstrip _).
  - by rewrite rstrip_letters, lstrip_letters, sub_spaces_letters.
Qed.

Lemma tidy_sub_spaces t : forall p,
  tidy_go p t = true -> sub_spaces p t = t.
Proof.
  induction t as [|c t IH]; intros p H; [done|].
  simpl in *. destruct (isspace c) eqn:Hc.
  - apply andb_prop in H as [H Ht]. apply andb_prop in H as [Heq Hp].
    apply N.eqb_eq in Heq. destruct p; [done|]. by rewrite (IH true Ht), Heq.
  - by rewrite (IH false H).
Qed.

Lemma tidy_rstrip t : forall p, tidy_go p t = true -> rstrip t = t.
Proof.
  induction t as [|c t IH]; intros p H; [done|].
  simpl in H. cbn [rstrip]. destruct (isspace c) eqn:Hc.
  - apply andb_prop in H as [_ Ht]. rewrite (IH true Ht).
    by destruct t.
  - rewrite (IH false H). by destruct t.
Qed.

(** X24: A text that is tidy already comes back as it is. *)
Theorem clean_text_keeps_tidy t b : tidy t = true -> clean_text t b = t.
Proof.
  intros H. rewrite clean_text_eq.
  destruct t as [|c t]; [done|]. unfold tidy in H.
  assert (Hc : isspace c = false).
  { simpl in H. destruct (isspace c); [|done]. by rewrite andb_false_r in H. }
  assert (H' : tidy_go false (c :: t) = true).
  { simpl in *. by rewrite Hc in *. }
  rewrite (tidy_sub_spaces _ _ H'). unfold strip.
  assert (Hl : lstrip (c :: t) = c :: t) by (simpl; by rewrite Hc).
  rewrite Hl. by apply (tidy_rstrip _ true).
Qed.

Lemma clean_text_keeps_tidy_witness :
  tidy [233; 32; 98; 32; 99]%N = true
  /\ clean_text [233; 32; 98; 32; 99]%N false = [233; 32; 98; 32; 99]%N.
Proof.
  split; [reflexivity|].
  exact (clean_text_keeps_tidy [233; 32; 98; 32; 99]%N false eq_refl).
Defined.
End CleanTextProps.

(** * The script *)

Lemma saved_and_counted_refl w : well_formed w -> saved_and_counted w w [].
Proof.
  intros Hw. split; [done|]. split; [unfold counted; lia|].
  split; [done|]. by split.
Qed.

Lemma saved_and_counted_trans w w1 w2 n1 n2 :
  saved_and_counted w w1 n1 -> saved_and_counted w1 w2 n2 ->
  saved_and_counted w w2 (n1 ++ n2).
Proof.
  intros (Hw1 & Hc1 & Ho1 & Ha1 & Hf1) (Hw2 & Hc2 & Ho2 & Ha2 & Hf2).
  split; [done|]. split; [unfold counted in *; lia|].
  split; [congruence|]. split; [by apply Forall_app|].
  rewrite Hf2, Ho1. by apply files_after_app.
Qed.

Lemma saved_header_ready w w' new :
  header_ready (fs w !! output_file (self w)) = true ->
  saved_and_counted w w' new ->
  header_ready (fs w' !! output_file (self w')) = true.
Proof.
  intros Hr (_ & _ & Ho & _ & Hf). rewrite Ho.
  by apply (header_ready_after new _ w).
Qed.

(** One scrape of the script. *)
Lemma scrape_step E fuel category region w r w' :
  well_formed w ->
  header_ready (fs w !! output_file (self w)) = true ->
  QualitEnrScraper.scrape_region_category E (S (S fuel)) category region w
  = (r, w') ->
  r <> Ok None
  /\ exists new,
      saved_and_counted w w' new
      /\ match r with Ok (Some results) => results = new | _ => True end.
Proof.
  intros Hw Hr Hrun.
  pose proof (scrape_visits_two_pages_at_most E fuel category region w)
    as [Hsome _].
  pose proof (scrape_counting E (S (S fuel)) category region w Hw) as [Hw' Hc].
  rewrite Hrun in Hsome, Hw', Hc. cbn [fst snd] in *.
  split; [exact Hsome|].
  destruct (scrape_saves _ _ _ _ _ _ _ Hr Hrun) as (new & Hall & Hfs & Ho & Hres).
  exists new.
  split; [exact (conj Hw' (conj Hc (conj Ho (conj Hall Hfs)))) | exact Hres].
Qed.

Lemma for_categories_saves E fuel region categories :
  forall all_data w r w',
    well_formed w ->
    header_ready (fs w !! output_file (self w)) = true ->
    Script.for_categories E (S (S fuel)) categories region all_data w
    = (r, w') ->
    r <> Ok None
    /\ exists new,
        saved_and_counted w w' new
        /\ match r with
           | Ok (Some results) => results = all_data ++ new
           | _ => True
           end.
Proof.
  induction categories as [|category rest IH]; intros all_data w r w' Hw Hr Hrun.
  - injection Hrun as <- <-. split; [done|]. exists [].
    split; [by apply saved_and_counted_refl | by rewrite app_nil_r].
  - cbn [Script.for_categories] in Hrun.
    apply bind_inv in Hrun as [(e & Hs & ->) | (res & w1 & Hs & Hrun)].
    + destruct (scrape_step _ _ _ _ _ _ _ Hw Hr Hs) as (_ & new & Hsc & _).
      split; [done|]. by exists new.
    + destruct (scrape_step _ _ _ _ _ _ _ Hw Hr Hs) as (Hsome & new & Hsc & Hres).
      destruct res as [region_data|]; [|done]. subst region_data.
      destruct (IH _ _ _ _ (proj1 Hsc) (saved_header_ready _ _ _ Hr Hsc) Hrun)
        as (Hsome' & new' & Hsc' & Hres').
      split; [done|]. exists (new ++ new').
      split; [by apply (saved_and_counted_trans w w1)|].
      destruct r as [[results|]|]; [|done..]. by rewrite Hres', <- app_assoc.
Qed.

Lemma for_regions_saves E fuel regions :
  forall all_data w r w',
    well_formed w ->
    header_ready (fs w !! output_file (self w)) = true ->
    Script.for_regions E (S (S fuel)) regions all_data w = (r, w') ->
    r <> Ok None
    /\ exists new,
        saved_and_counted w w' new
        /\ match r with
           | Ok (Some results) => results = all_data ++ new
           | _ => True
           end.
Proof.
  induction regions as [|region rest IH]; intros all_data w r w' Hw Hr Hrun.
  - injection Hrun as <- <-. split; [done|]. exists [].
    split; [by apply saved_and_counted_refl | by rewrite app_nil_r].
  - cbn [Script.for_regions] in Hrun.
    apply bind_inv in Hrun as [(e & Hs & ->) | (res & w1 & Hs & Hrun)].
    + destruct (for_categories_saves _ _ _ _ _ _ _ _ Hw Hr Hs)
        as (_ & new & Hsc & _).
      split; [done|]. by exists new.
    + destruct (for_categories_saves _ _ _ _ _ _ _ _ Hw Hr Hs)
        as (Hsome & new & Hsc & Hres).
      destruct res as [data|]; [|done]. subst data.
      destruct (IH _ _ _ _ (proj1 Hsc) (saved_header_ready _ _ _ Hr Hsc) Hrun)
        as (Hsome' & new' & Hsc' & Hres').
      split; [done|]. exists (new ++ new').
      split; [by apply (saved_and_counted_trans w w1)|].
      destruct r as [[results|]|]; [|done..]. by rewrite Hres', <- app_assoc.
Qed.


